(** * examportal: the exam-attempt engine, authoring validation and review

    A shallow embedding of the logic of the React components

    - [src/pages/student/MyResults.js]  (the results page and the two
      revisions of [TakeExam] that the file carries),
    - [src/pages/teacher/CreateExam.js] ([handleSubmit]),
    - [src/pages/teacher/ViewSubmissions.js] ([handleGradeChange],
      [calculateFinalScore], [handleSubmitGrades]),
    - the student [ExamHistory] page,

    followed by the properties of the specification, stated over it.

    Conventions.  A JavaScript number that the code only counts with or
    uses as an index (question points, option indices, seconds) is a [Z];
    a number that goes through [/], [*] or [Math.round], [Math.min],
    [Math.max] is a binary64 [float], the same format a JavaScript engine
    uses, so that the percentage is computed with the rounding of the
    program.  React state is a record; a handler is a function of the
    render snapshot it closed over. *)

From Stdlib Require Import ZArith Lia Bool.
From Stdlib Require Import Floats.PrimFloat Floats.SpecFloat Floats.FloatOps Floats.FloatAxioms.
From Stdlib Require Uint63.
From stdpp Require Import base option list gmap strings pretty.

Local Open Scope Z_scope.

(* ===================================================================== *)
(** ** JavaScript numbers                                                 *)
(* ===================================================================== *)

Module JS.

(** A whole number as a JavaScript number: exact below 2^53, the nearest
    double from there to below 2^63; the model makes no use of it from
    2^63 on, where [Uint63.of_Z] wraps. *)
Definition of_Z (z : Z) : float :=
  if z <? 0 then PrimFloat.opp (PrimFloat.of_uint63 (Uint63.of_Z (- z)))
  else PrimFloat.of_uint63 (Uint63.of_Z z).

(** What [Math.round] can return. *)
Inductive rounded : Type :=
| RInt (z : Z)
| RNaN
| RPosInf
| RNegInf.

Definition rounded_eqb (a b : rounded) : bool :=
  match a, b with
  | RInt x, RInt y => x =? y
  | RPosInf, RPosInf | RNegInf, RNegInf => true
  | _, _ => false            (* NaN is equal to nothing *)
  end.

(** [Math.round x]: the integer nearest to [x], a tie going up.  The
    value of a finite double [(-1)^s * m * 2^e] is read exactly. *)
Definition Math_round (x : float) : rounded :=
  match Prim2SF x with
  | S754_nan => RNaN
  | S754_infinity s => if s then RNegInf else RPosInf
  | S754_zero _ => RInt 0
  | S754_finite s m e =>
      let v := if s then Z.neg m else Z.pos m in
      RInt (if 0 <=? e then v * 2 ^ e
            else (2 * v + 2 ^ (- e)) / (2 * 2 ^ (- e)))
  end.

(** Truthiness of a number: [0], [-0] and [NaN] are falsy. *)
Definition truthy (x : float) : bool :=
  negb (PrimFloat.is_nan x || PrimFloat.is_zero x).

(** [Math.max a b] and [Math.min a b]. *)
Definition Math_max (a b : float) : float :=
  if PrimFloat.is_nan a || PrimFloat.is_nan b then PrimFloat.nan
  else if PrimFloat.ltb a b then b
  else if PrimFloat.ltb b a then a
  else if PrimFloat.get_sign a then b else a.

Definition Math_min (a b : float) : float :=
  if PrimFloat.is_nan a || PrimFloat.is_nan b then PrimFloat.nan
  else if PrimFloat.ltb a b then a
  else if PrimFloat.ltb b a then b
  else if PrimFloat.get_sign a then a else b.

(** The comparisons [a <= b], [a < b] and [a == b] of two numbers; all
    three are false as soon as one side is [NaN]. *)
Definition num_le (a b : float) : Prop := PrimFloat.leb a b = true.
Definition num_lt (a b : float) : Prop := PrimFloat.ltb a b = true.
Definition num_eq (a b : float) : Prop := PrimFloat.eqb a b = true.

(** [Math.round((score / totalPoints) * 100)], the expression of all
    three scoring functions. *)
Definition percent (score totalPoints : float) : rounded :=
  Math_round (PrimFloat.mul (PrimFloat.div score totalPoints) (of_Z 100)).

(** [arr.forEach((x, index) => ...)] as a left fold that threads the
    accumulated variables; [i] is the index of the head. *)
Fixpoint forEach {A Acc : Type} (f : Acc -> A -> nat -> Acc)
         (l : list A) (i : nat) (s : Acc) : Acc :=
  match l with
  | [] => s
  | x :: l' => forEach f l' (S i) (f s x i)
  end.

(** [arr.findIndex(p)]: the first index whose element satisfies [p],
    [-1] when there is none. *)
Fixpoint findIndex_from {A : Type} (p : A -> bool) (l : list A) (i : Z) : Z :=
  match l with
  | [] => -1
  | x :: l' => if p x then i else findIndex_from p l' (i + 1)
  end.

Definition findIndex {A : Type} (p : A -> bool) (l : list A) : Z :=
  findIndex_from p l 0.

(** [[...Array(n).keys()]]. *)
Definition keys (n : nat) : list nat := seq 0 n.

End JS.

(* ===================================================================== *)
(** ** Documents                                                          *)
(* ===================================================================== *)

(** A question of an exam document (see [processedQuestions] in
    CreateExam.js). *)
Record Question : Type := mkQuestion {
  question : string;
  options : list string;
  correctAnswer : Z;
  points : Z
}.

(** An exam document ([examToSubmit] in CreateExam.js).  [passingScore]
    is [None] when the field is absent from the document. *)
Record Exam : Type := mkExam {
  title : string;
  timeLimit : Z;
  passingScore : option Z;
  isPublished : bool;
  shuffleQuestions : bool;
  allowReattempts : bool;
  questions : list Question;
  totalPoints : Z;
  createdBy : string
}.

(** Modelled from the spec: [utils/shuffle] ([shuffleArray]) is imported by
    both revisions of TakeExam but is not part of the sources; the spec
    says it computes "a uniform random permutation of question indices".
    The random draw is the argument [perm]: element [i] of the result is
    element [perm[i]] of the input. *)
Definition shuffleArray {A : Type} (perm : list nat) (l : list A) : list A :=
  omap (fun i => l !! i) perm.

(** The collection [submissions]: documents under an id chosen by the
    caller ([setDoc], [inl id]) or under a fresh automatic id ([addDoc],
    [inr n]). *)
Record Store (D : Type) : Type := mkStore {
  docs : gmap (string + nat) D;
  next_auto : nat
}.
Arguments mkStore {D} _ _.
Arguments docs {D} _.
Arguments next_auto {D} _.

Definition empty_store {D : Type} : Store D := mkStore ∅ 0%nat.

Definition setDoc {D : Type} (id : string) (d : D) (s : Store D) : Store D :=
  mkStore (<[inl id := d]> (docs s)) (next_auto s).

Definition addDoc {D : Type} (d : D) (s : Store D) : Store D :=
  mkStore (<[inr (next_auto s) := d]> (docs s)) (S (next_auto s)).

(** Every automatic id in use is below the counter. *)
Definition store_wf {D : Type} (s : Store D) : Prop :=
  forall n d, docs s !! inr n = Some d -> (n < next_auto s)%nat.

(** Who called [handleSubmit]: the expiry of the timer ([handleTimeUp]) or
    the button "Confirm Submit".  Kept with every write that is issued. *)
Inductive Trigger : Type := ByTimer | ByConfirm.

(** What can happen to a mounted TakeExam component. *)
Inductive Event : Type :=
| EvTick                          (* the interval callback fires *)
| EvAnswer (questionIndex : nat) (answerIndex : Z)   (* a radio button *)
| EvGoTo (index : nat)            (* a button of the question navigation *)
| EvRequestSubmit                 (* the button "Submit Exam" opens the dialog *)
| EvConfirm                       (* the button "Confirm Submit" of the dialog *)
| EvWriteDone (ok : bool).        (* the oldest pending write settles *)

(* ===================================================================== *)
(** ** TakeExam, first revision (MyResults.js, lines 358-799)             *)
(* ===================================================================== *)

Module V1.

Record OrderEntry : Type := mkOrder {
  shuffledIndex : Z;
  originalIndex : Z
}.

(** [submissionData] of [handleSubmit]; the two timestamps are left out. *)
Record Submission : Type := mkSubmission {
  sub_examId : string;
  sub_studentId : string;
  sub_teacherId : string;
  sub_answers : gmap Z Z;
  sub_score : JS.rounded;
  sub_timeSpent : Z;
  sub_flaggedQuestions : list Z;
  sub_bookmarkedQuestions : list Z;
  sub_questionOrder : option (list OrderEntry);
  sub_isAutoSubmitted : bool;
  sub_completedQuestions : nat;
  sub_totalQuestions : nat
}.

(** The [useState] cells of the component, as one render sees them. *)
Record State : Type := mkState {
  exam : option Exam;
  currentQuestion : nat;
  answers : gmap Z Z;
  timeLeft : option Z;
  submitting : bool;
  bookmarkedQuestions : list Z;
  flaggedQuestions : list Z;
  showConfirmSubmit : bool;
  shuffledQuestions : list Question;
  questionOrder : list OrderEntry;
  showTimeUpModal : bool
}.

Definition setAnswers (v : gmap Z Z) (s : State) : State :=
  mkState (exam s) (currentQuestion s) v (timeLeft s) (submitting s)
          (bookmarkedQuestions s) (flaggedQuestions s) (showConfirmSubmit s)
          (shuffledQuestions s) (questionOrder s) (showTimeUpModal s).

Definition setTimeLeft (v : option Z) (s : State) : State :=
  mkState (exam s) (currentQuestion s) (answers s) v (submitting s)
          (bookmarkedQuestions s) (flaggedQuestions s) (showConfirmSubmit s)
          (shuffledQuestions s) (questionOrder s) (showTimeUpModal s).

Definition setSubmitting (v : bool) (s : State) : State :=
  mkState (exam s) (currentQuestion s) (answers s) (timeLeft s) v
          (bookmarkedQuestions s) (flaggedQuestions s) (showConfirmSubmit s)
          (shuffledQuestions s) (questionOrder s) (showTimeUpModal s).

Definition setBookmarkedQuestions (v : list Z) (s : State) : State :=
  mkState (exam s) (currentQuestion s) (answers s) (timeLeft s) (submitting s)
          v (flaggedQuestions s) (showConfirmSubmit s)
          (shuffledQuestions s) (questionOrder s) (showTimeUpModal s).

Definition setFlaggedQuestions (v : list Z) (s : State) : State :=
  mkState (exam s) (currentQuestion s) (answers s) (timeLeft s) (submitting s)
          (bookmarkedQuestions s) v (showConfirmSubmit s)
          (shuffledQuestions s) (questionOrder s) (showTimeUpModal s).

Definition setShowTimeUpModal (v : bool) (s : State) : State :=
  mkState (exam s) (currentQuestion s) (answers s) (timeLeft s) (submitting s)
          (bookmarkedQuestions s) (flaggedQuestions s) (showConfirmSubmit s)
          (shuffledQuestions s) (questionOrder s) v.

Definition setShowConfirmSubmit (v : bool) (s : State) : State :=
  mkState (exam s) (currentQuestion s) (answers s) (timeLeft s) (submitting s)
          (bookmarkedQuestions s) (flaggedQuestions s) v
          (shuffledQuestions s) (questionOrder s) (showTimeUpModal s).

Definition setCurrentQuestion (v : nat) (s : State) : State :=
  mkState (exam s) v (answers s) (timeLeft s) (submitting s)
          (bookmarkedQuestions s) (flaggedQuestions s) (showConfirmSubmit s)
          (shuffledQuestions s) (questionOrder s) (showTimeUpModal s).

(** "Submit Exam" is rendered on the last shown question only. *)
Definition on_last_question (s : State) : bool :=
  (S (currentQuestion s) =? length (shuffledQuestions s))%nat.

(** The order table built by [fetchExam]: with the shuffle flag the
    original index of a shown question is looked up by its text. *)
Definition order_of (examData : Exam) (perm : list nat) : list Question * list OrderEntry :=
  if shuffleQuestions examData then
    let shuffled := shuffleArray perm (questions examData) in
    (shuffled,
     imap (fun index q =>
             mkOrder (Z.of_nat index)
                     (JS.findIndex (fun origQ => String.eqb (question origQ) (question q))
                                   (questions examData)))
          shuffled)
  else
    (questions examData,
     imap (fun index _ => mkOrder (Z.of_nat index) (Z.of_nat index))
          (questions examData)).

Inductive LoadResult : Type :=
| Redirected            (* navigate('/dashboard') *)
| Loaded (s : State).

(** [fetchExam]: the only test is [examDoc.exists()]. *)
Definition fetchExam (exams : gmap string Exam) (examId : string)
           (perm : list nat) : LoadResult :=
  match exams !! examId with
  | Some examData =>
      let '(shuffled, order) := order_of examData perm in
      Loaded (mkState (Some examData) 0%nat ∅ (Some (timeLimit examData * 60))
                      false [] [] false shuffled order false)
  | None => Redirected
  end.

(** [handleAnswer]: [questionOrder[questionIndex]] out of range is
    [undefined], reading [.originalIndex] of it throws and no state is
    set. *)
Definition handleAnswer (questionIndex : nat) (answerIndex : Z) (s : State) : State :=
  match questionOrder s !! questionIndex with
  | Some e => setAnswers (<[originalIndex e := answerIndex]> (answers s)) s
  | None => s
  end.

(** [prev.includes(i) ? prev.filter(j => j !== i) : [...prev, i]]. *)
Definition toggle (i : Z) (prev : list Z) : list Z :=
  if existsb (Z.eqb i) prev then filter (fun j => j ≠ i) prev else prev ++ [i].

Definition toggleBookmark (questionIndex : nat) (s : State) : State :=
  match questionOrder s !! questionIndex with
  | Some e => setBookmarkedQuestions (toggle (originalIndex e) (bookmarkedQuestions s)) s
  | None => s
  end.

Definition toggleFlag (questionIndex : nat) (s : State) : State :=
  match questionOrder s !! questionIndex with
  | Some e => setFlaggedQuestions (toggle (originalIndex e) (flaggedQuestions s)) s
  | None => s
  end.

(** [answers[index] === question.correctAnswer]; a missing key is
    [undefined], which is equal to no number. *)
Definition answer_is (a : gmap Z Z) (index : nat) (c : Z) : bool :=
  match a !! Z.of_nat index with
  | Some v => v =? c
  | None => false
  end.

(** The loop of [handleSubmit]: the pair is ([score], [totalPoints]). *)
Definition tally (qs : list Question) (a : gmap Z Z) : Z * Z :=
  JS.forEach (fun (acc : Z * Z) q index =>
                let totalPoints := snd acc + points q in
                if answer_is a index (correctAnswer q)
                then (fst acc + points q, totalPoints)
                else (fst acc, totalPoints))
             qs 0%nat (0, 0).

Definition finalScore (qs : list Question) (a : gmap Z Z) : JS.rounded :=
  JS.percent (JS.of_Z (fst (tally qs a))) (JS.of_Z (snd (tally qs a))).

(** The document [handleSubmit] builds, from the snapshot [c] it closed
    over; [None] when [exam] is still [null] (the read of
    [exam.questions] throws into the [catch]). *)
Definition submissionData (uid examId : string) (c : State) : option Submission :=
  match exam c with
  | None => None
  | Some e =>
      Some (mkSubmission examId uid (createdBy e) (answers c)
              (finalScore (questions e) (answers c))
              (timeLimit e * 60 - default 0 (timeLeft c))
              (flaggedQuestions c) (bookmarkedQuestions c)
              (if shuffleQuestions e then Some (questionOrder c) else None)
              (match timeLeft c with Some 0 => true | _ => false end)
              (size (answers c))
              (length (questions e)))
  end.

(** A write that was issued and has not settled: the document and the
    [showTimeUpModal] of the snapshot that issued it. *)
Record Pending : Type := mkPending {
  p_doc : Submission;
  p_modal : bool
}.

(** The component with its surroundings: the committed state [st], the
    snapshot the live interval closed over ([timer], [None] when no
    interval is set), the collection, the writes issued so far (newest
    first) and the ones still open, and whether the component is still
    mounted. *)
Record World : Type := mkWorld {
  st : State;
  timer : option State;
  db : Store Submission;
  issued : list (Trigger * Submission);
  pending : list Pending;
  mounted : bool
}.

(** The timer effect, run after a render whose [timeLeft] differs from the
    previous one: [if (timeLeft === null || timeLeft <= 0) return;]
    otherwise a new interval closes over this render.  (The warning
    colour the effect also sets is display only and left out.) *)
Definition timer_effect (s : State) : option State :=
  match timeLeft s with
  | None => None
  | Some t => if t <=? 0 then None else Some s
  end.

(** Commit a render: the effect has [timeLeft] as its only dependency, so
    the interval (and the snapshot it holds) is replaced only when
    [timeLeft] changed. *)
Definition commit (old : State) (w : World) : World :=
  if bool_decide (timeLeft old = timeLeft (st w)) then w
  else mkWorld (st w) (timer_effect (st w)) (db w) (issued w) (pending w) (mounted w).

Definition with_st (f : State -> State) (w : World) : World :=
  mkWorld (f (st w)) (timer w) (db w) (issued w) (pending w) (mounted w).

(** [handleSubmit] as closed over the snapshot [c]: the guard reads the
    [submitting] of that snapshot. *)
Definition handleSubmit (uid examId : string) (by_ : Trigger) (c : State)
           (w : World) : World :=
  if submitting c then w
  else
    let w := with_st (setSubmitting true) w in
    match submissionData uid examId c with
    | Some d =>
        mkWorld (st w) (timer w) (db w) ((by_, d) :: issued w)
                (pending w ++ [mkPending d (showTimeUpModal c)]) (mounted w)
    | None => with_st (setSubmitting false) w
    end.

Definition handleTimeUp (uid examId : string) (c : State) (w : World) : World :=
  handleSubmit uid examId ByTimer c (with_st (setShowTimeUpModal true) w).

(** The interval callback: [setTimeLeft(prev => ...)] on the committed
    [timeLeft] ([null <= 1] holds in JavaScript), with [handleTimeUp] of
    the snapshot the interval closed over. *)
Definition tick (uid examId : string) (c : State) (w : World) : World :=
  let prev := timeLeft (st w) in
  if (match prev with Some p => p <=? 1 | None => true end) then
    let w := mkWorld (st w) None (db w) (issued w) (pending w) (mounted w) in
    with_st (setTimeLeft (Some 0)) (handleTimeUp uid examId c w)
  else
    with_st (setTimeLeft (Some (default 0 prev - 1))) w.

(** The write settles: on success the document is in the collection under
    the id [uid_examId] and the component navigates away unless the
    snapshot had the time-up modal open; on failure [submitting] is
    reset. *)
Definition settle (uid examId : string) (ok : bool) (w : World) : World :=
  match pending w with
  | [] => w
  | p :: rest =>
      if ok then
        let db' := setDoc (uid +:+ "_" +:+ examId) (p_doc p) (db w) in
        if p_modal p then mkWorld (st w) (timer w) db' (issued w) rest (mounted w)
        else mkWorld (st w) None db' (issued w) rest false
      else
        with_st (setSubmitting false)
                (mkWorld (st w) (timer w) (db w) (issued w) rest (mounted w))
  end.

(** One event, then the render it causes.  An unmounted component has no
    interval and no buttons; its open writes still settle.  Both submit
    buttons carry [disabled={submitting}]. *)
Definition step (uid examId : string) (w : World) (ev : Event) : World :=
  match ev with
  | EvWriteDone ok => commit (st w) (settle uid examId ok w)
  | _ =>
      if negb (mounted w) then w
      else match ev with
           | EvTick =>
               match timer w with
               | Some c => commit (st w) (tick uid examId c w)
               | None => w
               end
           | EvAnswer qi ai => commit (st w) (with_st (handleAnswer qi ai) w)
           | EvGoTo index =>
               if (index <? length (shuffledQuestions (st w)))%nat
               then commit (st w) (with_st (setCurrentQuestion index) w)
               else w
           | EvRequestSubmit =>
               if on_last_question (st w) && negb (submitting (st w))
               then commit (st w) (with_st (setShowConfirmSubmit true) w)
               else w
           | EvConfirm =>
               if showConfirmSubmit (st w) && negb (submitting (st w))
               then commit (st w) (handleSubmit uid examId ByConfirm (st w) w)
               else w
           | EvWriteDone _ => w
           end
  end.

Definition run (uid examId : string) (w : World) (evs : list Event) : World :=
  fold_left (step uid examId) evs w.

(** The render of the loaded page reads
    [questionOrder[currentQuestion].originalIndex]: without an entry at
    the current question (an exam without questions) the read throws. *)
Definition renders (s : State) : bool :=
  bool_decide (is_Some (questionOrder s !! currentQuestion s)).

(** The world right after a successful load: the first render with a
    [timeLeft] runs the timer effect.  When that render throws the
    component is unmounted: no interval is set and no button exists. *)
Definition mount (s : State) (d : Store Submission) : World :=
  if renders s then mkWorld s (timer_effect s) d [] [] true
  else mkWorld s None d [] [] false.

(** One attempt: load, then the events; [None] when the load redirects. *)
Definition attempt (exams : gmap string Exam) (d : Store Submission)
           (uid examId : string) (perm : list nat) (evs : list Event) : option World :=
  match fetchExam exams examId perm with
  | Loaded s => Some (run uid examId (mount s d) evs)
  | Redirected => None
  end.

(** The snapshot a live interval holds has time left. *)
Definition timer_live (w : World) : Prop :=
  forall c, timer w = Some c -> exists t, timeLeft c = Some t /\ 0 < t.

End V1.

(* ===================================================================== *)
(** ** TakeExam, second revision (MyResults.js, lines 799-1281)           *)
(* ===================================================================== *)

Module V2.

(** [submissionData] of [handleSubmit]; [submittedAt] is left out.  An
    element of [sub_answers] is [None] where the array has a hole. *)
Record Submission : Type := mkSubmission {
  sub_examId : string;
  sub_studentId : string;
  sub_teacherId : string;
  sub_answers : list (option Z);
  sub_score : JS.rounded;
  sub_timeSpent : Z;
  sub_bookmarkedQuestions : list (option nat);
  sub_flaggedQuestions : list (option nat);
  sub_attemptNumber : nat
}.

Record State : Type := mkState {
  exam : option Exam;
  answers : list (option Z);
  currentQuestion : nat;
  timeLeft : Z;
  bookmarkedQuestions : list (option nat);
  flaggedQuestions : list (option nat);
  questionOrder : list nat;
  attemptNumber : nat;
  showConfirmSubmit : bool;
  showTimeUpModal : bool;
  shuffledQuestions : list Question
}.

Definition setAnswers (v : list (option Z)) (s : State) : State :=
  mkState (exam s) v (currentQuestion s) (timeLeft s) (bookmarkedQuestions s)
          (flaggedQuestions s) (questionOrder s) (attemptNumber s)
          (showConfirmSubmit s) (showTimeUpModal s) (shuffledQuestions s).

Definition setTimeLeft (v : Z) (s : State) : State :=
  mkState (exam s) (answers s) (currentQuestion s) v (bookmarkedQuestions s)
          (flaggedQuestions s) (questionOrder s) (attemptNumber s)
          (showConfirmSubmit s) (showTimeUpModal s) (shuffledQuestions s).

Definition setBookmarkedQuestions (v : list (option nat)) (s : State) : State :=
  mkState (exam s) (answers s) (currentQuestion s) (timeLeft s) v
          (flaggedQuestions s) (questionOrder s) (attemptNumber s)
          (showConfirmSubmit s) (showTimeUpModal s) (shuffledQuestions s).

Definition setFlaggedQuestions (v : list (option nat)) (s : State) : State :=
  mkState (exam s) (answers s) (currentQuestion s) (timeLeft s) (bookmarkedQuestions s)
          v (questionOrder s) (attemptNumber s)
          (showConfirmSubmit s) (showTimeUpModal s) (shuffledQuestions s).

Definition setShowTimeUpModal (v : bool) (s : State) : State :=
  mkState (exam s) (answers s) (currentQuestion s) (timeLeft s) (bookmarkedQuestions s)
          (flaggedQuestions s) (questionOrder s) (attemptNumber s)
          (showConfirmSubmit s) v (shuffledQuestions s).

Definition setShowConfirmSubmit (v : bool) (s : State) : State :=
  mkState (exam s) (answers s) (currentQuestion s) (timeLeft s) (bookmarkedQuestions s)
          (flaggedQuestions s) (questionOrder s) (attemptNumber s)
          v (showTimeUpModal s) (shuffledQuestions s).

Definition setCurrentQuestion (v : nat) (s : State) : State :=
  mkState (exam s) (answers s) v (timeLeft s) (bookmarkedQuestions s)
          (flaggedQuestions s) (questionOrder s) (attemptNumber s)
          (showConfirmSubmit s) (showTimeUpModal s) (shuffledQuestions s).

(** "Submit Exam" is rendered on the last shown question only. *)
Definition on_last_question (s : State) : bool :=
  (S (currentQuestion s) =? length (shuffledQuestions s))%nat.

(** The messages of [setError], by the name the specification gives the
    failure. *)
Inductive LoadError : Type :=
| NotFound
| NotPublished
| AlreadyAttempted
| LoadFailed.            (* the [catch] branch *)

Definition message (e : LoadError) : string :=
  match e with
  | NotFound => "Exam not found"
  | NotPublished => "This exam is not available"
  | AlreadyAttempted => "You have already attempted this exam"
  | LoadFailed => "Failed to load exam"
  end.

Inductive LoadResult : Type :=
| Failed (e : LoadError)
| Loaded (s : State).

(** [submissionsSnapshot.size] of the query on [examId] and [studentId]. *)
Definition attempts (d : Store Submission) (examId uid : string) : nat :=
  size (filter (fun kd : (string + nat) * Submission =>
                  sub_examId kd.2 = examId ∧ sub_studentId kd.2 = uid)
               (docs d)).

(** The order of presentation: a shuffle of the indices, or the indices. *)
Definition order_of (examData : Exam) (perm : list nat) : list nat * list Question :=
  let qs := questions examData in
  if shuffleQuestions examData then
    let order := shuffleArray perm (JS.keys (length qs)) in
    (order, omap (fun index => qs !! index) order)
  else (JS.keys (length qs), qs).

(** The [try] block of [fetchExam] when both reads of the store
    return. *)
Definition fetchExam (exams : gmap string Exam) (d : Store Submission)
           (examId uid : string) (perm : list nat) : LoadResult :=
  match exams !! examId with
  | None => Failed NotFound
  | Some examData =>
      if negb (isPublished examData) then Failed NotPublished
      else
        let n := attempts d examId uid in
        if (0 <? n)%nat && negb (allowReattempts examData) then Failed AlreadyAttempted
        else
          let '(order, shuffled) := order_of examData perm in
          Loaded (mkState (Some examData)
                          (replicate (length (questions examData)) (Some (-1)))
                          0%nat (timeLimit examData * 60) [] [] order (n + 1)%nat
                          false false shuffled)
  end.

(** [fetchExam] with its [catch]: [getDoc_ok] and [getDocs_ok] tell whether
    the read of the exam document and the query for the earlier
    submissions return.  A read that throws is caught and sets the error
    'Failed to load exam'; the query is made for a published exam only. *)
Definition fetchExam_caught (getDoc_ok getDocs_ok : bool)
           (exams : gmap string Exam) (d : Store Submission)
           (examId uid : string) (perm : list nat) : LoadResult :=
  if negb getDoc_ok then Failed LoadFailed
  else
    match exams !! examId with
    | None => Failed NotFound
    | Some examData =>
        if negb (isPublished examData) then Failed NotPublished
        else if negb getDocs_ok then Failed LoadFailed
        else fetchExam exams d examId uid perm
    end.

(** [arr[i] = v] on a copy: past the end a JavaScript array grows and the
    skipped positions are holes.  (The order table of [fetchExam] holds
    indices of the exam only, so a loaded attempt stays within the
    array.) *)
Definition array_set (i : nat) (v : Z) (l : list (option Z)) : list (option Z) :=
  if (i <? length l)%nat then <[i := Some v]> l
  else l ++ replicate (i - length l) None ++ [Some v].

(** [handleAnswer]: with [questionOrder[questionIndex]] undefined the
    assignment sets a property named "undefined" and no element. *)
Definition handleAnswer (questionIndex : nat) (answerIndex : Z) (s : State) : State :=
  match questionOrder s !! questionIndex with
  | Some i => setAnswers (array_set i answerIndex (answers s)) s
  | None => s
  end.

Definition toggle (i : option nat) (prev : list (option nat)) : list (option nat) :=
  if bool_decide (i ∈ prev) then filter (fun j => j ≠ i) prev else prev ++ [i].

Definition toggleBookmark (questionIndex : nat) (s : State) : State :=
  setBookmarkedQuestions
    (toggle (questionOrder s !! questionIndex) (bookmarkedQuestions s)) s.

Definition toggleFlag (questionIndex : nat) (s : State) : State :=
  setFlaggedQuestions
    (toggle (questionOrder s !! questionIndex) (flaggedQuestions s)) s.

(** A run of clicks on radio buttons: pairs of the shown position and the
    chosen option. *)
Definition clicks (s : State) (cs : list (nat * Z)) : State :=
  foldl (fun s c => handleAnswer c.1 c.2 s) s cs.

(** The loop of [handleSubmit] over the answers ([forEach] skips holes);
    [None] once [exam.questions[index]] is undefined and reading its
    [correctAnswer] throws. *)
Definition tally (qs : list Question) (a : list (option Z)) : option (Z * Z) :=
  JS.forEach (fun (acc : option (Z * Z)) answer index =>
                match acc, answer with
                | None, _ => None
                | Some _, None => acc
                | Some (score, totalPoints), Some v =>
                    match qs !! index with
                    | None => None
                    | Some q =>
                        Some (if v =? correctAnswer q then score + points q else score,
                              totalPoints + points q)
                    end
                end)
             a 0%nat (Some (0, 0)).

Definition finalScore (qs : list Question) (a : list (option Z)) : option JS.rounded :=
  match tally qs a with
  | Some (score, totalPoints) => Some (JS.percent (JS.of_Z score) (JS.of_Z totalPoints))
  | None => None
  end.

Definition submissionData (uid examId : string) (c : State) : option Submission :=
  match exam c with
  | None => None
  | Some e =>
      match finalScore (questions e) (answers c) with
      | None => None
      | Some sc =>
          Some (mkSubmission examId uid (createdBy e) (answers c) sc
                  (timeLimit e * 60 - timeLeft c)
                  (bookmarkedQuestions c) (flaggedQuestions c) (attemptNumber c))
      end
  end.

Record World : Type := mkWorld {
  st : State;
  timer : option State;
  db : Store Submission;
  issued : list (Trigger * Submission);
  pending : list Submission;
  mounted : bool
}.

(** The timer effect: [if (!timeLeft || !exam) return;]. *)
Definition timer_effect (s : State) : option State :=
  if (timeLeft s =? 0) || negb (bool_decide (is_Some (exam s))) then None else Some s.

(** The dependencies of the effect are [timeLeft] and [exam]; [exam] is
    set once, by the load. *)
Definition commit (old : State) (w : World) : World :=
  if bool_decide (timeLeft old = timeLeft (st w)) then w
  else mkWorld (st w) (timer_effect (st w)) (db w) (issued w) (pending w) (mounted w).

Definition with_st (f : State -> State) (w : World) : World :=
  mkWorld (f (st w)) (timer w) (db w) (issued w) (pending w) (mounted w).

(** [handleSubmit] as closed over the snapshot [c]: nothing but
    [if (!exam) return;] stands before the write. *)
Definition handleSubmit (uid examId : string) (by_ : Trigger) (c : State)
           (w : World) : World :=
  match submissionData uid examId c with
  | Some d =>
      mkWorld (st w) (timer w) (db w) ((by_, d) :: issued w) (pending w ++ [d]) (mounted w)
  | None => w
  end.

Definition handleTimeUp (uid examId : string) (c : State) (w : World) : World :=
  handleSubmit uid examId ByTimer c (with_st (setShowTimeUpModal true) w).

Definition tick (uid examId : string) (c : State) (w : World) : World :=
  let prev := timeLeft (st w) in
  if prev <=? 1 then
    let w := mkWorld (st w) None (db w) (issued w) (pending w) (mounted w) in
    with_st (setTimeLeft 0) (handleTimeUp uid examId c w)
  else
    with_st (setTimeLeft (prev - 1)) w.

(** The write settles: on success [addDoc] has put the document under a
    fresh id and the component navigates to the results. *)
Definition settle (ok : bool) (w : World) : World :=
  match pending w with
  | [] => w
  | d :: rest =>
      if ok then mkWorld (st w) None (addDoc d (db w)) (issued w) rest false
      else mkWorld (st w) (timer w) (db w) (issued w) rest (mounted w)
  end.

(** Both submit buttons carry
    [disabled={answers.length !== exam.questions.length}]. *)
Definition buttons_enabled (s : State) : bool :=
  match exam s with
  | Some e => (length (answers s) =? length (questions e))%nat
  | None => false
  end.

(** One event, then the render it causes. *)
Definition step (uid examId : string) (w : World) (ev : Event) : World :=
  match ev with
  | EvWriteDone ok => commit (st w) (settle ok w)
  | _ =>
      if negb (mounted w) then w
      else match ev with
           | EvTick =>
               match timer w with
               | Some c => commit (st w) (tick uid examId c w)
               | None => w
               end
           | EvAnswer qi ai => commit (st w) (with_st (handleAnswer qi ai) w)
           | EvGoTo index =>
               if (index <? length (shuffledQuestions (st w)))%nat
               then commit (st w) (with_st (setCurrentQuestion index) w)
               else w
           | EvRequestSubmit =>
               if on_last_question (st w) && buttons_enabled (st w)
               then commit (st w) (with_st (setShowConfirmSubmit true) w)
               else w
           | EvConfirm =>
               if showConfirmSubmit (st w) && buttons_enabled (st w)
               then commit (st w) (handleSubmit uid examId ByConfirm (st w) w)
               else w
           | EvWriteDone _ => w
           end
  end.

Definition run (uid examId : string) (w : World) (evs : list Event) : World :=
  fold_left (step uid examId) evs w.

Definition mount (s : State) (d : Store Submission) : World :=
  mkWorld s (timer_effect s) d [] [] true.

(** One attempt: load, then the events; [None] when the load fails. *)
Definition attempt (exams : gmap string Exam) (d : Store Submission)
           (uid examId : string) (perm : list nat) (evs : list Event) : option World :=
  match fetchExam exams d examId uid perm with
  | Loaded s => Some (run uid examId (mount s d) evs)
  | Failed _ => None
  end.

End V2.

(* ===================================================================== *)
(** ** Passed / Failed (MyResults.js, the student ExamHistory page)       *)
(* ===================================================================== *)

Module Results.

(** [passingScore || 60]: an absent field and the number [0] are falsy. *)
Definition passing_or_default (passing : option Z) : Z :=
  match passing with
  | Some p => if p =? 0 then 60 else p
  | None => 60
  end.

(** [score >= p] for a stored score. *)
Definition ge (score : JS.rounded) (p : Z) : bool :=
  match score with
  | JS.RInt z => p <=? z
  | JS.RPosInf => true
  | JS.RNaN | JS.RNegInf => false
  end.

(** [result.score >= (result.exam.passingScore || 60) ? 'Passed' : 'Failed']. *)
Definition status (score : JS.rounded) (passing : option Z) : string :=
  if ge score (passing_or_default passing) then "Passed" else "Failed".

End Results.

(* ===================================================================== *)
(** ** Review of subjective questions (ViewSubmissions.js)                *)
(* ===================================================================== *)

Module ViewSubmissions.

Record GradedQuestion : Type := mkGraded {
  qtype : string;          (* the field [type] *)
  score : float;
  maxPoints : float;
  questionIndex : nat
}.

Record Submission : Type := mkSubmission {
  id : string;
  gradedQuestions : list GradedQuestion
}.

(** [handleGradeChange(questionIndex, score)] applied to the previous
    [subjectiveGrades]; [score] stands for [Number(score)].  [None] when
    [gradedQuestions[questionIndex]] is undefined and reading [maxPoints]
    throws. *)
Definition handleGradeChange (selectedSubmission : Submission)
           (questionIndex : nat) (score : float)
           (prev : gmap nat float) : option (gmap nat float) :=
  match gradedQuestions selectedSubmission !! questionIndex with
  | Some q =>
      Some (<[questionIndex :=
                JS.Math_min (JS.Math_max PrimFloat.zero score) (maxPoints q)]> prev)
  | None => None
  end.

(** [grades[index] || 0]. *)
Definition grade_or_zero (grades : gmap nat float) (index : nat) : float :=
  match grades !! index with
  | Some g => if JS.truthy g then g else PrimFloat.zero
  | None => PrimFloat.zero
  end.

(** The loop of [calculateFinalScore]: ([totalScore], [totalPoints]). *)
Definition totals (submission : Submission) (grades : gmap nat float) : float * float :=
  JS.forEach (fun (acc : float * float) q index =>
                if String.eqb (qtype q) "objective"
                then (PrimFloat.add (fst acc) (score q),
                      PrimFloat.add (snd acc) (maxPoints q))
                else (PrimFloat.add (fst acc) (grade_or_zero grades index),
                      PrimFloat.add (snd acc) (maxPoints q)))
             (gradedQuestions submission) 0%nat (PrimFloat.zero, PrimFloat.zero).

Definition calculateFinalScore (submission : Submission)
           (grades : gmap nat float) : JS.rounded :=
  let t := totals submission grades in
  if PrimFloat.ltb PrimFloat.zero (snd t)
  then JS.percent (fst t) (snd t)
  else JS.RInt 0.

(** The fields [handleSubmitGrades] hands to [updateDoc]. *)
Record GradeUpdate : Type := mkUpdate {
  upd_gradedQuestions : list GradedQuestion;
  upd_finalScore : JS.rounded;
  upd_gradingStatus : string
}.

Definition handleSubmitGrades (selectedSubmission : Submission)
           (subjectiveGrades : gmap nat float) : GradeUpdate :=
  mkUpdate
    (imap (fun index q =>
             mkGraded (qtype q)
                      (if String.eqb (qtype q) "subjective"
                       then grade_or_zero subjectiveGrades index
                       else score q)
                      (maxPoints q) (questionIndex q))
          (gradedQuestions selectedSubmission))
    (calculateFinalScore selectedSubmission subjectiveGrades)
    "completed".

End ViewSubmissions.

(* ===================================================================== *)
(** ** Exam authoring (CreateExam.js, handleSubmit)                       *)
(* ===================================================================== *)

Module CreateExam.

(** The state [examData] of the form: the text inputs hold strings.
    Fields that are copied into the document without a test (category,
    difficulty, instructions, image and explanation of a question) are
    left out. *)
Record FormQuestion : Type := mkFormQuestion {
  f_question : string;
  f_options : list string;
  f_correctAnswer : Z;
  f_points : Z
}.

Record ExamData : Type := mkExamData {
  f_title : string;
  f_description : string;
  f_timeLimit : string;
  f_passingScore : string;
  f_isPublished : bool;
  f_shuffleQuestions : bool;
  f_allowReattempts : bool;
  f_questions : list FormQuestion
}.

(** The white space that [String.prototype.trim] removes, in a text held
    in UTF-8: tab, line feed, vertical tab, form feed, carriage return
    and space take one byte ([Ascii.is_space]); U+00A0 takes two; U+1680,
    U+2000 to U+200A, U+2028, U+2029, U+202F, U+205F, U+3000 and U+FEFF
    take three. *)
Definition white2 (b1 b2 : Ascii.ascii) : bool :=
  ((Ascii.N_of_ascii b1 =? 194) && (Ascii.N_of_ascii b2 =? 160))%N.

Definition white3 (b1 b2 b3 : Ascii.ascii) : bool :=
  let x := Ascii.N_of_ascii b1 in
  let y := Ascii.N_of_ascii b2 in
  let z := Ascii.N_of_ascii b3 in
  (((x =? 225) && (y =? 154) && (z =? 128))
   || ((x =? 226) && (y =? 128)
       && (((128 <=? z) && (z <=? 138)) || (z =? 168) || (z =? 169) || (z =? 175)))
   || ((x =? 226) && (y =? 129) && (z =? 159))
   || ((x =? 227) && (y =? 128) && (z =? 128))
   || ((x =? 239) && (y =? 187) && (z =? 191)))%N.

(** The text without the white space at its head.  With [backwards] the
    text is read from its end, where the bytes of a character come last
    byte first. *)
Fixpoint strip (backwards : bool) (s : string) : string :=
  match s with
  | EmptyString => EmptyString
  | String c1 s1 =>
      if Ascii.is_space c1 then strip backwards s1
      else
        match s1 with
        | EmptyString => s
        | String c2 s2 =>
            if (if backwards then white2 c2 c1 else white2 c1 c2)
            then strip backwards s2
            else
              match s2 with
              | EmptyString => s
              | String c3 s3 =>
                  if (if backwards then white3 c3 c2 c1 else white3 c1 c2 c3)
                  then strip backwards s3
                  else s
              end
        end
  end.

(** [s.trim()]. *)
Definition trim (s : string) : string :=
  String.rev (strip true (String.rev (strip false s))).

(** [!s] for a string: only the empty string is falsy. *)
Definition blank (s : string) : bool :=
  match s with EmptyString => true | _ => false end.

(** The loop that validates the questions: the first message it toasts,
    if any; [i] is the index of the head. *)
Fixpoint validate_questions (qs : list FormQuestion) (i : nat) : option string :=
  match qs with
  | [] => None
  | q :: qs' =>
      if blank (trim (f_question q))
      then Some ("Question " +:+ pretty (i + 1)%nat +:+ " text is required")
      else if existsb (fun opt => blank (trim opt)) (f_options q)
      then Some ("All options in Question " +:+ pretty (i + 1)%nat +:+ " must be filled")
      else validate_questions qs' (S i)
  end.

Inductive Outcome : Type :=
| ToastError (msg : string)
| ToastSuccess.

Section handleSubmit.

(** [Number(s)] of a text input. *)
Variable Number : string -> Z.

Definition processedQuestions (qs : list FormQuestion) : list Question :=
  map (fun q => mkQuestion (trim (f_question q)) (map trim (f_options q))
                           (f_correctAnswer q) (f_points q)) qs.

Definition examToSubmit (uid : string) (examData : ExamData) : Exam :=
  let qs := processedQuestions (f_questions examData) in
  mkExam (trim (f_title examData))
         (Number (f_timeLimit examData))
         (Some (Number (f_passingScore examData)))
         (f_isPublished examData) (f_shuffleQuestions examData)
         (f_allowReattempts examData)
         qs
         (foldl (fun sum q => sum + points q) 0 qs)
         uid.

(** [handleSubmit]: the toast it shows and the collection [exams] after
    it.  [currentUser] is [auth.currentUser]; [write_ok] tells whether
    [addDoc] succeeds. *)
Definition handleSubmit (currentUser : option string) (write_ok : bool)
           (examData : ExamData) (exams : Store Exam) : Outcome * Store Exam :=
  match currentUser with
  | None => (ToastError "You must be logged in to create an exam", exams)
  | Some uid =>
      if blank (f_title examData) || blank (f_timeLimit examData)
         || blank (f_passingScore examData)
      then (ToastError "Please fill in all required fields", exams)
      else if (length (f_questions examData) =? 0)%nat
      then (ToastError "Please add at least one question", exams)
      else
        match validate_questions (f_questions examData) 0 with
        | Some msg => (ToastError msg, exams)
        | None =>
            if write_ok
            then (ToastSuccess, addDoc (examToSubmit uid examData) exams)
            else (ToastError "Failed to create exam. Please try again.", exams)
        end
  end.

End handleSubmit.

(** The inputs the specification calls invalid: "title/time-limit/
    passing-score present; at least one question; every question has
    non-empty text and all options non-empty". *)
Definition invalid (examData : ExamData) : Prop :=
  f_title examData = EmptyString
  \/ f_timeLimit examData = EmptyString
  \/ f_passingScore examData = EmptyString
  \/ f_questions examData = []
  \/ exists q, q ∈ f_questions examData
               /\ (f_question q = EmptyString \/ EmptyString ∈ f_options q).

End CreateExam.

(* ===================================================================== *)
(** ** The scoring rule in the words of the specification                 *)
(* ===================================================================== *)

Module Spec.

(** "earnedPoints = sum over questions [points if selectedOption ==
    correctOptionIndex else 0]", the answer being the one recorded under
    the original index of the question; [i] is the index of the head. *)
Fixpoint earnedPoints_from (recorded : nat -> option Z) (qs : list Question)
         (i : nat) : Z :=
  match qs with
  | [] => 0
  | q :: qs' =>
      (if bool_decide (recorded i = Some (correctAnswer q)) then points q else 0)
      + earnedPoints_from recorded qs' (S i)
  end.

Definition earnedPoints (recorded : nat -> option Z) (qs : list Question) : Z :=
  earnedPoints_from recorded qs 0.

(** "totalPoints = sum of question.points". *)
Fixpoint totalPoints_of (qs : list Question) : Z :=
  match qs with
  | [] => 0
  | q :: qs' => points q + totalPoints_of qs'
  end.

(** "score = round(100 * earnedPoints / totalPoints)" for a positive
    total: the integer nearest to the exact quotient, a tie going up. *)
Definition score (earned total : Z) : Z :=
  (2 * (100 * earned) + total) / (2 * total).

End Spec.

(* ===================================================================== *)
(** ** Sample documents                                                   *)
(* ===================================================================== *)

Definition two_options : list string := ["yes"; "no"].

(** Two questions worth 23 and 17 points. *)
Definition exam_23_17 : Exam :=
  mkExam "Quiz" 1 (Some 60) true false true
         [mkQuestion "First" two_options 0 23; mkQuestion "Second" two_options 1 17]
         40 "teacher1".

(** A question worth no point. *)
Definition exam_zero : Exam :=
  mkExam "Survey" 1 (Some 60) true false true
         [mkQuestion "Opinion" two_options 0 0] 0 "teacher1".

(** Shuffled, two questions with the same text and different keys. *)
Definition exam_same_text : Exam :=
  mkExam "Twins" 1 (Some 60) true true true
         [mkQuestion "Pick one" two_options 0 1; mkQuestion "Pick one" two_options 1 1]
         2 "teacher1".

(** One question, one minute, no second attempt. *)
Definition exam_once : Exam :=
  mkExam "Final" 1 (Some 60) true false false
         [mkQuestion "Only" two_options 0 1] 1 "teacher1".

(** The same, not published. *)
Definition exam_draft : Exam :=
  mkExam "Final" 1 (Some 60) false false false
         [mkQuestion "Only" two_options 0 1] 1 "teacher1".

Definition one_exam (e : Exam) : gmap string Exam := {[ "exam1" := e ]}.

(** Answer the only question, open the dialog, confirm, and the write
    succeeds. *)
Definition answer_and_submit : list Event :=
  [EvAnswer 0 0; EvRequestSubmit; EvConfirm; EvWriteDone true].

(** The collection after a first attempt of student1 at [exam_once], in
    either revision. *)
Definition V1_after_first : Store V1.Submission :=
  default empty_store
          (V1.db <$> V1.attempt (one_exam exam_once) empty_store
                       "student1" "exam1" [] answer_and_submit).

Definition V2_after_first : Store V2.Submission :=
  default empty_store
          (V2.db <$> V2.attempt (one_exam exam_once) empty_store
                       "student1" "exam1" [] answer_and_submit).

(** The student lets 59 of the 60 seconds pass, confirms the submission
    in the last second, and the timer expires before the write settles. *)
Definition confirm_in_last_second : list Event :=
  replicate 59 EvTick ++ [EvRequestSubmit; EvConfirm; EvTick].

(** The student does nothing for the 60 seconds. *)
Definition let_time_run_out : list Event := replicate 60 EvTick.

(** A submission under review: one subjective question worth 5 points. *)
Definition essay : ViewSubmissions.GradedQuestion :=
  ViewSubmissions.mkGraded "subjective" PrimFloat.zero (JS.of_Z 5) 0.

Definition review1 : ViewSubmissions.Submission :=
  ViewSubmissions.mkSubmission "submission1" [essay].

(** A form whose second question has an option left empty. *)
Definition form_empty_option : CreateExam.ExamData :=
  CreateExam.mkExamData "Quiz" "about sets" "30" "60" true false false
    [CreateExam.mkFormQuestion "First" ["yes"; "no"] 0 1;
     CreateExam.mkFormQuestion "Second" ["yes"; EmptyString] 1 1].

(** The same form, filled in. *)
Definition form_filled : CreateExam.ExamData :=
  CreateExam.mkExamData "Quiz" "about sets" "30" "60" true false false
    [CreateExam.mkFormQuestion "First" ["yes"; "no"] 0 1;
     CreateExam.mkFormQuestion "Second" ["yes"; "no"] 1 1].

(** The filled-in form with a title of three blanks. *)
Definition form_blank_title : CreateExam.ExamData :=
  CreateExam.mkExamData "   " "about sets" "30" "60" true false false
    [CreateExam.mkFormQuestion "First" ["yes"; "no"] 0 1;
     CreateExam.mkFormQuestion "Second" ["yes"; "no"] 1 1].

(* ===================================================================== *)
(** ** The clock and the durations (formatTime, formatDuration)           *)
(* ===================================================================== *)

Module Clock.

(** Whether two doubles are the same double, read off their sign,
    mantissa and exponent. *)
#[global] Instance spec_float_eq_dec : EqDecision spec_float.
Proof. solve_decision. Defined.

Definition same_double (a b : float) : bool :=
  bool_decide (Prim2SF a = Prim2SF b).

(** [Math.floor x]: a double with a negative exponent [m * 2^e] is cut
    to the whole number below it; the others are whole, zero, infinite
    or NaN and are returned. *)
Definition Math_floor (x : float) : float :=
  match Prim2SF x with
  | S754_finite s m e =>
      if 0 <=? e then x
      else JS.of_Z ((if s then Z.neg m else Z.pos m) / 2 ^ (- e))
  | _ => x
  end.

(** [x % y]: the remainder of the truncated division, which is exact and
    has the sign of [x]. *)
Definition remainder (x y : float) : float :=
  match Prim2SF x, Prim2SF y with
  | S754_nan, _ | _, S754_nan => PrimFloat.nan
  | S754_infinity _, _ => PrimFloat.nan
  | _, S754_zero _ => PrimFloat.nan
  | _, S754_infinity _ => x
  | S754_zero _, _ => x
  | S754_finite sx mx ex, S754_finite _ my ey =>
      let e := Z.min ex ey in
      let r := (Z.pos mx * 2 ^ (ex - e)) mod (Z.pos my * 2 ^ (ey - e)) in
      if r =? 0 then (if sx then PrimFloat.neg_zero else PrimFloat.zero)
      else
        let f := SF2Prim (binary_normalize prec emax r e false) in
        if sx then PrimFloat.opp f else f
  end.

(** [s.padStart(2, '0')]. *)
Definition padStart2 (s : string) : string :=
  match String.length s with
  | 0%nat => "00"
  | 1%nat => "0" +:+ s
  | _ => s
  end.

Section Print.

(** The text of a number in a template literal ([Number::toString]). *)
Variable toString : float -> string.

(** [Math.floor(seconds / 60)] and [seconds % 60]. *)
Definition minutes (seconds : float) : float :=
  Math_floor (PrimFloat.div seconds (JS.of_Z 60)).

Definition remainingSeconds (seconds : float) : float :=
  remainder seconds (JS.of_Z 60).

(** [formatTime] of both revisions of TakeExam. *)
Definition formatTime (seconds : float) : string :=
  toString (minutes seconds) +:+ ":" +:+ padStart2 (toString (remainingSeconds seconds)).

(** [formatDuration] of MyResults and ViewSubmissions. *)
Definition formatDuration (seconds : float) : string :=
  toString (minutes seconds) +:+ "m " +:+ toString (remainingSeconds seconds) +:+ "s".

(** [formatDuration] of the student ExamHistory page, which begins with
    [if (!seconds) return 'N/A']; [None] is an absent field. *)
Definition formatDuration_history (seconds : option float) : string :=
  match seconds with
  | Some s => if JS.truthy s then formatDuration s else "N/A"
  | None => "N/A"
  end.

End Print.

(** Whether [p] holds of the [n] whole numbers from [start] on. *)
Fixpoint all_from (p : Z -> bool) (start : Z) (n : nat) : bool :=
  match n with
  | O => true
  | S n' => p start && all_from p (start + 1) n'
  end.

(** The seconds of four hours. *)
Definition four_hours : Z := 14400.

(** A conversion that prints the whole numbers as [Number::toString]
    does. *)
Definition toString_whole (x : float) : string :=
  match JS.Math_round x with
  | JS.RInt z => pretty z
  | JS.RNaN => "NaN"
  | JS.RPosInf => "Infinity"
  | JS.RNegInf => "-Infinity"
  end.

End Clock.

(* ===================================================================== *)
(** ** Filters and counters of the result pages                           *)
(* ===================================================================== *)

Module MyResults.

(** A row of [resultsData]: the submission with its exam, [None] when the
    exam document is gone ([examsData[submission.examId] || {}]). *)
Record Result : Type := mkResult {
  r_score : JS.rounded;
  r_exam : option Exam
}.

Definition passing_of (r : Result) : option Z := r_exam r ≫= passingScore.

(** [score < p] for a stored score. *)
Definition lt (score : JS.rounded) (p : Z) : bool :=
  match score with
  | JS.RInt z => z <? p
  | JS.RNegInf => true
  | JS.RNaN | JS.RPosInf => false
  end.

(** The predicate of [filteredAndSortedResults]; [matchesSearch] is the
    value of [title?.toLowerCase().includes(searchTerm.toLowerCase())],
    [false] when the title is missing. *)
Definition keeps (filterBy : string) (matchesSearch : bool) (r : Result) : bool :=
  if String.eqb filterBy "passed"
  then matchesSearch
       && Results.ge (r_score r) (Results.passing_or_default (passing_of r))
  else if String.eqb filterBy "failed"
  then matchesSearch
       && lt (r_score r) (Results.passing_or_default (passing_of r))
  else matchesSearch.

(** [matchesSearch] while the search box is empty: every title includes
    the empty string, and [title?.toLowerCase()] is [undefined] for a row
    whose exam document is gone. *)
Definition matches_empty_search (r : Result) : bool :=
  match r_exam r with
  | Some _ => true
  | None => false
  end.

(** The label of a row. *)
Definition label (r : Result) : string :=
  Results.status (r_score r) (passing_of r).

(** [r.score || 0] as a number. *)
Definition score_or_zero (s : JS.rounded) : float :=
  match s with
  | JS.RInt z => JS.of_Z z
  | JS.RNaN => PrimFloat.zero
  | JS.RPosInf => PrimFloat.infinity
  | JS.RNegInf => PrimFloat.neg_infinity
  end.

(** The counters [fetchExamHistory] of the student's ExamHistory page
    computes; [fetchResults] of MyResults computes [totalExams],
    [averageScore] and [passedExams] in the same way. *)
Record Stats : Type := mkStats {
  totalExams : nat;
  averageScore : JS.rounded;
  passedExams : nat;
  failedExams : Z
}.

Definition passed (r : Result) : bool :=
  Results.ge (r_score r) (Results.passing_or_default (passing_of r)).

Definition stats (history : list Result) : Stats :=
  let scores := map (fun h => score_or_zero (r_score h)) history in
  let n := length history in
  let p := length (filter (fun h => passed h = true) history) in
  mkStats n
          (if (0 <? n)%nat
           then JS.Math_round
                  (PrimFloat.div (foldl PrimFloat.add PrimFloat.zero scores)
                                 (JS.of_Z (Z.of_nat n)))
           else JS.RInt 0)
          p
          (Z.of_nat n - Z.of_nat p).

End MyResults.

(* ===================================================================== *)
(** ** Editing the exam form (CreateExam.js)                              *)
(* ===================================================================== *)

Module Authoring.

Definition setQuestions (qs : list CreateExam.FormQuestion)
           (d : CreateExam.ExamData) : CreateExam.ExamData :=
  CreateExam.mkExamData
    (CreateExam.f_title d) (CreateExam.f_description d)
    (CreateExam.f_timeLimit d) (CreateExam.f_passingScore d)
    (CreateExam.f_isPublished d) (CreateExam.f_shuffleQuestions d)
    (CreateExam.f_allowReattempts d) qs.

Definition setOptions (os : list string)
           (q : CreateExam.FormQuestion) : CreateExam.FormQuestion :=
  CreateExam.mkFormQuestion (CreateExam.f_question q) os
                            (CreateExam.f_correctAnswer q) (CreateExam.f_points q).

(** The question [addQuestion] appends: no text, two empty options, the
    first one correct, one point. *)
Definition blankQuestion : CreateExam.FormQuestion :=
  CreateExam.mkFormQuestion EmptyString [EmptyString; EmptyString] 0 1.

Definition addQuestion (prev : CreateExam.ExamData) : CreateExam.ExamData :=
  setQuestions (CreateExam.f_questions prev ++ [blankQuestion]) prev.

(** [prev.questions.filter((_, i) => i !== index)]. *)
Definition removeQuestion (index : nat) (prev : CreateExam.ExamData) : CreateExam.ExamData :=
  setQuestions (delete index (CreateExam.f_questions prev)) prev.

(** [addOption]: [updatedQuestions[questionIndex].options.push('')];
    [None] when the question is undefined and the read of [.options]
    throws. *)
Definition addOption (questionIndex : nat)
           (examData : CreateExam.ExamData) : option CreateExam.ExamData :=
  match CreateExam.f_questions examData !! questionIndex with
  | Some q =>
      Some (setQuestions
              (<[questionIndex := setOptions (CreateExam.f_options q ++ [EmptyString]) q]>
                 (CreateExam.f_questions examData))
              examData)
  | None => None
  end.

(** [removeOption]: the options without the one at [optionIndex]; the
    field [correctAnswer] is not touched. *)
Definition removeOption (questionIndex optionIndex : nat)
           (examData : CreateExam.ExamData) : option CreateExam.ExamData :=
  match CreateExam.f_questions examData !! questionIndex with
  | Some q =>
      Some (setQuestions
              (<[questionIndex := setOptions (delete optionIndex (CreateExam.f_options q)) q]>
                 (CreateExam.f_questions examData))
              examData)
  | None => None
  end.

(** The fields [handleQuestionChange] is called with. *)
Inductive FieldValue : Type :=
| QuestionText (v : string)
| Options (v : list string)
| CorrectAnswer (v : Z)
| Points (v : Z).                (* [parseInt] of the input, when it is a number *)

Definition set_field (fv : FieldValue)
           (q : CreateExam.FormQuestion) : CreateExam.FormQuestion :=
  match fv with
  | QuestionText v =>
      CreateExam.mkFormQuestion v (CreateExam.f_options q)
                                (CreateExam.f_correctAnswer q) (CreateExam.f_points q)
  | Options v => setOptions v q
  | CorrectAnswer v =>
      CreateExam.mkFormQuestion (CreateExam.f_question q) (CreateExam.f_options q)
                                v (CreateExam.f_points q)
  | Points v =>
      CreateExam.mkFormQuestion (CreateExam.f_question q) (CreateExam.f_options q)
                                (CreateExam.f_correctAnswer q) v
  end.

(** [handleQuestionChange(index, field, value)] for a question of the
    form; [None] for an index past the end, where the array would grow
    by an object that has this one field only. *)
Definition handleQuestionChange (index : nat) (fv : FieldValue)
           (examData : CreateExam.ExamData) : option CreateExam.ExamData :=
  match CreateExam.f_questions examData !! index with
  | Some q =>
      Some (setQuestions (<[index := set_field fv q]> (CreateExam.f_questions examData))
                         examData)
  | None => None
  end.

(** What the teacher can do on the form: each control exists for the
    questions and options that are rendered, "remove question" while
    there is more than one question, "Add Option" below six options and
    "remove option" above two. *)
Inductive Edit : Type :=
| ClickAddQuestion
| ClickRemoveQuestion (questionIndex : nat)
| ClickAddOption (questionIndex : nat)
| ClickRemoveOption (questionIndex optionIndex : nat)
| TypeQuestion (questionIndex : nat) (text : string)
| TypeOption (questionIndex optionIndex : nat) (text : string)
| PickCorrect (questionIndex optionIndex : nat)
| TypePoints (questionIndex : nat) (points : Z).

Definition edit (d : CreateExam.ExamData) (e : Edit) : CreateExam.ExamData :=
  let qs := CreateExam.f_questions d in
  match e with
  | ClickAddQuestion => addQuestion d
  | ClickRemoveQuestion qi =>
      if (1 <? length qs)%nat && (qi <? length qs)%nat then removeQuestion qi d else d
  | ClickAddOption qi =>
      match qs !! qi with
      | Some q =>
          if (length (CreateExam.f_options q) <? 6)%nat
          then default d (addOption qi d) else d
      | None => d
      end
  | ClickRemoveOption qi oi =>
      match qs !! qi with
      | Some q =>
          if (2 <? length (CreateExam.f_options q))%nat
             && (oi <? length (CreateExam.f_options q))%nat
          then default d (removeOption qi oi d) else d
      | None => d
      end
  | TypeQuestion qi text => default d (handleQuestionChange qi (QuestionText text) d)
  | TypeOption qi oi text =>
      match qs !! qi with
      | Some q =>
          if (oi <? length (CreateExam.f_options q))%nat
          then default d (handleQuestionChange
                            qi (Options (<[oi := text]> (CreateExam.f_options q))) d)
          else d
      | None => d
      end
  | PickCorrect qi oi =>
      match qs !! qi with
      | Some q =>
          if (oi <? length (CreateExam.f_options q))%nat
          then default d (handleQuestionChange qi (CorrectAnswer (Z.of_nat oi)) d)
          else d
      | None => d
      end
  | TypePoints qi v => default d (handleQuestionChange qi (Points v) d)
  end.

Definition edits (d : CreateExam.ExamData) (es : list Edit) : CreateExam.ExamData :=
  foldl edit d es.

(** The form as [useState] initialises it, with the texts the teacher
    typed into the fields above the questions. *)
Definition new_form (title description timeLimit passing : string) : CreateExam.ExamData :=
  CreateExam.mkExamData title description timeLimit passing false false false [].

(** A document of the collection [questionPool]; [timesUsed] is [None]
    while the field is absent. *)
Record PoolQuestion : Type := mkPoolQuestion {
  p_id : string;
  questionText : string;
  p_options : list string;
  p_correctAnswer : Z;
  timesUsed : option Z
}.

(** [toggleQuestionSelection] on the previous selection. *)
Definition toggleQuestionSelection (q : PoolQuestion)
           (prev : list PoolQuestion) : list PoolQuestion :=
  if existsb (fun x => String.eqb (p_id x) (p_id q)) prev
  then filter (fun x => p_id x ≠ p_id q) prev
  else prev ++ [q].

(** [updateDoc(questionRef, { timesUsed: (q.timesUsed || 0) + 1 })]: the
    number comes from the selected copy [q]; a document that is gone
    makes the update fail, which is caught. *)
Definition bump (q : PoolQuestion) (pool : gmap string PoolQuestion) : gmap string PoolQuestion :=
  alter (fun doc => mkPoolQuestion (p_id doc) (questionText doc) (p_options doc)
                                   (p_correctAnswer doc)
                                   (Some ((match timesUsed q with
                                           | Some n => n
                                           | None => 0
                                           end) + 1)))
        (p_id q) pool.

Definition imported (q : PoolQuestion) : CreateExam.FormQuestion :=
  CreateExam.mkFormQuestion (questionText q) (p_options q) (p_correctAnswer q) 1.

(** [handleImportQuestions]: the form, the selection and the collection
    after it. *)
Definition handleImportQuestions (selected : list PoolQuestion)
           (d : CreateExam.ExamData) (pool : gmap string PoolQuestion)
  : CreateExam.ExamData * list PoolQuestion * gmap string PoolQuestion :=
  (setQuestions (CreateExam.f_questions d ++ map imported selected) d,
   [],
   foldl (fun p q => bump q p) pool selected).

End Authoring.

(* ===================================================================== *)
(** ** The teacher's list of submissions (ViewSubmissions.js)             *)
(* ===================================================================== *)

Module Review.

Record Sub : Type := mkSub {
  s_id : string;
  s_score : JS.rounded;
  s_reviewed : bool;             (* an absent field is falsy *)
  s_feedback : string
}.

(** An entry of [groupedSubmissions]: the exam and its submissions. *)
Record ExamGroup : Type := mkGroup {
  g_id : string;
  g_passingScore : option Z;
  g_submissions : list Sub
}.



(** [sub.score >= examGroup.exam.passingScore]: against a missing
    passing score every comparison is false. *)
Definition passes_filter (g : ExamGroup) (sub : Sub) : bool :=
  match g_passingScore g with
  | Some p => Results.ge (s_score sub) p
  | None => false
  end.

(** [s.score >= (exam?.passingScore || 60)] of the statistics. *)
Definition passes_stats (g : ExamGroup) (sub : Sub) : bool :=
  Results.ge (s_score sub) (Results.passing_or_default (g_passingScore g)).

End Review.

(* ===================================================================== *)
(** ** What holds of every state of an attempt                            *)
(* ===================================================================== *)

(** First revision, for an attempt at the exam [e]: the answers are kept
    under indices of questions of the exam, the order table names such
    indices, and the time left lies between zero and the limit. *)
Definition V1_ok (e : Exam) (s : V1.State) : Prop :=
  V1.exam s = Some e
  /\ (forall k v, V1.answers s !! k = Some v ->
                  0 <= k < Z.of_nat (length (questions e)))
  /\ (forall o, o ∈ V1.questionOrder s ->
                0 <= V1.originalIndex o < Z.of_nat (length (questions e)))
  /\ exists t, V1.timeLeft s = Some t /\ 0 <= t <= timeLimit e * 60.

(** What is then true of a submission the attempt writes. *)
Definition V1_written_ok (e : Exam) (d : V1.Submission) : Prop :=
  V1.sub_totalQuestions d = length (questions e)
  /\ (V1.sub_completedQuestions d <= V1.sub_totalQuestions d)%nat
  /\ 0 <= V1.sub_timeSpent d <= timeLimit e * 60.

(** The same of the committed state, of the snapshot a live interval
    holds and of the writes issued so far. *)
Definition V1_world_ok (e : Exam) (w : V1.World) : Prop :=
  V1_ok e (V1.st w)
  /\ (forall c, V1.timer w = Some c -> V1_ok e c)
  /\ (forall t d, (t, d) ∈ V1.issued w -> V1_written_ok e d).

(** Second revision: the answers are an array without holes with one
    entry per question, the order table names indices of the exam, and
    the time left lies between zero and the limit. *)
Definition V2_ok (e : Exam) (s : V2.State) : Prop :=
  V2.exam s = Some e
  /\ length (V2.answers s) = length (questions e)
  /\ Forall (fun x => is_Some x) (V2.answers s)
  /\ Forall (fun i => (i < length (questions e))%nat) (V2.questionOrder s)
  /\ 0 <= V2.timeLeft s <= timeLimit e * 60.

Definition V2_written_ok (e : Exam) (d : V2.Submission) : Prop :=
  length (V2.sub_answers d) = length (questions e)
  /\ 0 <= V2.sub_timeSpent d <= timeLimit e * 60.

Definition V2_world_ok (e : Exam) (w : V2.World) : Prop :=
  V2_ok e (V2.st w)
  /\ (forall c, V2.timer w = Some c -> V2_ok e c)
  /\ (forall t d, (t, d) ∈ V2.issued w -> V2_written_ok e d).

(** Second revision, what names an attempt: the exam and the number of
    the attempt, in a state; and the exam, the student, the teacher and
    that number, in a submission. *)
Definition V2_of_attempt (e : Exam) (n : nat) (s : V2.State) : Prop :=
  V2.exam s = Some e /\ V2.attemptNumber s = n.

Definition V2_attributed (e : Exam) (uid examId : string) (n : nat)
           (d : V2.Submission) : Prop :=
  V2.sub_examId d = examId
  /\ V2.sub_studentId d = uid
  /\ V2.sub_teacherId d = createdBy e
  /\ V2.sub_attemptNumber d = n.

(** The same of a world that began with the collection [d0]: the state
    and the snapshot of the interval are of the attempt, every write
    issued is attributed to it, every open write was issued, and every
    document of the collection was in [d0] or was issued. *)
Definition V2_world_attributed (e : Exam) (uid examId : string) (n : nat)
           (d0 : Store V2.Submission) (w : V2.World) : Prop :=
  V2_of_attempt e n (V2.st w)
  /\ (forall c, V2.timer w = Some c -> V2_of_attempt e n c)
  /\ (forall t d, (t, d) ∈ V2.issued w -> V2_attributed e uid examId n d)
  /\ (forall d, d ∈ V2.pending w -> exists t, (t, d) ∈ V2.issued w)
  /\ (forall k x, docs (V2.db w) !! k = Some x ->
                  docs d0 !! k = Some x \/ exists t, (t, x) ∈ V2.issued w).

(* ===================================================================== *)
(** * Properties                                                          *)
(* ===================================================================== *)

(** ** Scoring: what the loops compute *)

(** [Math.round] on a few doubles: ties go up, also below zero. *)
Lemma Math_round_examples :
  let half := PrimFloat.div (JS.of_Z 1) (JS.of_Z 2) in
  JS.Math_round (PrimFloat.add (JS.of_Z 2) half) = JS.RInt 3
  /\ JS.Math_round (PrimFloat.sub (JS.of_Z (-2)) half) = JS.RInt (-2)
  /\ JS.Math_round (PrimFloat.div (JS.of_Z 1) (JS.of_Z 3)) = JS.RInt 0
  /\ JS.Math_round (PrimFloat.div (JS.of_Z 2) (JS.of_Z 3)) = JS.RInt 1
  /\ JS.Math_round (PrimFloat.next_down half) = JS.RInt 0
  /\ JS.Math_round (JS.of_Z 100) = JS.RInt 100
  /\ JS.percent (JS.of_Z 1) (JS.of_Z 4) = JS.RInt 25
  /\ JS.percent (JS.of_Z 1) (JS.of_Z 8) = JS.RInt 13
  /\ JS.percent (JS.of_Z 1) (JS.of_Z 0) = JS.RPosInf.
Proof. repeat split; vm_compute; reflexivity. Qed.

Lemma answer_is_decide (a : gmap Z Z) (index : nat) (c : Z) :
  V1.answer_is a index c = bool_decide (a !! Z.of_nat index = Some c).
Proof.
  unfold V1.answer_is. destruct (a !! Z.of_nat index) as [v|].
  - destruct (Z.eqb_spec v c) as [->|Hne].
    + by rewrite bool_decide_eq_true_2.
    + rewrite bool_decide_eq_false_2; [done|]. intros [= ?]. done.
  - by rewrite bool_decide_eq_false_2.
Qed.

(** The loop of the first revision adds, to whatever it starts from, the
    sums of the specification. *)
Lemma V1_tally_from (a : gmap Z Z) (qs : list Question) :
  forall (i : nat) (s t : Z),
    JS.forEach (fun (acc : Z * Z) q index =>
                  let totalPoints := snd acc + points q in
                  if V1.answer_is a index (correctAnswer q)
                  then (fst acc + points q, totalPoints)
                  else (fst acc, totalPoints))
               qs i (s, t)
    = (s + Spec.earnedPoints_from (fun j => a !! Z.of_nat j) qs i,
       t + Spec.totalPoints_of qs).
Proof.
  induction qs as [|q qs IH]; intros i s t; simpl.
  - f_equal; lia.
  - rewrite answer_is_decide.
    destruct (bool_decide (a !! Z.of_nat i = Some (correctAnswer q)));
      simpl; rewrite IH; f_equal; lia.
Qed.

(** In the first revision [score] and [totalPoints] are the earned and
    the total points of the specification, for every exam and every
    answer map. *)
Lemma V1_tally_refines (qs : list Question) (a : gmap Z Z) :
  V1.tally qs a
  = (Spec.earnedPoints (fun j => a !! Z.of_nat j) qs, Spec.totalPoints_of qs).
Proof. unfold V1.tally. rewrite V1_tally_from. reflexivity. Qed.

Lemma V2_tally_from (qs : list Question) :
  forall (a : list (option Z)) (i : nat) (s t : Z),
    Forall (fun x => is_Some x) a ->
    (i + length a <= length qs)%nat ->
    JS.forEach (fun (acc : option (Z * Z)) answer index =>
                  match acc, answer with
                  | None, _ => None
                  | Some _, None => acc
                  | Some (score, totalPoints), Some v =>
                      match qs !! index with
                      | None => None
                      | Some q =>
                          Some (if v =? correctAnswer q then score + points q else score,
                                totalPoints + points q)
                      end
                  end)
               a i (Some (s, t))
    = Some (s + Spec.earnedPoints_from (fun j => mjoin (a !! (j - i)%nat))
                  (take (length a) (drop i qs)) i,
            t + Spec.totalPoints_of (take (length a) (drop i qs))).
Proof.
  induction a as [|x a IH]; intros i s t Hall Hlen; simpl.
  - do 2 f_equal; lia.
  - inversion Hall as [|? ? [v ->] Hall']; subst. simpl in Hlen.
    destruct (lookup_lt_is_Some_2 qs i ltac:(lia)) as [q Hq].
    rewrite Hq. rewrite IH by (done || lia).
    rewrite (drop_S _ _ _ Hq). simpl. rewrite Nat.sub_diag. simpl.
    assert (Hshift : forall l k,
               (i < k)%nat ->
               Spec.earnedPoints_from (fun j => mjoin (a !! (j - S i)%nat)) l k
               = Spec.earnedPoints_from (fun j => mjoin ((Some v :: a) !! (j - i)%nat)) l k).
    { induction l as [|q' l IHl]; intros k Hk; simpl; [done|].
      rewrite IHl by lia.
      replace (k - i)%nat with (S (k - S i)) by lia. done. }
    rewrite Hshift by lia.
    destruct (Z.eqb_spec v (correctAnswer q)) as [->|Hne].
    + rewrite bool_decide_eq_true_2 by done. do 2 f_equal; lia.
    + rewrite bool_decide_eq_false_2 by (intros [= ?]; done). do 2 f_equal; lia.
Qed.

(** The same for the second revision, whose answers are an array with one
    entry per question. *)
Lemma V2_tally_refines (qs : list Question) (a : list (option Z)) :
  Forall (fun x => is_Some x) a ->
  length a = length qs ->
  V2.tally qs a
  = Some (Spec.earnedPoints (fun j => mjoin (a !! j)) qs, Spec.totalPoints_of qs).
Proof.
  intros Hall Hlen. unfold V2.tally.
  rewrite V2_tally_from by (done || lia).
  rewrite drop_0, Hlen, firstn_all. unfold Spec.earnedPoints.
  do 2 f_equal.
  assert (H : forall l k, Spec.earnedPoints_from (fun j => mjoin (a !! (j - 0)%nat)) l k
                          = Spec.earnedPoints_from (fun j => mjoin (a !! j)) l k).
  { induction l as [|q l IHl]; intros k; simpl; [done|].
    by rewrite IHl, Nat.sub_0_r. }
  apply H.
Qed.

(** The score both revisions store is [Math.round] of the double
    [(earned / total) * 100] over the sums of the specification. *)
Lemma V1_finalScore_refines (qs : list Question) (a : gmap Z Z) :
  V1.finalScore qs a
  = JS.percent (JS.of_Z (Spec.earnedPoints (fun j => a !! Z.of_nat j) qs))
               (JS.of_Z (Spec.totalPoints_of qs)).
Proof. unfold V1.finalScore. by rewrite V1_tally_refines. Qed.

Lemma V2_finalScore_refines (qs : list Question) (a : list (option Z)) :
  Forall (fun x => is_Some x) a ->
  length a = length qs ->
  V2.finalScore qs a
  = Some (JS.percent (JS.of_Z (Spec.earnedPoints (fun j => mjoin (a !! j)) qs))
                     (JS.of_Z (Spec.totalPoints_of qs))).
Proof. intros Hall Hlen. unfold V2.finalScore. by rewrite V2_tally_refines. Qed.

(** Up to a total of 39 points the stored score is the rounded percentage
    of the specification for every number of earned points; 40 is the
    first total with a tie that the doubles miss. *)
Lemma percent_agrees_below_40 :
  forallb (fun total =>
             forallb (fun earned =>
                        JS.rounded_eqb (JS.percent (JS.of_Z earned) (JS.of_Z total))
                                       (JS.RInt (Spec.score earned total)))
                     (seqZ 0 (total + 1)))
          (seqZ 1 39)
  = true.
Proof. vm_compute. reflexivity. Qed.

(** C1 (fails on the code).  An exam of two questions worth 23 and 17
    points, the first answered right and the second wrong: earned 23 of
    40, exactly 57.5 percent, which the specification rounds to 58.
    Both revisions divide first: the double 23/40 times 100 is
    57.49999999999999, and the submission they store carries 57. *)
Theorem C1_tie_is_scored_one_below :
  let clicks := [EvAnswer 0 0; EvAnswer 1 0; EvGoTo 1;
                 EvRequestSubmit; EvConfirm; EvWriteDone true] in
  let qs := questions exam_23_17 in
  (V1.attempt (one_exam exam_23_17) empty_store "student1" "exam1" [] clicks
     ≫= fun w => V1.sub_score <$> docs (V1.db w) !! inl "student1_exam1")
  = Some (JS.RInt 57)
  /\ (V2.attempt (one_exam exam_23_17) empty_store "student1" "exam1" [] clicks
        ≫= fun w => V2.sub_score <$> docs (V2.db w) !! inr 0%nat)
     = Some (JS.RInt 57)
  /\ Spec.earnedPoints (fun j => ({[0 := 0; 1 := 0]} : gmap Z Z) !! Z.of_nat j) qs = 23
  /\ Spec.totalPoints_of qs = 40
  /\ Spec.score 23 40 = 58.
Proof. repeat split; vm_compute; reflexivity. Qed.

Lemma totalPoints_of_nonneg (qs : list Question) :
  Forall (fun q => 0 <= points q) qs -> 0 <= Spec.totalPoints_of qs.
Proof. induction 1; simpl; lia. Qed.

Lemma earnedPoints_zero_total (recorded : nat -> option Z) (qs : list Question) :
  Forall (fun q => 0 <= points q) qs ->
  Spec.totalPoints_of qs = 0 ->
  forall i, Spec.earnedPoints_from recorded qs i = 0.
Proof.
  induction 1 as [|q qs Hq Hall IH]; intros Htot i; simpl in *; [done|].
  pose proof (totalPoints_of_nonneg qs Hall).
  rewrite IH by lia.
  destruct (bool_decide _); lia.
Qed.

(** For every exam whose points are not negative and add up to zero, and
    for every answer state, both revisions compute [NaN]. *)
Lemma V1_finalScore_zero_total (qs : list Question) (a : gmap Z Z) :
  Forall (fun q => 0 <= points q) qs ->
  Spec.totalPoints_of qs = 0 ->
  V1.finalScore qs a = JS.RNaN.
Proof.
  intros Hall Htot. rewrite V1_finalScore_refines. unfold Spec.earnedPoints.
  rewrite earnedPoints_zero_total, Htot by done. reflexivity.
Qed.

Lemma V2_finalScore_zero_total (qs : list Question) (a : list (option Z)) :
  Forall (fun x => is_Some x) a ->
  length a = length qs ->
  Forall (fun q => 0 <= points q) qs ->
  Spec.totalPoints_of qs = 0 ->
  V2.finalScore qs a = Some JS.RNaN.
Proof.
  intros Ha Hlen Hall Htot. rewrite V2_finalScore_refines by done.
  unfold Spec.earnedPoints.
  rewrite earnedPoints_zero_total, Htot by done. reflexivity.
Qed.

(** C3 (fails on the code).  With a total of zero points both revisions
    of TakeExam evaluate [Math.round((0 / 0) * 100)] and store [NaN];
    only [calculateFinalScore] of the teacher's review has the guard
    [totalPoints > 0 ? ... : 0]. *)
Theorem C3_zero_total_is_stored_as_NaN :
  let clicks := [EvAnswer 0 0; EvRequestSubmit; EvConfirm; EvWriteDone true] in
  Spec.totalPoints_of (questions exam_zero) = 0
  /\ (V1.attempt (one_exam exam_zero) empty_store "student1" "exam1" [] clicks
        ≫= fun w => V1.sub_score <$> docs (V1.db w) !! inl "student1_exam1")
     = Some JS.RNaN
  /\ (V2.attempt (one_exam exam_zero) empty_store "student1" "exam1" [] clicks
        ≫= fun w => V2.sub_score <$> docs (V2.db w) !! inr 0%nat)
     = Some JS.RNaN
  /\ ViewSubmissions.calculateFinalScore
       (ViewSubmissions.mkSubmission "s1"
          [ViewSubmissions.mkGraded "objective" PrimFloat.zero PrimFloat.zero 0])
       ∅
     = JS.RInt 0.
Proof. repeat split; vm_compute; reflexivity. Qed.

(** ** Passed / Failed *)

(** With a passing score other than zero the label is "Passed" exactly
    when the score reaches it. *)
Lemma status_Passed_iff (score : JS.rounded) (p : Z) :
  p <> 0 ->
  Results.status score (Some p) = "Passed" <-> Results.ge score p = true.
Proof.
  intros Hp. unfold Results.status, Results.passing_or_default.
  destruct (Z.eqb_spec p 0) as [?|_]; [done|].
  destruct (Results.ge score p); split; intros H; try done.
Qed.

(** C8 (fails on the code).  60 against 60 is "Passed" and 59 is
    "Failed", but a passing score of 0, which the authoring form admits
    ([min="0"]), is falsy in [passingScore || 60]: a score of 30 is
    labelled "Failed" although it is not below 0. *)
Theorem C8_zero_passing_score_defaults_to_60 :
  Results.status (JS.RInt 60) (Some 60) = "Passed"
  /\ Results.status (JS.RInt 59) (Some 60) = "Failed"
  /\ Results.status (JS.RInt 30) (Some 0) = "Failed"
  /\ Results.ge (JS.RInt 30) 0 = true.
Proof. repeat split. Qed.

(** ** The order of binary64 numbers *)

Section FloatOrder.

Local Open Scope float_scope.

Lemma SFcompare_antisym (x y : spec_float) (c : comparison) :
  SFcompare x y = Some c -> SFcompare y x = Some (CompOpp c).
Proof.
  destruct x as [sx|sx| |sx mx ex], y as [sy|sy| |sy my ey]; simpl;
    try destruct sx; try destruct sy; intros [= <-]; try reflexivity.
  - rewrite (Z.compare_antisym ex ey).
    destruct (ex ?= ey)%Z; simpl; try reflexivity.
    by rewrite (Pos.compare_cont_antisym mx my Eq).
  - rewrite (Z.compare_antisym ex ey).
    destruct (ex ?= ey)%Z; simpl; try reflexivity.
    by rewrite (Pos.compare_cont_antisym mx my Eq).
Qed.

Lemma SFcompare_refl (x : spec_float) :
  x <> S754_nan -> SFcompare x x = Some Eq.
Proof.
  destruct x as [s|s| |s m e]; simpl; intros Hx; try done.
  - by destruct s.
  - rewrite Z.compare_refl, Pos.compare_cont_refl. by destruct s.
Qed.

Lemma SFcompare_total (x y : spec_float) :
  x <> S754_nan -> y <> S754_nan -> exists c, SFcompare x y = Some c.
Proof.
  destruct x as [sx|sx| |sx mx ex], y as [sy|sy| |sy my ey]; simpl;
    intros Hx Hy; try done; eauto.
Qed.

Lemma ltb_Lt (a b : float) :
  (a <? b) = true <-> SFcompare (Prim2SF a) (Prim2SF b) = Some Lt.
Proof.
  rewrite FloatAxioms.ltb_spec. unfold SFltb.
  destruct (SFcompare (Prim2SF a) (Prim2SF b)) as [[]|]; split; intros H; done.
Qed.

Lemma leb_LtEq (a b : float) :
  (a <=? b) = true <->
  SFcompare (Prim2SF a) (Prim2SF b) = Some Lt \/
  SFcompare (Prim2SF a) (Prim2SF b) = Some Eq.
Proof.
  rewrite FloatAxioms.leb_spec. unfold SFleb.
  destruct (SFcompare (Prim2SF a) (Prim2SF b)) as [[]|]; split; intros H;
    try done; auto; destruct H; done.
Qed.

Lemma eqb_Eq (a b : float) :
  (a =? b) = true <-> SFcompare (Prim2SF a) (Prim2SF b) = Some Eq.
Proof.
  rewrite FloatAxioms.eqb_spec. unfold SFeqb.
  destruct (SFcompare (Prim2SF a) (Prim2SF b)) as [[]|]; split; intros H; done.
Qed.

Lemma is_nan_false (a : float) :
  is_nan a = false <-> Prim2SF a <> S754_nan.
Proof.
  unfold is_nan. rewrite negb_false_iff, eqb_Eq. split.
  - intros H Hn. rewrite Hn in H. done.
  - apply SFcompare_refl.
Qed.

Lemma num_lt_le (a b : float) : JS.num_lt a b -> JS.num_le a b.
Proof. unfold JS.num_lt, JS.num_le. rewrite ltb_Lt, leb_LtEq. auto. Qed.

Lemma num_lt_asym (a b : float) : JS.num_lt a b -> (b <? a) = false.
Proof.
  unfold JS.num_lt. rewrite ltb_Lt. intros H%SFcompare_antisym.
  apply not_true_is_false. rewrite ltb_Lt, H. done.
Qed.

Lemma num_le_not_gt (a b : float) : JS.num_le a b -> (b <? a) = false.
Proof.
  unfold JS.num_le. rewrite leb_LtEq.
  intros [H%SFcompare_antisym|H%SFcompare_antisym];
    apply not_true_is_false; rewrite ltb_Lt, H; done.
Qed.

Lemma num_le_not_nan (a b : float) :
  JS.num_le a b -> is_nan a = false /\ is_nan b = false.
Proof.
  unfold JS.num_le. rewrite leb_LtEq, !is_nan_false.
  intros H; split; intros Hn; rewrite Hn in H;
    destruct (Prim2SF a), (Prim2SF b), H; done.
Qed.

Lemma num_eq_refl (a : float) : is_nan a = false -> JS.num_eq a a.
Proof.
  rewrite is_nan_false. unfold JS.num_eq. rewrite eqb_Eq. apply SFcompare_refl.
Qed.

Lemma num_eq_le (a b : float) : JS.num_eq a b -> JS.num_le a b.
Proof. unfold JS.num_eq, JS.num_le. rewrite eqb_Eq, leb_LtEq. auto. Qed.

(** Two numbers neither of which is below the other are equal. *)
Lemma num_eq_of_not_lt (a b : float) :
  is_nan a = false -> is_nan b = false ->
  (a <? b) = false -> (b <? a) = false ->
  JS.num_eq a b /\ JS.num_eq b a.
Proof.
  rewrite !is_nan_false. intros Ha Hb Hab Hba.
  destruct (SFcompare_total _ _ Ha Hb) as [c Hc].
  pose proof (SFcompare_antisym _ _ _ Hc) as Hc'.
  apply not_true_iff_false in Hab, Hba. rewrite ltb_Lt in Hab, Hba.
  unfold JS.num_eq. rewrite !eqb_Eq.
  destruct c; simpl in Hc'; done.
Qed.

Lemma Prim2SF_zero : Prim2SF zero = S754_zero false.
Proof. reflexivity. Qed.

(** Above a number that is not negative, a number is positive. *)
Lemma num_lt_above_zero (m x : float) :
  JS.num_le zero m -> JS.num_lt m x -> JS.num_lt zero x.
Proof.
  unfold JS.num_le, JS.num_lt. rewrite leb_LtEq, !ltb_Lt, Prim2SF_zero.
  destruct (Prim2SF m) as [sm|sm| |sm mm em], (Prim2SF x) as [sx|sx| |sx mx ex];
    simpl; try destruct sm; try destruct sx; intros [H|H] H'; done.
Qed.

End FloatOrder.

(** ** Review: the clamp of a subjective grade *)

Section Clamp.

Local Open Scope float_scope.

Lemma num_lt_not_nan (a b : float) :
  JS.num_lt a b -> is_nan a = false /\ is_nan b = false.
Proof. intros H%num_lt_le. by apply num_le_not_nan. Qed.

(** [Math.max(0, x)] of a number. *)
Lemma Math_max_zero (x : float) :
  is_nan x = false ->
  is_nan (JS.Math_max zero x) = false
  /\ JS.num_le zero (JS.Math_max zero x)
  /\ (JS.num_lt zero x -> JS.Math_max zero x = x)
  /\ (JS.num_lt x zero -> JS.Math_max zero x = zero).
Proof.
  intros Hx. unfold JS.Math_max.
  change (is_nan zero) with false. rewrite Hx. simpl.
  destruct (zero <? x) eqn:H1.
  - repeat split; auto.
    + by apply num_lt_le.
    + intros H%num_lt_asym. congruence.
  - assert (Hz : (if x <? zero then zero else zero) = zero)
      by (by destruct (x <? zero)).
    rewrite Hz. repeat split; auto. unfold JS.num_lt. congruence.
Qed.

(** [Math.min(a, m)] of two numbers. *)
Lemma Math_min_bounds (a m : float) :
  is_nan a = false -> is_nan m = false ->
  (JS.Math_min a m = a \/ JS.Math_min a m = m)
  /\ JS.num_le (JS.Math_min a m) m
  /\ (JS.num_lt m a -> JS.Math_min a m = m)
  /\ ((m <? a) = false -> JS.num_eq (JS.Math_min a m) a).
Proof.
  intros Ha Hm. unfold JS.Math_min. rewrite Ha, Hm. simpl.
  destruct (a <? m) eqn:H1.
  - repeat split; auto.
    + by apply num_lt_le.
    + intros H%num_lt_asym. congruence.
    + intros _. by apply num_eq_refl.
  - destruct (m <? a) eqn:H2.
    + repeat split; auto.
      * by apply num_eq_le, num_eq_refl.
      * done.
    + destruct (num_eq_of_not_lt a m Ha Hm H1 H2) as [Ham Hma].
      destruct (get_sign a).
      * split; [by left|]. split; [by apply num_eq_le|].
        split; [unfold JS.num_lt; congruence|].
        intros _. by apply num_eq_refl.
      * split; [by right|]. split; [by apply num_eq_le, num_eq_refl|].
        split; done.
Qed.

(** The grade [handleGradeChange] keeps for a number that is not NaN. *)
Lemma clamp_bounds (x m : float) :
  is_nan x = false -> JS.num_le zero m ->
  let g := JS.Math_min (JS.Math_max zero x) m in
  is_nan g = false
  /\ JS.num_le zero g /\ JS.num_le g m
  /\ (JS.num_lt x zero -> JS.num_eq g zero)
  /\ (JS.num_lt m x -> g = m).
Proof.
  intros Hx Hm g.
  destruct (num_le_not_nan _ _ Hm) as [_ Hmn].
  destruct (Math_max_zero x Hx) as (HMn & HM0 & HMx & HMz).
  destruct (Math_min_bounds _ m HMn Hmn) as (Hor & Hle & Hgt & Heq).
  fold g in Hor, Hle, Hgt, Heq.
  assert (H0g : JS.num_le zero g) by (destruct Hor as [-> | ->]; done).
  repeat split; try done.
  - by apply (num_le_not_nan _ _ H0g).
  - intros Hneg. specialize (HMz Hneg). rewrite HMz in Heq.
    apply Heq. by apply num_le_not_gt.
  - intros Habove. apply Hgt. rewrite HMx; [done|].
    by apply (num_lt_above_zero m).
Qed.

(** [g || 0] of a grade within the bounds stays within them. *)
Lemma grade_or_zero_bounds (grades : gmap nat float) (i : nat) (g m : float) :
  grades !! i = Some g ->
  JS.num_le zero m ->
  (is_nan g = false -> JS.num_le zero g /\ JS.num_le g m) ->
  JS.num_le zero (ViewSubmissions.grade_or_zero grades i)
  /\ JS.num_le (ViewSubmissions.grade_or_zero grades i) m.
Proof.
  intros Hg Hm Hb. unfold ViewSubmissions.grade_or_zero, JS.truthy. rewrite Hg.
  destruct (is_nan g) eqn:Hn; simpl.
  - split; [reflexivity | done].
  - destruct (is_zero g); simpl; [split; [reflexivity | done] | by apply Hb].
Qed.

End Clamp.

Section ClampInside.

Local Open Scope float_scope.

(** Two numbers that compare equal are both zeros or the same number. *)
Lemma SFcompare_Eq (x y : spec_float) :
  SFcompare x y = Some Eq ->
  (exists s s', x = S754_zero s /\ y = S754_zero s') \/ x = y.
Proof.
  destruct x as [sx|sx| |sx mx ex], y as [sy|sy| |sy my ey]; simpl;
    try destruct sx; try destruct sy; intros H; try discriminate; eauto.
  - right. injection H as H.
    destruct (Z.compare_spec ex ey) as [-> | |]; try done.
    rewrite CompOpp_iff in H. simpl in H.
    change (Pos.compare_cont Eq mx my) with (mx ?= my)%positive in H.
    apply Pos.compare_eq in H. by subst.
  - right. injection H as H.
    destruct (Z.compare_spec ex ey) as [-> | |]; try done.
    change (Pos.compare_cont Eq mx my) with (mx ?= my)%positive in H.
    apply Pos.compare_eq in H. by subst.
Qed.

Lemma num_eq_sym (a b : float) : JS.num_eq a b -> JS.num_eq b a.
Proof.
  unfold JS.num_eq. rewrite !eqb_Eq. intros H%SFcompare_antisym. done.
Qed.

Lemma num_eq_trans (a b c : float) : JS.num_eq a b -> JS.num_eq b c -> JS.num_eq a c.
Proof.
  unfold JS.num_eq. rewrite !eqb_Eq. intros Hab Hbc.
  destruct (SFcompare_Eq _ _ Hab) as [(s & s' & Ha & Hb) | Heq].
  - destruct (SFcompare_Eq _ _ Hbc) as [(t & t' & Hb' & Hc) | Heq'].
    + by rewrite Ha, Hc.
    + by rewrite Ha, <- Heq', Hb.
  - by rewrite Heq.
Qed.

(** A positive number is equal to itself only. *)
Lemma num_eq_positive (a b : float) :
  JS.num_lt zero a -> JS.num_eq a b -> a = b.
Proof.
  unfold JS.num_lt, JS.num_eq. rewrite ltb_Lt, eqb_Eq, Prim2SF_zero.
  intros Hpos Heq. apply Prim2SF_inj.
  destruct (SFcompare_Eq _ _ Heq) as [(s & s' & Ha & _) | H]; [|done].
  rewrite Ha in Hpos. done.
Qed.

(** A grade within the bounds is kept as it is typed. *)
Lemma clamp_inside (x m : float) :
  JS.num_le zero x -> JS.num_le x m ->
  let g := JS.Math_min (JS.Math_max zero x) m in
  JS.num_eq g x /\ (JS.num_lt zero x -> g = x).
Proof.
  intros H0 Hm g.
  destruct (num_le_not_nan _ _ Hm) as [Hxn Hmn].
  assert (Hmax : JS.Math_max zero x = (if zero <? x then x else zero)).
  { unfold JS.Math_max. change (is_nan zero) with false. rewrite Hxn. simpl.
    destruct (zero <? x); [done|]. by destruct (x <? zero). }
  destruct (zero <? x) eqn:Hpos.
  - subst g. rewrite Hmax.
    destruct (Math_min_bounds x m Hxn Hmn) as (Hor & _ & _ & Heq).
    specialize (Heq (num_le_not_gt _ _ Hm)).
    split; [done|]. intros _.
    destruct Hor as [H | H]; [done|].
    rewrite H in Heq |- *. symmetry. apply num_eq_positive; [done|].
    by apply num_eq_sym.
  - assert (Hx0 : JS.num_eq zero x).
    { by destruct (num_eq_of_not_lt zero x eq_refl Hxn Hpos (num_le_not_gt _ _ H0)). }
    split; [|unfold JS.num_lt; congruence].
    subst g. rewrite Hmax.
    assert (H0m : JS.num_le zero m).
    { unfold JS.num_le in *. rewrite leb_LtEq in *.
      unfold JS.num_eq in Hx0. rewrite eqb_Eq in Hx0.
      destruct (SFcompare_Eq _ _ Hx0) as [(s & s' & Ha & Hb) | Heq].
      - rewrite Hb in Hm. rewrite Ha. done.
      - by rewrite Heq. }
    destruct (Math_min_bounds zero m eq_refl Hmn) as (_ & _ & _ & Heq).
    specialize (Heq (num_le_not_gt _ _ H0m)).
    by eapply num_eq_trans.
Qed.

End ClampInside.

(** C10.  Whatever number the teacher types for question [i] of the
    submission under review (a subjective question whose [maxPoints] is
    not negative), [handleGradeChange] keeps a grade for [i], and for a
    number that is not NaN the grade lies between 0 and [maxPoints]:
    below 0 gives 0, above [maxPoints] gives [maxPoints], and a number
    from 0 to [maxPoints] is kept as it is typed; the score
    [handleSubmitGrades] then writes for the question is the same, and
    lies between 0 and [maxPoints] for every input. *)
Theorem C10_grade_is_clamped
        (sub : ViewSubmissions.Submission) (i : nat)
        (q : ViewSubmissions.GradedQuestion) (x : float) (prev : gmap nat float) :
  ViewSubmissions.gradedQuestions sub !! i = Some q ->
  ViewSubmissions.qtype q = "subjective" ->
  JS.num_le PrimFloat.zero (ViewSubmissions.maxPoints q) ->
  exists (grades : gmap nat float) (g r : float),
    ViewSubmissions.handleGradeChange sub i x prev = Some grades
    /\ grades !! i = Some g
    /\ ViewSubmissions.score <$>
         (ViewSubmissions.upd_gradedQuestions
            (ViewSubmissions.handleSubmitGrades sub grades) !! i) = Some r
    /\ (PrimFloat.is_nan x = false ->
        JS.num_le PrimFloat.zero g /\ JS.num_le g (ViewSubmissions.maxPoints q))
    /\ (JS.num_lt x PrimFloat.zero ->
        JS.num_eq g PrimFloat.zero /\ JS.num_eq r PrimFloat.zero)
    /\ (JS.num_lt (ViewSubmissions.maxPoints q) x ->
        JS.num_eq (ViewSubmissions.maxPoints q) g
        /\ JS.num_eq (ViewSubmissions.maxPoints q) r)
    /\ (JS.num_le PrimFloat.zero x -> JS.num_le x (ViewSubmissions.maxPoints q) ->
        JS.num_eq g x /\ JS.num_eq r x)
    /\ (JS.num_lt PrimFloat.zero x -> JS.num_le x (ViewSubmissions.maxPoints q) ->
        g = x /\ r = x)
    /\ JS.num_le PrimFloat.zero r /\ JS.num_le r (ViewSubmissions.maxPoints q).
Proof.
  intros Hq Hty Hm.
  set (m := ViewSubmissions.maxPoints q) in *.
  set (g := JS.Math_min (JS.Math_max PrimFloat.zero x) m).
  exists (<[i := g]> prev), g, (ViewSubmissions.grade_or_zero (<[i := g]> prev) i).
  assert (Hlook : (<[i := g]> prev) !! i = Some g) by apply lookup_insert_eq.
  destruct (num_le_not_nan _ _ Hm) as [_ Hmn].
  assert (Hb : PrimFloat.is_nan g = false ->
               JS.num_le PrimFloat.zero g /\ JS.num_le g m).
  { intros Hgn. destruct (PrimFloat.is_nan x) eqn:Hx.
    - exfalso. subst g. unfold JS.Math_max, JS.Math_min in Hgn.
      rewrite Hx in Hgn. rewrite orb_true_r in Hgn.
      change (PrimFloat.is_nan PrimFloat.nan) with true in Hgn. done.
    - by destruct (clamp_bounds x m Hx Hm) as (_ & ? & ? & _). }
  destruct (grade_or_zero_bounds _ i g m Hlook Hm Hb) as [Hr0 Hrm].
  split_and!.
  - unfold ViewSubmissions.handleGradeChange. by rewrite Hq.
  - done.
  - unfold ViewSubmissions.handleSubmitGrades. simpl.
    rewrite list_lookup_imap, Hq. simpl. by rewrite Hty.
  - intros Hx. by destruct (clamp_bounds x m Hx Hm) as (_ & ? & ? & _).
  - intros Hneg. destruct (num_lt_not_nan _ _ Hneg) as [Hx _].
    destruct (clamp_bounds x m Hx Hm) as (Hgn & _ & _ & H & _).
    specialize (H Hneg). fold g in H, Hgn. split; [done|].
    unfold ViewSubmissions.grade_or_zero, JS.truthy.
    rewrite Hlook, Hgn. simpl. unfold JS.num_eq in H. unfold PrimFloat.is_zero.
    rewrite H. reflexivity.
  - intros Habove. destruct (num_lt_not_nan _ _ Habove) as [_ Hx].
    destruct (clamp_bounds x m Hx Hm) as (_ & _ & _ & _ & H).
    fold g in H. specialize (H Habove). split.
    + rewrite H. by apply num_eq_refl.
    + unfold ViewSubmissions.grade_or_zero, JS.truthy. rewrite Hlook, H, Hmn. simpl.
      destruct (PrimFloat.is_zero m) eqn:Hz; simpl.
      * exact Hz.
      * by apply num_eq_refl.
  - intros Hx0 Hxm. destruct (clamp_inside x m Hx0 Hxm) as [Hg _]. fold g in Hg.
    split; [done|].
    unfold ViewSubmissions.grade_or_zero, JS.truthy. rewrite Hlook.
    destruct (num_le_not_nan _ _ (num_eq_le _ _ Hg)) as [Hgn _]. rewrite Hgn. simpl.
    destruct (PrimFloat.is_zero g) eqn:Hz; simpl; [|done].
    unfold PrimFloat.is_zero in Hz.
    apply (num_eq_trans _ g); [|done]. by apply num_eq_sym.
  - intros Hpos Hxm.
    destruct (clamp_inside x m (num_lt_le _ _ Hpos) Hxm) as [_ Hg]. fold g in Hg.
    specialize (Hg Hpos). split; [done|].
    unfold ViewSubmissions.grade_or_zero, JS.truthy. rewrite Hlook, Hg.
    destruct (num_lt_not_nan _ _ Hpos) as [_ Hxn]. rewrite Hxn. simpl.
    assert (Hz : PrimFloat.is_zero x = false).
    { unfold PrimFloat.is_zero. apply not_true_is_false. intros Hz.
      apply num_eq_le, num_le_not_gt in Hz.
      unfold JS.num_lt in Hpos. congruence. }
    by rewrite Hz.
  - done.
  - done.
Qed.

Lemma C10_grade_is_clamped_witness :
  ViewSubmissions.gradedQuestions review1 !! 0%nat = Some essay
  /\ ViewSubmissions.qtype essay = "subjective"
  /\ JS.num_le PrimFloat.zero (ViewSubmissions.maxPoints essay)
  /\ exists (grades : gmap nat float) (g r : float),
    ViewSubmissions.handleGradeChange review1 0 (JS.of_Z 3) ∅ = Some grades
    /\ grades !! 0%nat = Some g
    /\ ViewSubmissions.score <$>
         (ViewSubmissions.upd_gradedQuestions
            (ViewSubmissions.handleSubmitGrades review1 grades) !! 0%nat) = Some r
    /\ (PrimFloat.is_nan (JS.of_Z 3) = false ->
        JS.num_le PrimFloat.zero g /\ JS.num_le g (ViewSubmissions.maxPoints essay))
    /\ (JS.num_lt (JS.of_Z 3) PrimFloat.zero ->
        JS.num_eq g PrimFloat.zero /\ JS.num_eq r PrimFloat.zero)
    /\ (JS.num_lt (ViewSubmissions.maxPoints essay) (JS.of_Z 3) ->
        JS.num_eq (ViewSubmissions.maxPoints essay) g
        /\ JS.num_eq (ViewSubmissions.maxPoints essay) r)
    /\ (JS.num_le PrimFloat.zero (JS.of_Z 3) ->
        JS.num_le (JS.of_Z 3) (ViewSubmissions.maxPoints essay) ->
        JS.num_eq g (JS.of_Z 3) /\ JS.num_eq r (JS.of_Z 3))
    /\ (JS.num_lt PrimFloat.zero (JS.of_Z 3) ->
        JS.num_le (JS.of_Z 3) (ViewSubmissions.maxPoints essay) ->
        g = JS.of_Z 3 /\ r = JS.of_Z 3)
    /\ JS.num_le PrimFloat.zero r /\ JS.num_le r (ViewSubmissions.maxPoints essay).
Proof.
  assert (H : JS.num_le PrimFloat.zero (ViewSubmissions.maxPoints essay))
    by (vm_compute; reflexivity).
  split; [reflexivity|]. split; [reflexivity|]. split; [exact H|].
  exact (C10_grade_is_clamped review1 0 essay (JS.of_Z 3) ∅ eq_refl eq_refl H).
Defined.

(** The teacher's recomputation returns 0 whenever the points of the
    graded questions add up to zero. *)
Lemma calculateFinalScore_zero_total
      (sub : ViewSubmissions.Submission) (grades : gmap nat float) :
  JS.num_eq (snd (ViewSubmissions.totals sub grades)) PrimFloat.zero ->
  ViewSubmissions.calculateFinalScore sub grades = JS.RInt 0.
Proof.
  intros H%num_eq_le%num_le_not_gt.
  unfold ViewSubmissions.calculateFinalScore. by rewrite H.
Qed.

(** ** Authoring: validation comes before the write *)

Lemma trim_empty : CreateExam.trim EmptyString = EmptyString.
Proof. reflexivity. Qed.

Lemma blank_false (s : string) : CreateExam.blank s = false -> s <> EmptyString.
Proof. by destruct s. Qed.

(** A list of questions that passes the loop has no question with an
    empty text or an empty option. *)
Lemma validate_questions_None (qs : list CreateExam.FormQuestion) :
  forall i : nat,
    CreateExam.validate_questions qs i = None ->
    forall q, q ∈ qs ->
              CreateExam.f_question q <> EmptyString /\ EmptyString ∉ CreateExam.f_options q.
Proof.
  induction qs as [|q0 qs IH]; intros i Hv q Hq.
  - by apply elem_of_nil in Hq.
  - simpl in Hv.
    destruct (CreateExam.blank (CreateExam.trim (CreateExam.f_question q0))) eqn:Hb;
      [done|].
    destruct (existsb (fun opt => CreateExam.blank (CreateExam.trim opt))
                      (CreateExam.f_options q0)) eqn:He; [done|].
    apply elem_of_cons in Hq as [-> | Hq]; [|by eapply IH].
    split.
    + intros Heq. rewrite Heq, trim_empty in Hb. done.
    + intros Hin. apply not_true_iff_false in He. apply He.
      apply existsb_exists. exists EmptyString. split; [by apply list_elem_of_In|done].
Qed.

(** What holds: for every form in which the title, the time limit or
    the passing score is the empty string, or which has no question, or
    has a question whose text or one of whose options is the empty
    string, [handleSubmit] shows an error and leaves the collection of
    exams as it was. *)
Lemma invalid_form_writes_nothing
        (Number : string -> Z) (currentUser : option string) (write_ok : bool)
        (examData : CreateExam.ExamData) (exams : Store Exam) :
  CreateExam.invalid examData ->
  exists msg,
    CreateExam.handleSubmit Number currentUser write_ok examData exams
    = (CreateExam.ToastError msg, exams).
Proof.
  intros Hinv. unfold CreateExam.handleSubmit.
  destruct currentUser as [uid|]; [|eauto].
  destruct (CreateExam.blank (CreateExam.f_title examData)) eqn:Ht; [simpl; eauto|].
  destruct (CreateExam.blank (CreateExam.f_timeLimit examData)) eqn:Hl; [simpl; eauto|].
  destruct (CreateExam.blank (CreateExam.f_passingScore examData)) eqn:Hp; [simpl; eauto|].
  simpl.
  destruct (length (CreateExam.f_questions examData) =? 0)%nat eqn:Hn; [eauto|].
  destruct (CreateExam.validate_questions (CreateExam.f_questions examData) 0)
    as [msg|] eqn:Hv; [eauto|].
  exfalso.
  apply blank_false in Ht, Hl, Hp. apply Nat.eqb_neq in Hn.
  destruct Hinv as [H|[H|[H|[H|(q & Hq & H)]]]]; try done.
  - by rewrite H in Hn.
  - destruct (validate_questions_None _ _ Hv q Hq) as [Hq1 Hq2].
    destruct H as [H|H]; done.
Qed.

(** C9 (fails on the code).  A form that is filled in except for its
    title, which consists of three blanks: [handleSubmit] tests the title
    as it is typed and finds it present, then stores [title.trim()], so
    it reports success and creates an exam whose title is the empty
    string. *)
Theorem C9_blank_title_is_written :
  CreateExam.blank (CreateExam.f_title form_blank_title) = false
  /\ CreateExam.trim (CreateExam.f_title form_blank_title) = EmptyString
  /\ exists e,
      CreateExam.handleSubmit (fun _ => 30) (Some "teacher1") true
                              form_blank_title empty_store
      = (CreateExam.ToastSuccess, addDoc e empty_store)
      /\ title e = EmptyString
      /\ length (questions e) = 2%nat.
Proof.
  split; [reflexivity|]. split; [reflexivity|].
  eexists. split; [reflexivity|]. split; reflexivity.
Qed.

(** A filled-in form does create the document, so the property above is
    not one of a function that never writes. *)
Lemma handleSubmit_filled_form_writes :
  exists e,
    CreateExam.handleSubmit (fun _ => 30) (Some "teacher1") true form_filled empty_store
    = (CreateExam.ToastSuccess, addDoc e empty_store)
    /\ length (questions e) = 2%nat /\ totalPoints e = 2.
Proof. eexists. split; [reflexivity|]. split; reflexivity. Qed.

(** ** Shuffling *)

Lemma shuffleArray_lookup {A : Type} (l : list A) (perm : list nat) :
  Forall (fun i => (i < length l)%nat) perm ->
  forall p i, perm !! p = Some i -> shuffleArray perm l !! p = l !! i.
Proof.
  unfold shuffleArray. induction perm as [|j perm IH]; intros Hall p i Hp.
  - by rewrite lookup_nil in Hp.
  - inversion Hall as [|? ? Hj Hall']; subst.
    destruct (lookup_lt_is_Some_2 l j Hj) as [x Hx]. simpl. rewrite Hx. simpl.
    destruct p as [|p]; simpl in *.
    + injection Hp as <-. done.
    + by apply IH.
Qed.

Lemma shuffleArray_keys (perm : list nat) (n : nat) :
  Forall (fun i => (i < n)%nat) perm ->
  shuffleArray perm (JS.keys n) = perm.
Proof.
  unfold shuffleArray, JS.keys. induction perm as [|j perm IH]; intros Hall.
  - reflexivity.
  - inversion Hall as [|? ? Hj Hall']; subst.
    change (omap (fun i => seq 0 n !! i) (j :: perm))
      with (match seq 0 n !! j with
            | Some y => y :: omap (fun i => seq 0 n !! i) perm
            | None => omap (fun i => seq 0 n !! i) perm
            end).
    rewrite lookup_seq_lt by done. simpl. by rewrite IH.
Qed.

Lemma perm_in_range (perm : list nat) (n : nat) :
  perm ≡ₚ seq 0 n -> Forall (fun i => (i < n)%nat) perm.
Proof.
  intros Hp. apply Forall_forall. intros i Hi.
  rewrite Hp in Hi. apply elem_of_seq in Hi. lia.
Qed.

(** The first index that carries the text of a question is the index of
    the question, provided no two questions share a text. *)
Lemma findIndex_from_text (qs : list Question) :
  forall (k : Z) (i : nat) (q : Question),
    NoDup (map question qs) ->
    qs !! i = Some q ->
    JS.findIndex_from (fun origQ => String.eqb (question origQ) (question q)) qs k
    = k + Z.of_nat i.
Proof.
  induction qs as [|x qs IH]; intros k i q Hnd Hq.
  - by rewrite lookup_nil in Hq.
  - simpl in Hnd. apply NoDup_cons in Hnd as [Hx Hnd]. simpl.
    destruct i as [|i]; simpl in Hq.
    + injection Hq as ->. rewrite String.eqb_refl. lia.
    + destruct (String.eqb_spec (question x) (question q)) as [Heq|_].
      * exfalso. apply Hx. rewrite Heq.
        apply list_elem_of_fmap. exists q. split; [done|].
        by eapply list_elem_of_lookup_2.
      * rewrite (IH (k + 1) i q Hnd Hq). lia.
Qed.

(** Second revision: under every permutation the question shown at a
    position is the original question the order table names, and a click
    there is recorded under that original index and nowhere else. *)
Lemma V2_answer_recorded_under_original
      (exams : gmap string Exam) (d : Store V2.Submission) (examId uid : string)
      (perm : list nat) (e : Exam) (s : V2.State) :
  exams !! examId = Some e ->
  shuffleQuestions e = true ->
  perm ≡ₚ seq 0 (length (questions e)) ->
  V2.fetchExam exams d examId uid perm = V2.Loaded s ->
  forall (p i : nat) (k : Z),
    perm !! p = Some i ->
    V2.questionOrder s !! p = Some i
    /\ is_Some (questions e !! i)
    /\ V2.shuffledQuestions s !! p = questions e !! i
    /\ V2.answers (V2.handleAnswer p k s) !! i = Some (Some k)
    /\ forall j, j <> i ->
                 V2.answers (V2.handleAnswer p k s) !! j = V2.answers s !! j.
Proof.
  intros He Hsh Hperm Hload p i k Hp.
  pose proof (perm_in_range _ _ Hperm) as Hrange.
  assert (Hi : (i < length (questions e))%nat).
  { eapply (proj1 (Forall_lookup _ _) Hrange); eauto. }
  unfold V2.fetchExam in Hload. rewrite He in Hload.
  destruct (negb (isPublished e)); [done|].
  destruct ((0 <? V2.attempts d examId uid)%nat && negb (allowReattempts e)); [done|].
  unfold V2.order_of in Hload. rewrite Hsh in Hload.
  rewrite shuffleArray_keys in Hload by done.
  injection Hload as <-. simpl.
  split; [done|]. split; [by apply lookup_lt_is_Some_2|].
  split; [by apply (shuffleArray_lookup (questions e) perm Hrange)|].
  unfold V2.handleAnswer. simpl. rewrite Hp. simpl.
  unfold V2.array_set. rewrite length_replicate.
  destruct (Nat.ltb_spec i (length (questions e))) as [_|?]; [|lia].
  split.
  - apply list_lookup_insert_eq. by rewrite length_replicate.
  - intros j Hj. by apply list_lookup_insert_ne.
Qed.

(** Second revision: shuffling is a relabeling.  The answers after any
    clicks on the shuffled presentation are the answers after the same
    choices made on the unshuffled presentation, each click moved from its
    position to the original index shown there; so is the score, which is
    computed from the answers and the original question list. *)
Lemma V2_shuffle_is_relabeling (perm : list nat) (n : nat) (clicks : list (nat * Z)) :
  Forall (fun i => (i < n)%nat) perm ->
  forall s_shuffled s_plain : V2.State,
    V2.questionOrder s_shuffled = perm ->
    V2.questionOrder s_plain = JS.keys n ->
    V2.answers s_shuffled = V2.answers s_plain ->
    V2.answers (V2.clicks s_shuffled clicks)
    = V2.answers (V2.clicks s_plain
                    (omap (fun c => (fun i => (i, c.2)) <$> perm !! c.1) clicks)).
Proof.
  intros Hrange. induction clicks as [|[p k] clicks IH];
    intros s1 s2 H1 H2 Ha; simpl; [done|].
  destruct (perm !! p) as [i|] eqn:Hp; simpl.
  - apply IH.
    + unfold V2.handleAnswer. rewrite H1, Hp. done.
    + unfold V2.handleAnswer. by destruct (V2.questionOrder s2 !! i).
    + assert (Hi : (i < n)%nat) by (eapply (proj1 (Forall_lookup _ _) Hrange); eauto).
      unfold V2.handleAnswer. rewrite H1, Hp, H2. unfold JS.keys.
      rewrite lookup_seq_lt by done. simpl. by rewrite Ha.
  - apply IH; try done.
    + unfold V2.handleAnswer. rewrite H1, Hp. done.
    + unfold V2.handleAnswer. rewrite H1, Hp. done.
Qed.

(** First revision: the same holds for a click as long as no two
    questions of the exam have the same text. *)
Lemma V1_answer_recorded_under_original
      (exams : gmap string Exam) (examId : string)
      (perm : list nat) (e : Exam) (s : V1.State) :
  exams !! examId = Some e ->
  shuffleQuestions e = true ->
  NoDup (map question (questions e)) ->
  perm ≡ₚ seq 0 (length (questions e)) ->
  V1.fetchExam exams examId perm = V1.Loaded s ->
  forall (p i : nat) (k : Z),
    perm !! p = Some i ->
    V1.shuffledQuestions s !! p = questions e !! i
    /\ V1.originalIndex <$> V1.questionOrder s !! p = Some (Z.of_nat i)
    /\ V1.answers (V1.handleAnswer p k s) = <[Z.of_nat i := k]> (V1.answers s).
Proof.
  intros He Hsh Hnd Hperm Hload p i k Hp.
  pose proof (perm_in_range _ _ Hperm) as Hrange.
  assert (Hi : (i < length (questions e))%nat).
  { eapply (proj1 (Forall_lookup _ _) Hrange); eauto. }
  destruct (lookup_lt_is_Some_2 _ _ Hi) as [q Hq].
  pose proof (shuffleArray_lookup (questions e) perm Hrange p i Hp) as Hshown.
  unfold V1.fetchExam in Hload. rewrite He in Hload.
  unfold V1.order_of in Hload. rewrite Hsh in Hload.
  injection Hload as <-. simpl.
  assert (Hentry :
            imap (fun index q0 =>
                    V1.mkOrder (Z.of_nat index)
                      (JS.findIndex
                         (fun origQ => String.eqb (question origQ) (question q0))
                         (questions e)))
                 (shuffleArray perm (questions e)) !! p
            = Some (V1.mkOrder (Z.of_nat p) (Z.of_nat i))).
  { rewrite list_lookup_imap, Hshown, Hq. simpl. unfold JS.findIndex.
    by rewrite (findIndex_from_text (questions e) 0 i q Hnd Hq). }
  split; [done|]. split.
  - by rewrite Hentry.
  - unfold V1.handleAnswer. simpl. rewrite Hentry. done.
Qed.

(** C2 (fails on the code).  A shuffled exam whose two questions have the
    same text, shown in the order second, first.  The student picks the
    right option of each.  The first revision finds the original index by
    the text, so both clicks land under index 0: the stored answers are
    [{0 := 0}] and the score is 50.  The second revision keeps the
    indices and stores [[0; 1]] with a score of 100, the score of the
    same choices on the unshuffled exam. *)
Theorem C2_same_text_answers_collide :
  let clicks := [EvAnswer 0 1; EvAnswer 1 0; EvGoTo 1;
                 EvRequestSubmit; EvConfirm; EvWriteDone true] in
  (V1.attempt (one_exam exam_same_text) empty_store "student1" "exam1"
              [1; 0]%nat clicks
     ≫= fun w => (fun d => (V1.sub_answers d, V1.sub_score d))
                   <$> docs (V1.db w) !! inl "student1_exam1")
  = Some ({[0 := 0]}, JS.RInt 50)
  /\ (V2.attempt (one_exam exam_same_text) empty_store "student1" "exam1"
                 [1; 0]%nat clicks
        ≫= fun w => (fun d => (V2.sub_answers d, V2.sub_score d))
                      <$> docs (V2.db w) !! inr 0%nat)
     = Some ([Some 0; Some 1], JS.RInt 100)
  /\ V1.finalScore (questions exam_same_text) {[0 := 0; 1 := 1]} = JS.RInt 100.
Proof. repeat split; vm_compute; reflexivity. Qed.

(** ** Loading an attempt *)

(** The query of [fetchExam] finds something exactly when the student has
    a submission for the exam. *)
Lemma attempts_pos (d : Store V2.Submission) (examId uid : string) :
  (0 < V2.attempts d examId uid)%nat <->
  exists k sub, docs d !! k = Some sub
                /\ V2.sub_examId sub = examId /\ V2.sub_studentId sub = uid.
Proof.
  unfold V2.attempts. rewrite <- Nat.neq_0_lt_0, map_size_ne_0_lookup. split.
  - intros [k [sub Hk]]. apply map_lookup_filter_Some in Hk as [Hk [? ?]]. eauto.
  - intros (k & sub & Hk & ? & ?). exists k, sub.
    apply map_lookup_filter_Some. done.
Qed.

(** Second revision: the three failures and the success of the load. *)
Lemma V2_fetchExam_cases
      (exams : gmap string Exam) (d : Store V2.Submission)
      (examId uid : string) (perm : list nat) :
  let prior := exists k sub, docs d !! k = Some sub
                             /\ V2.sub_examId sub = examId
                             /\ V2.sub_studentId sub = uid in
  (exams !! examId = None ->
   V2.fetchExam exams d examId uid perm = V2.Failed V2.NotFound)
  /\ (forall e, exams !! examId = Some e -> isPublished e = false ->
                V2.fetchExam exams d examId uid perm = V2.Failed V2.NotPublished)
  /\ (forall e, exams !! examId = Some e -> isPublished e = true ->
                allowReattempts e = false -> prior ->
                V2.fetchExam exams d examId uid perm = V2.Failed V2.AlreadyAttempted)
  /\ (forall e, exams !! examId = Some e -> isPublished e = true ->
                allowReattempts e = true \/ ~ prior ->
                exists s, V2.fetchExam exams d examId uid perm = V2.Loaded s
                          /\ V2.exam s = Some e
                          /\ V2.timeLeft s = timeLimit e * 60).
Proof.
  intros prior. unfold V2.fetchExam. split_and!.
  - by intros ->.
  - intros e -> Hp. by rewrite Hp.
  - intros e -> Hp Hr Hprior. rewrite Hp, Hr. simpl.
    apply attempts_pos in Hprior. apply Nat.ltb_lt in Hprior. by rewrite Hprior.
  - intros e -> Hp Hcase. rewrite Hp. simpl.
    assert (Hgo : (0 <? V2.attempts d examId uid)%nat && negb (allowReattempts e) = false).
    { destruct Hcase as [-> | Hno]; [by rewrite andb_false_r|].
      destruct (Nat.ltb_spec 0 (V2.attempts d examId uid)) as [Hlt|_]; [|done].
      exfalso. apply Hno. by apply attempts_pos. }
    rewrite Hgo. destruct (V2.order_of e perm) as [order shuffled]. eauto.
Qed.

(** C5 (fails on the code).  The second revision fails with NotFound,
    NotPublished and AlreadyAttempted as stated.  The first revision
    tests [examDoc.exists()] and nothing else: it starts the countdown on
    an exam that is not published, and on an exam without reattempts for
    a student whose submission is already in the collection. *)
Theorem C5_first_revision_loads_unchecked :
  V1.fetchExam ∅ "exam1" [] = V1.Redirected
  /\ ((fun w => V1.timeLeft (V1.st w))
        <$> V1.attempt (one_exam exam_draft) empty_store "student1" "exam1" [] [])
     = Some (Some 60)
  /\ is_Some (docs V1_after_first !! inl "student1_exam1")
  /\ ((fun w => V1.timeLeft (V1.st w))
        <$> V1.attempt (one_exam exam_once) V1_after_first "student1" "exam1" [] [])
     = Some (Some 60)
  /\ V2.fetchExam ∅ empty_store "exam1" "student1" [] = V2.Failed V2.NotFound
  /\ V2.fetchExam (one_exam exam_draft) empty_store "exam1" "student1" []
     = V2.Failed V2.NotPublished
  /\ V2.fetchExam (one_exam exam_once) V2_after_first "exam1" "student1" []
     = V2.Failed V2.AlreadyAttempted.
Proof. split_and!; try (vm_compute; reflexivity). vm_compute. eauto. Qed.

(** ** The documents of earlier attempts *)

Lemma addDoc_keeps {D : Type} (d : D) (s : Store D) (k : string + nat) (x : D) :
  store_wf s -> docs s !! k = Some x -> docs (addDoc d s) !! k = Some x.
Proof.
  intros Hwf Hk. unfold addDoc. simpl. rewrite lookup_insert_ne; [done|].
  intros <-. apply Hwf in Hk. lia.
Qed.

Lemma addDoc_wf {D : Type} (d : D) (s : Store D) :
  store_wf s -> store_wf (addDoc d s).
Proof.
  intros Hwf n x. unfold addDoc. simpl.
  destruct (decide (n = next_auto s)) as [->|Hne].
  - lia.
  - rewrite lookup_insert_ne by congruence. intros H%Hwf. lia.
Qed.

Lemma V2_commit_db (old : V2.State) (w : V2.World) :
  V2.db (V2.commit old w) = V2.db w.
Proof. unfold V2.commit. by destruct (bool_decide _). Qed.

Lemma V2_handleSubmit_db (uid examId : string) (t : Trigger) (c : V2.State)
      (w : V2.World) :
  V2.db (V2.handleSubmit uid examId t c w) = V2.db w.
Proof. unfold V2.handleSubmit. by destruct (V2.submissionData uid examId c). Qed.

(** An event leaves the collection alone or adds one document under a
    fresh id. *)
Lemma V2_step_db (uid examId : string) (w : V2.World) (ev : Event) :
  V2.db (V2.step uid examId w ev) = V2.db w
  \/ exists d, V2.db (V2.step uid examId w ev) = addDoc d (V2.db w).
Proof.
  destruct ev as [| qi ai | index | | | ok]; simpl.
  - destruct (negb (V2.mounted w)); [by left|].
    destruct (V2.timer w) as [c|]; [|by left].
    left. rewrite V2_commit_db. unfold V2.tick.
    destruct (V2.timeLeft (V2.st w) <=? 1); simpl; [|done].
    unfold V2.handleTimeUp. by rewrite V2_handleSubmit_db.
  - destruct (negb (V2.mounted w)); [by left|]. left. by rewrite V2_commit_db.
  - destruct (negb (V2.mounted w)); [by left|].
    destruct (_ <? _)%nat; [|by left]. left. by rewrite V2_commit_db.
  - destruct (negb (V2.mounted w)); [by left|].
    destruct (_ && _); [|by left]. left. by rewrite V2_commit_db.
  - destruct (negb (V2.mounted w)); [by left|].
    destruct (_ && _); [|by left]. left.
    by rewrite V2_commit_db, V2_handleSubmit_db.
  - rewrite V2_commit_db. unfold V2.settle.
    destruct (V2.pending w) as [|d rest]; [by left|].
    destruct ok; simpl; eauto.
Qed.

(** Second revision: whatever happens during an attempt, a document that
    was in the collection when it began is still there, unchanged, at
    its end; a later attempt adds documents and touches none. *)
Lemma V2_run_keeps_documents (uid examId : string) (evs : list Event) :
  forall (w : V2.World) (k : string + nat) (x : V2.Submission),
    store_wf (V2.db w) ->
    docs (V2.db w) !! k = Some x ->
    store_wf (V2.db (V2.run uid examId w evs))
    /\ docs (V2.db (V2.run uid examId w evs)) !! k = Some x.
Proof.
  unfold V2.run. induction evs as [|ev evs IH]; intros w k x Hwf Hk; simpl; [done|].
  destruct (V2_step_db uid examId w ev) as [Heq | [d Heq]].
  - apply IH; by rewrite Heq.
  - apply IH; rewrite Heq; [by apply addDoc_wf | by apply addDoc_keeps].
Qed.

(** C6 (fails on the code).  Two attempts of one student at an exam that
    allows reattempts: all right (100) and then all wrong (0).  The
    first revision writes with [setDoc] under the id [uid_examId]: after
    the second attempt the collection holds one document and it carries
    the score 0, the first submission is gone.  The second revision
    writes with [addDoc]: both documents are there. *)
Theorem C6_second_attempt_replaces_first :
  let first := [EvAnswer 0 0; EvAnswer 1 1; EvGoTo 1;
                EvRequestSubmit; EvConfirm; EvWriteDone true] in
  let second := [EvAnswer 0 1; EvAnswer 1 0; EvGoTo 1;
                 EvRequestSubmit; EvConfirm; EvWriteDone true] in
  let db1 := default empty_store
               (V1.db <$> V1.attempt (one_exam exam_23_17) empty_store
                            "student1" "exam1" [] first) in
  let db2 := default empty_store
               (V1.db <$> V1.attempt (one_exam exam_23_17) db1
                            "student1" "exam1" [] second) in
  let db1' := default empty_store
                (V2.db <$> V2.attempt (one_exam exam_23_17) empty_store
                             "student1" "exam1" [] first) in
  let db2' := default empty_store
                (V2.db <$> V2.attempt (one_exam exam_23_17) db1'
                             "student1" "exam1" [] second) in
  V1.sub_score <$> docs db1 !! inl "student1_exam1" = Some (JS.RInt 100)
  /\ V1.sub_score <$> docs db2 !! inl "student1_exam1" = Some (JS.RInt 0)
  /\ size (docs db2) = 1%nat
  /\ V2.sub_score <$> docs db2' !! inr 0%nat = Some (JS.RInt 100)
  /\ V2.sub_score <$> docs db2' !! inr 1%nat = Some (JS.RInt 0)
  /\ size (docs db2') = 2%nat.
Proof. repeat split; vm_compute; reflexivity. Qed.

(** ** One write per attempt *)

(** C4 (fails on the code).  The student confirms the submission in the
    last second and the timer expires before the write has settled.  In
    the second revision [handleSubmit] has no guard: two writes are
    issued and two documents are created.  In the first revision the
    guard reads the [submitting] of the render the interval closed
    over, which is still [false]: two writes are issued as well.  The
    guard does hold back a second click on "Confirm Submit", and an
    expiry that comes after a later render; left alone, the timer issues
    one write in both revisions. *)
Theorem C4_confirm_and_expiry_write_twice :
  let settled := confirm_in_last_second ++ [EvWriteDone true; EvWriteDone true] in
  let twice := [EvRequestSubmit; EvConfirm; EvConfirm] in
  let early := replicate 30 EvTick ++ [EvRequestSubmit; EvConfirm]
               ++ replicate 30 EvTick in
  let v1 evs := (fun w => map fst (V1.issued w))
                  <$> V1.attempt (one_exam exam_once) empty_store
                        "student1" "exam1" [] evs in
  let v2 evs := (fun w => (map fst (V2.issued w), size (docs (V2.db w))))
                  <$> V2.attempt (one_exam exam_once) empty_store
                        "student1" "exam1" [] evs in
  v2 settled = Some ([ByTimer; ByConfirm], 2%nat)
  /\ v2 twice = Some ([ByConfirm; ByConfirm], 0%nat)
  /\ v1 confirm_in_last_second = Some [ByTimer; ByConfirm]
  /\ v1 twice = Some [ByConfirm]
  /\ v1 early = Some [ByConfirm]
  /\ v1 let_time_run_out = Some [ByTimer]
  /\ v2 let_time_run_out = Some ([ByTimer], 0%nat).
Proof. repeat split; vm_compute; reflexivity. Qed.

(** ** The auto-submitted flag *)

Lemma V1_timer_effect_live (s c : V1.State) :
  V1.timer_effect s = Some c -> exists t, V1.timeLeft c = Some t /\ 0 < t.
Proof.
  unfold V1.timer_effect. destruct (V1.timeLeft s) as [t|] eqn:Ht; [|done].
  destruct (Z.leb_spec t 0); [done|]. intros [= <-]. eauto.
Qed.

Lemma V1_commit_live (old : V1.State) (w : V1.World) :
  V1.timer_live w -> V1.timer_live (V1.commit old w).
Proof.
  intros Hw. unfold V1.commit. destruct (bool_decide _); [done|].
  intros c Hc. simpl in Hc. by eapply V1_timer_effect_live.
Qed.

Lemma V1_commit_issued (old : V1.State) (w : V1.World) :
  V1.issued (V1.commit old w) = V1.issued w.
Proof. unfold V1.commit. by destruct (bool_decide _). Qed.

Lemma V1_handleSubmit_timer (uid examId : string) (t : Trigger) (c : V1.State)
      (w : V1.World) :
  V1.timer (V1.handleSubmit uid examId t c w) = V1.timer w.
Proof.
  unfold V1.handleSubmit. destruct (V1.submitting c); [done|].
  by destruct (V1.submissionData uid examId c).
Qed.

Lemma V1_handleSubmit_issued (uid examId : string) (t : Trigger) (c : V1.State)
      (w : V1.World) :
  V1.issued (V1.handleSubmit uid examId t c w) = V1.issued w
  \/ exists d, V1.submissionData uid examId c = Some d
               /\ V1.issued (V1.handleSubmit uid examId t c w) = (t, d) :: V1.issued w.
Proof.
  unfold V1.handleSubmit. destruct (V1.submitting c); [by left|].
  destruct (V1.submissionData uid examId c) as [d|]; [right; eauto | by left].
Qed.

(** The flag of a document is [timeLeft === 0] of the snapshot it was
    built from. *)
Lemma V1_submissionData_flag (uid examId : string) (c : V1.State) (d : V1.Submission) :
  V1.submissionData uid examId c = Some d ->
  V1.sub_isAutoSubmitted d = bool_decide (V1.timeLeft c = Some 0).
Proof.
  unfold V1.submissionData. destruct (V1.exam c); [|done]. intros [= <-]. simpl.
  destruct (V1.timeLeft c) as [[| |]|]; done.
Qed.

Lemma V1_step_live (uid examId : string) (w : V1.World) (ev : Event) :
  V1.timer_live w -> V1.timer_live (V1.step uid examId w ev).
Proof.
  intros Hw.
  assert (Hnone : forall s d i p m, V1.timer_live (V1.mkWorld s None d i p m))
    by (intros; intros c Hc; done).
  destruct ev as [| qi ai | index | | | ok]; simpl.
  - destruct (negb (V1.mounted w)); [done|].
    destruct (V1.timer w) as [c|] eqn:Hc; [|done].
    apply V1_commit_live. unfold V1.tick.
    destruct (match V1.timeLeft (V1.st w) with Some p => p <=? 1 | None => true end).
    + intros c' Hc'. simpl in Hc'. unfold V1.handleTimeUp in Hc'.
      rewrite V1_handleSubmit_timer in Hc'. done.
    + intros c' Hc'. simpl in Hc'. apply Hw. congruence.
  - destruct (negb (V1.mounted w)); [done|]. by apply V1_commit_live.
  - destruct (negb (V1.mounted w)); [done|].
    destruct (_ <? _)%nat; [|done]. by apply V1_commit_live.
  - destruct (negb (V1.mounted w)); [done|].
    destruct (_ && _); [|done]. by apply V1_commit_live.
  - destruct (negb (V1.mounted w)); [done|].
    destruct (_ && _); [|done]. apply V1_commit_live.
    intros c Hc. rewrite V1_handleSubmit_timer in Hc. by apply Hw.
  - apply V1_commit_live. unfold V1.settle.
    destruct (V1.pending w) as [|p rest]; [done|].
    destruct ok; [destruct (V1.p_modal p)|]; try done.
Qed.

(** A write of the timer is built from the snapshot the interval held. *)
Lemma V1_step_timer_write (uid examId : string) (w : V1.World) (ev : Event)
      (d : V1.Submission) :
  (ByTimer, d) ∈ V1.issued (V1.step uid examId w ev) ->
  (ByTimer, d) ∈ V1.issued w
  \/ exists c, V1.timer w = Some c /\ V1.submissionData uid examId c = Some d.
Proof.
  destruct ev as [| qi ai | index | | | ok]; simpl.
  - destruct (negb (V1.mounted w)); [by left|].
    destruct (V1.timer w) as [c|] eqn:Hc; [|by left].
    rewrite V1_commit_issued. unfold V1.tick.
    destruct (match V1.timeLeft (V1.st w) with Some p => p <=? 1 | None => true end);
      simpl; [|by left].
    unfold V1.handleTimeUp.
    match goal with
    | |- context [V1.handleSubmit uid examId ByTimer c ?w'] =>
        destruct (V1_handleSubmit_issued uid examId ByTimer c w') as [-> | (d' & Hd & ->)]
    end; simpl; [by left|].
    intros [[= <-] | Hin]%elem_of_cons; [right; eauto | by left].
  - destruct (negb (V1.mounted w)); [by left|]. rewrite V1_commit_issued. by left.
  - destruct (negb (V1.mounted w)); [by left|].
    destruct (_ <? _)%nat; [|by left]. rewrite V1_commit_issued. by left.
  - destruct (negb (V1.mounted w)); [by left|].
    destruct (_ && _); [|by left]. rewrite V1_commit_issued. by left.
  - destruct (negb (V1.mounted w)); [by left|].
    destruct (_ && _); [|by left]. rewrite V1_commit_issued.
    destruct (V1_handleSubmit_issued uid examId ByConfirm (V1.st w) w)
      as [-> | (d' & Hd & ->)]; [by left|].
    intros [[= ] | Hin]%elem_of_cons. by left.
  - rewrite V1_commit_issued. unfold V1.settle.
    destruct (V1.pending w) as [|p rest]; [by left|].
    destruct ok; [destruct (V1.p_modal p)|]; simpl; by left.
Qed.

(** First revision: in every attempt, whatever the student does and
    however the writes settle, no submission issued by the expiry of the
    timer carries the auto-submitted flag. *)
Lemma V1_timer_writes_are_not_flagged (uid examId : string) (evs : list Event) :
  forall (w : V1.World),
    V1.timer_live w ->
    (forall d, (ByTimer, d) ∈ V1.issued w -> V1.sub_isAutoSubmitted d = false) ->
    forall d, (ByTimer, d) ∈ V1.issued (V1.run uid examId w evs) ->
              V1.sub_isAutoSubmitted d = false.
Proof.
  unfold V1.run. induction evs as [|ev evs IH]; intros w Hlive Hold d; simpl; [auto|].
  apply IH; [by apply V1_step_live|].
  intros d' [Hin | (c & Hc & Hd)]%V1_step_timer_write; [auto|].
  rewrite (V1_submissionData_flag _ _ _ _ Hd).
  destruct (Hlive c Hc) as (t & -> & Ht).
  apply bool_decide_eq_false_2. intros [= ->]. lia.
Qed.

Lemma V1_attempt_timer_writes_are_not_flagged
      (exams : gmap string Exam) (d0 : Store V1.Submission) (uid examId : string)
      (perm : list nat) (evs : list Event) (w : V1.World) (d : V1.Submission) :
  V1.attempt exams d0 uid examId perm evs = Some w ->
  (ByTimer, d) ∈ V1.issued w ->
  V1.sub_isAutoSubmitted d = false.
Proof.
  unfold V1.attempt. destruct (V1.fetchExam exams examId perm) as [|s]; [done|].
  intros [= <-]. apply V1_timer_writes_are_not_flagged.
  - intros c Hc. unfold V1.mount in Hc.
    destruct (V1.renders s); simpl in Hc; [|done]. by eapply V1_timer_effect_live.
  - unfold V1.mount.
    destruct (V1.renders s); simpl; intros d' Hd'; by apply elem_of_nil in Hd'.
Qed.

(** C7 (fails on the code).  The student lets the minute run out.  The
    interval that fires last was set by the render with [timeLeft = 1],
    and the [handleSubmit] it reaches evaluates [timeLeft === 0] on that
    render: the one submission written at expiry has the flag [false]
    (and 59 seconds as time spent).  A confirmed submit before expiry has
    the flag [false], as stated. *)
Theorem C7_expiry_is_not_flagged :
  let flags evs := (fun w => map (fun x => (x.1, V1.sub_isAutoSubmitted x.2,
                                           V1.sub_timeSpent x.2))
                                 (V1.issued w))
                     <$> V1.attempt (one_exam exam_once) empty_store
                           "student1" "exam1" [] evs in
  flags let_time_run_out = Some [(ByTimer, false, 59)]
  /\ flags (replicate 20 EvTick ++ [EvAnswer 0 0; EvRequestSubmit; EvConfirm])
     = Some [(ByConfirm, false, 20)]
  /\ (V1.attempt (one_exam exam_once) empty_store "student1" "exam1" []
                 (let_time_run_out ++ [EvWriteDone true])
        ≫= fun w => V1.sub_isAutoSubmitted <$> docs (V1.db w) !! inl "student1_exam1")
     = Some false.
Proof. repeat split; vm_compute; reflexivity. Qed.

(** ** Left alone, the timer writes once *)

Lemma V1_tick_quiet (uid examId : string) (w : V1.World) (t : Z) :
  V1.mounted w = true ->
  V1.timer w = Some (V1.st w) ->
  V1.timeLeft (V1.st w) = Some t ->
  1 < t ->
  V1.step uid examId w EvTick
  = V1.mkWorld (V1.setTimeLeft (Some (t - 1)) (V1.st w))
               (Some (V1.setTimeLeft (Some (t - 1)) (V1.st w)))
               (V1.db w) (V1.issued w) (V1.pending w) true.
Proof.
  intros Hm Ht Hl Hgt. unfold V1.step. rewrite Hm, Ht. simpl.
  unfold V1.tick. rewrite Hl.
  destruct (Z.leb_spec t 1) as [?|_]; [lia|].
  unfold V1.commit, V1.with_st. simpl. rewrite Hl, Hm.
  rewrite bool_decide_eq_false_2 by (intros [= ?]; lia).
  unfold V1.timer_effect. simpl.
  destruct (Z.leb_spec (t - 1) 0) as [?|_]; [lia|]. reflexivity.
Qed.

Lemma V1_run_cons (uid examId : string) (w : V1.World) (ev : Event) (evs : list Event) :
  V1.run uid examId w (ev :: evs) = V1.run uid examId (V1.step uid examId w ev) evs.
Proof. reflexivity. Qed.

Lemma V1_run_app (uid examId : string) (w : V1.World) (evs1 evs2 : list Event) :
  V1.run uid examId w (evs1 ++ evs2)
  = V1.run uid examId (V1.run uid examId w evs1) evs2.
Proof. unfold V1.run. apply fold_left_app. Qed.

(** [k] ticks take the countdown from [k + 1] to 1 and do nothing else. *)
Lemma V1_ticks_count_down (uid examId : string) :
  forall (k : nat) (w : V1.World),
    V1.mounted w = true ->
    V1.timer w = Some (V1.st w) ->
    V1.timeLeft (V1.st w) = Some (Z.of_nat k + 1) ->
    V1.run uid examId w (replicate k EvTick)
    = V1.mkWorld (V1.setTimeLeft (Some 1) (V1.st w))
                 (Some (V1.setTimeLeft (Some 1) (V1.st w)))
                 (V1.db w) (V1.issued w) (V1.pending w) true.
Proof.
  induction k as [|k IH]; intros w Hm Ht Hl.
  - destruct w as [s tm d i p m]. destruct s. simpl in *. by subst.
  - change (replicate (S k) EvTick) with (EvTick :: replicate k EvTick).
    rewrite V1_run_cons.
    rewrite (V1_tick_quiet uid examId w (Z.of_nat (S k) + 1)) by (done || lia).
    rewrite IH; simpl; try done.
    f_equal. f_equal. lia.
Qed.

(** The tick at 1 issues the write of the timer, unflagged, and ends the
    interval. *)
Lemma V1_tick_expires (uid examId : string) (w : V1.World) (e : Exam) :
  V1.mounted w = true ->
  V1.timer w = Some (V1.st w) ->
  V1.timeLeft (V1.st w) = Some 1 ->
  V1.exam (V1.st w) = Some e ->
  V1.submitting (V1.st w) = false ->
  exists d,
    V1.sub_isAutoSubmitted d = false
    /\ V1.issued (V1.step uid examId w EvTick) = (ByTimer, d) :: V1.issued w
    /\ V1.timer (V1.step uid examId w EvTick) = None.
Proof.
  intros Hm Ht Hl He Hs. unfold V1.step. rewrite Hm, Ht. simpl.
  unfold V1.tick. rewrite Hl. simpl.
  unfold V1.handleTimeUp, V1.handleSubmit. rewrite Hs.
  unfold V1.submissionData. rewrite He, Hl. simpl.
  unfold V1.commit. simpl. rewrite Hl. simpl.
  eexists. split; [|split; reflexivity]. reflexivity.
Qed.

Lemma V1_ticks_without_timer (uid examId : string) (m : nat) (w : V1.World) :
  V1.timer w = None -> V1.run uid examId w (replicate m EvTick) = w.
Proof.
  intros Ht. induction m as [|m IH]; [done|].
  change (replicate (S m) EvTick) with (EvTick :: replicate m EvTick).
  rewrite V1_run_cons.
  assert (Hstep : V1.step uid examId w EvTick = w).
  { simpl. rewrite Ht. by destruct (negb (V1.mounted w)). }
  by rewrite Hstep.
Qed.

(** First revision: an attempt in which nothing happens but the passing
    of time, for as long as one likes past the limit, issues exactly one
    write, provided the page renders and the clock starts above zero. *)
Lemma V1_expiry_alone_writes_once
      (uid examId : string) (s : V1.State) (e : Exam) (d0 : Store V1.Submission)
      (k m : nat) :
  V1.exam s = Some e ->
  V1.submitting s = false ->
  V1.timeLeft s = Some (Z.of_nat k + 1) ->
  V1.renders s = true ->
  exists d,
    V1.issued (V1.run uid examId (V1.mount s d0) (replicate (S k + m) EvTick))
    = [(ByTimer, d)].
Proof.
  intros He Hs Hl Hr. unfold V1.mount. rewrite Hr.
  replace (S k + m)%nat with (k + (1 + m))%nat by lia.
  rewrite replicate_add, V1_run_app.
  change (replicate (1 + m) EvTick) with (EvTick :: replicate m EvTick).
  rewrite V1_run_cons.
  assert (Hlive : V1.timer_effect s = Some s).
  { unfold V1.timer_effect. rewrite Hl.
    by destruct (Z.leb_spec (Z.of_nat k + 1) 0) as [?|_]; [lia|]. }
  rewrite (V1_ticks_count_down uid examId k
             (V1.mkWorld s (V1.timer_effect s) d0 [] [] true) eq_refl Hlive Hl).
  simpl. set (w1 := V1.mkWorld _ _ _ _ _ _).
  destruct (V1_tick_expires uid examId w1 e eq_refl eq_refl eq_refl He Hs)
    as (d & _ & Hi & Hn).
  exists d. by rewrite V1_ticks_without_timer.
Qed.

Lemma V2_run_cons (uid examId : string) (w : V2.World) (ev : Event) (evs : list Event) :
  V2.run uid examId w (ev :: evs) = V2.run uid examId (V2.step uid examId w ev) evs.
Proof. reflexivity. Qed.

Lemma V2_run_app (uid examId : string) (w : V2.World) (evs1 evs2 : list Event) :
  V2.run uid examId w (evs1 ++ evs2)
  = V2.run uid examId (V2.run uid examId w evs1) evs2.
Proof. unfold V2.run. apply fold_left_app. Qed.

Lemma V2_timer_effect_live (s : V2.State) :
  V2.timeLeft s <> 0 -> is_Some (V2.exam s) -> V2.timer_effect s = Some s.
Proof.
  intros Ht He. unfold V2.timer_effect.
  destruct (Z.eqb_spec (V2.timeLeft s) 0) as [?|_]; [done|].
  by rewrite bool_decide_eq_true_2.
Qed.

Lemma V2_tick_quiet (uid examId : string) (w : V2.World) (t : Z) :
  V2.mounted w = true ->
  V2.timer w = Some (V2.st w) ->
  V2.timeLeft (V2.st w) = t ->
  is_Some (V2.exam (V2.st w)) ->
  1 < t ->
  V2.step uid examId w EvTick
  = V2.mkWorld (V2.setTimeLeft (t - 1) (V2.st w))
               (Some (V2.setTimeLeft (t - 1) (V2.st w)))
               (V2.db w) (V2.issued w) (V2.pending w) true.
Proof.
  intros Hm Ht Hl He Hgt. unfold V2.step. rewrite Hm, Ht. simpl.
  unfold V2.tick. rewrite Hl.
  destruct (Z.leb_spec t 1) as [?|_]; [lia|].
  unfold V2.commit, V2.with_st. simpl. rewrite Hl, Hm.
  rewrite bool_decide_eq_false_2 by lia.
  rewrite V2_timer_effect_live; simpl; [done | lia | done].
Qed.

Lemma V2_ticks_count_down (uid examId : string) :
  forall (k : nat) (w : V2.World),
    V2.mounted w = true ->
    V2.timer w = Some (V2.st w) ->
    V2.timeLeft (V2.st w) = Z.of_nat k + 1 ->
    is_Some (V2.exam (V2.st w)) ->
    V2.run uid examId w (replicate k EvTick)
    = V2.mkWorld (V2.setTimeLeft 1 (V2.st w))
                 (Some (V2.setTimeLeft 1 (V2.st w)))
                 (V2.db w) (V2.issued w) (V2.pending w) true.
Proof.
  induction k as [|k IH]; intros w Hm Ht Hl He.
  - destruct w as [s tm d i p m]. destruct s. simpl in *. by subst.
  - change (replicate (S k) EvTick) with (EvTick :: replicate k EvTick).
    rewrite V2_run_cons.
    rewrite (V2_tick_quiet uid examId w (Z.of_nat (S k) + 1)) by (done || lia).
    rewrite IH; simpl; try done.
    lia.
Qed.

Lemma V2_tick_expires (uid examId : string) (w : V2.World) (d : V2.Submission) :
  V2.mounted w = true ->
  V2.timer w = Some (V2.st w) ->
  V2.timeLeft (V2.st w) = 1 ->
  V2.submissionData uid examId (V2.st w) = Some d ->
  V2.issued (V2.step uid examId w EvTick) = (ByTimer, d) :: V2.issued w
  /\ V2.timer (V2.step uid examId w EvTick) = None.
Proof.
  intros Hm Ht Hl Hd. unfold V2.step. rewrite Hm, Ht. simpl.
  unfold V2.tick. rewrite Hl. simpl.
  unfold V2.handleTimeUp, V2.handleSubmit. rewrite Hd.
  unfold V2.commit. simpl. rewrite Hl. simpl. done.
Qed.

Lemma V2_ticks_without_timer (uid examId : string) (m : nat) (w : V2.World) :
  V2.timer w = None -> V2.run uid examId w (replicate m EvTick) = w.
Proof.
  intros Ht. induction m as [|m IH]; [done|].
  change (replicate (S m) EvTick) with (EvTick :: replicate m EvTick).
  rewrite V2_run_cons.
  assert (Hstep : V2.step uid examId w EvTick = w).
  { simpl. rewrite Ht. by destruct (negb (V2.mounted w)). }
  by rewrite Hstep.
Qed.

(** Second revision: the same.  (The answers are those of the load or of
    clicks in range, for which the score is defined.) *)
Lemma V2_expiry_alone_writes_once
      (uid examId : string) (s : V2.State) (e : Exam) (d0 : Store V2.Submission)
      (k m : nat) :
  V2.exam s = Some e ->
  is_Some (V2.finalScore (questions e) (V2.answers s)) ->
  V2.timeLeft s = Z.of_nat k + 1 ->
  exists d,
    V2.issued (V2.run uid examId (V2.mount s d0) (replicate (S k + m) EvTick))
    = [(ByTimer, d)].
Proof.
  intros He [sc Hsc] Hl.
  replace (S k + m)%nat with (k + (1 + m))%nat by lia.
  rewrite replicate_add, V2_run_app.
  change (replicate (1 + m) EvTick) with (EvTick :: replicate m EvTick).
  rewrite V2_run_cons.
  assert (Hsome : is_Some (V2.exam s)) by (rewrite He; eauto).
  assert (Hlive : V2.timer_effect s = Some s)
    by (apply V2_timer_effect_live; [lia | done]).
  rewrite (V2_ticks_count_down uid examId k (V2.mount s d0) eq_refl Hlive Hl Hsome).
  simpl. set (w1 := V2.mkWorld _ _ _ _ _ _).
  assert (Hd : exists d, V2.submissionData uid examId (V2.st w1) = Some d).
  { unfold V2.submissionData. simpl. rewrite He, Hsc. eauto. }
  destruct Hd as [d Hd].
  destruct (V2_tick_expires uid examId w1 d eq_refl eq_refl eq_refl Hd) as [Hi Hn].
  exists d. by rewrite V2_ticks_without_timer.
Qed.

(* ===================================================================== *)
(** * Further properties                                                  *)
(* ===================================================================== *)

(** ** First revision: what every written submission satisfies *)

Lemma findIndex_from_range {A : Type} (p : A -> bool) (l : list A) :
  forall k x, x ∈ l -> p x = true ->
              k <= JS.findIndex_from p l k < k + Z.of_nat (length l).
Proof.
  induction l as [|y l IH]; intros k x Hx Hp.
  - by apply elem_of_nil in Hx.
  - simpl. destruct (p y) eqn:Hy; [lia|].
    apply elem_of_cons in Hx as [-> | Hx]; [congruence|].
    specialize (IH (k + 1) x Hx Hp). lia.
Qed.

Lemma shuffleArray_elem_of {A : Type} (perm : list nat) (l : list A) (x : A) :
  x ∈ shuffleArray perm l -> x ∈ l.
Proof.
  unfold shuffleArray. intros (i & _ & Hi)%list_elem_of_omap.
  by eapply list_elem_of_lookup_2.
Qed.

Lemma V1_order_of_range (e : Exam) (perm : list nat) (o : V1.OrderEntry) :
  o ∈ (V1.order_of e perm).2 ->
  0 <= V1.originalIndex o < Z.of_nat (length (questions e)).
Proof.
  unfold V1.order_of. destruct (shuffleQuestions e); simpl.
  - intros (i & Hi)%list_elem_of_lookup_1.
    rewrite list_lookup_imap in Hi.
    destruct (shuffleArray perm (questions e) !! i) as [q|] eqn:Hq; [|done].
    injection Hi as <-. simpl. unfold JS.findIndex.
    pose proof (findIndex_from_range
                  (fun origQ => String.eqb (question origQ) (question q))
                  (questions e) 0 q) as H.
    apply H.
    + eapply shuffleArray_elem_of. by eapply list_elem_of_lookup_2.
    + apply String.eqb_refl.
  - intros (i & Hi)%list_elem_of_lookup_1.
    rewrite list_lookup_imap in Hi.
    destruct (questions e !! i) as [q|] eqn:Hq; [|done].
    injection Hi as <-. simpl. apply lookup_lt_Some in Hq. lia.
Qed.

Lemma V1_fetchExam_ok (exams : gmap string Exam) (examId : string) (perm : list nat)
      (e : Exam) (s : V1.State) :
  exams !! examId = Some e ->
  0 <= timeLimit e ->
  V1.fetchExam exams examId perm = V1.Loaded s ->
  V1_ok e s.
Proof.
  intros He Hl. unfold V1.fetchExam. rewrite He.
  pose proof (V1_order_of_range e perm) as Hrange.
  destruct (V1.order_of e perm) as [shuffled order]. intros [= <-].
  split_and!; simpl; try done.
  exists (timeLimit e * 60). split; [done|lia].
Qed.

(** A map whose keys are indices below [n] has at most [n] entries. *)
Lemma size_keys_below (m : gmap Z Z) (n : nat) :
  (forall k v, m !! k = Some v -> 0 <= k < Z.of_nat n) ->
  (size m <= n)%nat.
Proof.
  intros Hm.
  assert (Hsub : dom m ⊆ (list_to_set (seqZ 0 (Z.of_nat n)) : gset Z)).
  { intros k [v Hk]%elem_of_dom. apply elem_of_list_to_set, elem_of_seqZ.
    apply Hm in Hk. lia. }
  apply subseteq_size in Hsub. rewrite size_dom in Hsub.
  rewrite size_list_to_set in Hsub by apply NoDup_seqZ.
  rewrite length_seqZ in Hsub. lia.
Qed.

Lemma V1_submissionData_ok (uid examId : string) (e : Exam) (c : V1.State)
      (d : V1.Submission) :
  V1_ok e c ->
  V1.submissionData uid examId c = Some d ->
  V1_written_ok e d.
Proof.
  intros (He & Ha & _ & t & Ht & Hb). unfold V1.submissionData.
  rewrite He, Ht. intros [= <-]. unfold V1_written_ok. simpl.
  split_and!; try done; try lia.
  by apply size_keys_below.
Qed.

Lemma V1_ok_core (e : Exam) (s s' : V1.State) :
  V1.exam s' = V1.exam s ->
  V1.answers s' = V1.answers s ->
  V1.questionOrder s' = V1.questionOrder s ->
  V1.timeLeft s' = V1.timeLeft s ->
  V1_ok e s -> V1_ok e s'.
Proof. unfold V1_ok. by intros -> -> -> ->. Qed.

Lemma V1_ok_setTimeLeft (e : Exam) (s : V1.State) (t : Z) :
  0 <= t <= timeLimit e * 60 ->
  V1_ok e s -> V1_ok e (V1.setTimeLeft (Some t) s).
Proof.
  intros Ht (He & Ha & Ho & _). unfold V1_ok. simpl. split_and!; eauto.
Qed.

Lemma V1_ok_handleAnswer (e : Exam) (s : V1.State) (qi : nat) (ai : Z) :
  V1_ok e s -> V1_ok e (V1.handleAnswer qi ai s).
Proof.
  intros Hok. unfold V1.handleAnswer.
  destruct (V1.questionOrder s !! qi) as [o|] eqn:Ho; [|done].
  destruct Hok as (He & Ha & Hord & Ht). unfold V1_ok. simpl.
  split_and!; try done.
  intros k v. destruct (decide (k = V1.originalIndex o)) as [->|Hne].
  - intros _. apply Hord. by eapply list_elem_of_lookup_2.
  - rewrite lookup_insert_ne by done. apply Ha.
Qed.

Lemma V1_world_ok_with_st (e : Exam) (f : V1.State -> V1.State) (w : V1.World) :
  (forall s, V1_ok e s -> V1_ok e (f s)) ->
  V1_world_ok e w -> V1_world_ok e (V1.with_st f w).
Proof. intros Hf (Hs & Ht & Hi). unfold V1_world_ok. simpl. auto. Qed.

Lemma V1_world_ok_commit (e : Exam) (old : V1.State) (w : V1.World) :
  V1_world_ok e w -> V1_world_ok e (V1.commit old w).
Proof.
  intros (Hs & Ht & Hi). unfold V1.commit. destruct (bool_decide _); [done|].
  unfold V1_world_ok. simpl. split_and!; try done.
  intros c. unfold V1.timer_effect.
  destruct (V1.timeLeft (V1.st w)) as [t|]; [|done].
  destruct (t <=? 0); [done|]. by intros [= <-].
Qed.

Lemma V1_world_ok_handleSubmit (e : Exam) (uid examId : string) (t : Trigger)
      (c : V1.State) (w : V1.World) :
  V1_ok e c ->
  V1_world_ok e w -> V1_world_ok e (V1.handleSubmit uid examId t c w).
Proof.
  intros Hc Hw. unfold V1.handleSubmit. destruct (V1.submitting c); [done|].
  destruct (V1.submissionData uid examId c) as [d|] eqn:Hd.
  - destruct Hw as (Hs & Ht & Hi). unfold V1_world_ok. simpl. split_and!; try done.
    intros t' d' [[= -> ->] | Hin]%elem_of_cons; [|eauto].
    exact (V1_submissionData_ok uid examId e c d Hc Hd).
  - do 2 (apply V1_world_ok_with_st;
          [intros s Hs; by eapply V1_ok_core; [..|exact Hs]|]).
    done.
Qed.

Lemma V1_world_ok_tick (e : Exam) (uid examId : string) (c : V1.State) (w : V1.World) :
  V1_ok e c ->
  V1_world_ok e w -> V1_world_ok e (V1.tick uid examId c w).
Proof.
  intros Hc Hw. pose proof Hw as ((He & _ & _ & t & Ht & Hb) & _ & Hi).
  unfold V1.tick. rewrite Ht.
  destruct (Z.leb_spec t 1) as [Hle|Hgt].
  - apply V1_world_ok_with_st; [intros s; apply V1_ok_setTimeLeft; lia|].
    unfold V1.handleTimeUp. apply V1_world_ok_handleSubmit; [done|].
    apply V1_world_ok_with_st;
      [intros s Hs; by eapply V1_ok_core; [..|exact Hs]|].
    destruct Hw as (Hs & _ & Hi'). unfold V1_world_ok. simpl. split_and!; done.
  - apply V1_world_ok_with_st; [|done].
    intros s. apply V1_ok_setTimeLeft. simpl. lia.
Qed.

Lemma V1_world_ok_settle (e : Exam) (uid examId : string) (ok : bool) (w : V1.World) :
  V1_world_ok e w -> V1_world_ok e (V1.settle uid examId ok w).
Proof.
  intros Hw. unfold V1.settle. destruct (V1.pending w) as [|p rest]; [done|].
  destruct Hw as (Hs & Ht & Hi).
  destruct ok; [destruct (V1.p_modal p)|]; unfold V1_world_ok; simpl;
    split_and!; done.
Qed.

Lemma V1_world_ok_step (e : Exam) (uid examId : string) (w : V1.World) (ev : Event) :
  V1_world_ok e w -> V1_world_ok e (V1.step uid examId w ev).
Proof.
  intros Hw.
  assert (Hcore : forall f : V1.State -> V1.State,
             (forall s, V1.exam (f s) = V1.exam s /\ V1.answers (f s) = V1.answers s
                        /\ V1.questionOrder (f s) = V1.questionOrder s
                        /\ V1.timeLeft (f s) = V1.timeLeft s) ->
             V1_world_ok e (V1.with_st f w)).
  { intros f Hf. apply V1_world_ok_with_st; [|done].
    intros s Hs. destruct (Hf s) as (? & ? & ? & ?). by eapply V1_ok_core. }
  destruct ev as [| qi ai | index | | | ok]; simpl.
  - destruct (negb (V1.mounted w)); [done|].
    destruct (V1.timer w) as [c|] eqn:Hc; [|done].
    apply V1_world_ok_commit, V1_world_ok_tick; [|done].
    destruct Hw as (_ & Ht & _). by apply Ht.
  - destruct (negb (V1.mounted w)); [done|].
    apply V1_world_ok_commit, V1_world_ok_with_st; [|done].
    intros s. apply V1_ok_handleAnswer.
  - destruct (negb (V1.mounted w)); [done|].
    destruct (_ <? _)%nat; [|done]. apply V1_world_ok_commit, Hcore. done.
  - destruct (negb (V1.mounted w)); [done|].
    destruct (_ && _); [|done]. apply V1_world_ok_commit, Hcore. done.
  - destruct (negb (V1.mounted w)); [done|].
    destruct (_ && _); [|done].
    apply V1_world_ok_commit, V1_world_ok_handleSubmit; [|done].
    by destruct Hw.
  - by apply V1_world_ok_commit, V1_world_ok_settle.
Qed.

(** X1.  First revision: in every attempt at an exam whose time limit is
    not negative, whatever the student does and however the writes
    settle, every submission that is issued counts at most as many
    completed questions as the exam has questions, and a time spent
    between zero and the time limit. *)
Theorem V1_written_submissions_are_within_bounds
        (exams : gmap string Exam) (d0 : Store V1.Submission) (uid examId : string)
        (perm : list nat) (evs : list Event) (e : Exam) (w : V1.World)
        (t : Trigger) (d : V1.Submission) :
  exams !! examId = Some e ->
  0 <= timeLimit e ->
  V1.attempt exams d0 uid examId perm evs = Some w ->
  (t, d) ∈ V1.issued w ->
  V1.sub_totalQuestions d = length (questions e)
  /\ (V1.sub_completedQuestions d <= V1.sub_totalQuestions d)%nat
  /\ 0 <= V1.sub_timeSpent d <= timeLimit e * 60.
Proof.
  intros He Hl Hatt Hin. unfold V1.attempt in Hatt.
  destruct (V1.fetchExam exams examId perm) as [|s] eqn:Hf; [done|].
  injection Hatt as <-.
  pose proof (V1_fetchExam_ok _ _ _ _ _ He Hl Hf) as Hs.
  assert (H0 : V1_world_ok e (V1.mount s d0)).
  { unfold V1_world_ok, V1.mount.
    destruct (V1.renders s); simpl; split_and!; try done.
    - intros c. unfold V1.timer_effect.
      destruct (V1.timeLeft s) as [t'|]; [|done].
      destruct (t' <=? 0); [done|]. by intros [= <-].
    - intros t' d' Hd'. by apply elem_of_nil in Hd'.
    - intros t' d' Hd'. by apply elem_of_nil in Hd'. }
  assert (Hrun : forall evs w0, V1_world_ok e w0 ->
                                V1_world_ok e (V1.run uid examId w0 evs)).
  { clear. unfold V1.run. induction evs as [|ev evs IH]; intros w0 Hw0; simpl; [done|].
    by apply IH, V1_world_ok_step. }
  destruct (Hrun evs _ H0) as (_ & _ & Hi). by apply (Hi t d).
Qed.

Lemma V1_written_submissions_are_within_bounds_witness :
  one_exam exam_once !! "exam1" = Some exam_once
  /\ 0 <= timeLimit exam_once
  /\ exists w t d,
      V1.attempt (one_exam exam_once) empty_store "student1" "exam1" []
                 let_time_run_out = Some w
      /\ (t, d) ∈ V1.issued w
      /\ V1.sub_totalQuestions d = length (questions exam_once)
      /\ (V1.sub_completedQuestions d <= V1.sub_totalQuestions d)%nat
      /\ 0 <= V1.sub_timeSpent d <= timeLimit exam_once * 60.
Proof.
  assert (He : one_exam exam_once !! "exam1" = Some exam_once) by reflexivity.
  assert (Hl : 0 <= timeLimit exam_once) by (vm_compute; discriminate).
  assert (Hrun : exists w t d,
             V1.attempt (one_exam exam_once) empty_store "student1" "exam1" []
                        let_time_run_out = Some w
             /\ (t, d) ∈ V1.issued w).
  { eexists _, _, _. split; [reflexivity|].
    apply list_elem_of_In. cbv. left. reflexivity. }
  destruct Hrun as (w & t & d & Hw & Hin).
  split; [exact He|]. split; [exact Hl|].
  exists w, t, d. split; [exact Hw|]. split; [exact Hin|].
  exact (V1_written_submissions_are_within_bounds
           (one_exam exam_once) empty_store "student1" "exam1" [] let_time_run_out
           exam_once w t d He Hl Hw Hin).
Defined.

(** ** Second revision: the score is always defined *)

Lemma V2_ok_core (e : Exam) (s s' : V2.State) :
  V2.exam s' = V2.exam s ->
  V2.answers s' = V2.answers s ->
  V2.questionOrder s' = V2.questionOrder s ->
  V2.timeLeft s' = V2.timeLeft s ->
  V2_ok e s -> V2_ok e s'.
Proof. unfold V2_ok. by intros -> -> -> ->. Qed.

Lemma V2_ok_setTimeLeft (e : Exam) (s : V2.State) (t : Z) :
  0 <= t <= timeLimit e * 60 ->
  V2_ok e s -> V2_ok e (V2.setTimeLeft t s).
Proof.
  intros Ht (He & Hlen & Ha & Ho & _). unfold V2_ok. simpl. split_and!; try done; lia.
Qed.

Lemma V2_ok_handleAnswer (e : Exam) (s : V2.State) (qi : nat) (ai : Z) :
  V2_ok e s -> V2_ok e (V2.handleAnswer qi ai s).
Proof.
  intros Hok. unfold V2.handleAnswer.
  destruct (V2.questionOrder s !! qi) as [i|] eqn:Hi; [|done].
  destruct Hok as (He & Hlen & Ha & Hord & Ht). unfold V2_ok. simpl.
  assert (Hin : (i < length (V2.answers s))%nat).
  { rewrite Hlen. eapply (proj1 (Forall_lookup _ _) Hord); eauto. }
  unfold V2.array_set. destruct (Nat.ltb_spec i (length (V2.answers s))); [|lia].
  split_and!; try done; try lia.
  - by rewrite length_insert.
  - apply Forall_insert; [done|eauto].
Qed.

Lemma V2_fetchExam_ok (exams : gmap string Exam) (d0 : Store V2.Submission)
      (examId uid : string) (perm : list nat) (e : Exam) (s : V2.State) :
  exams !! examId = Some e ->
  0 <= timeLimit e ->
  V2.fetchExam exams d0 examId uid perm = V2.Loaded s ->
  V2_ok e s.
Proof.
  intros He Hl. unfold V2.fetchExam. rewrite He.
  destruct (negb (isPublished e)); [done|].
  destruct (_ && _); [done|].
  assert (Hord : Forall (fun i => (i < length (questions e))%nat)
                        (V2.order_of e perm).1).
  { unfold V2.order_of. destruct (shuffleQuestions e); simpl.
    - apply Forall_forall. intros i Hi%shuffleArray_elem_of.
      unfold JS.keys in Hi. apply elem_of_seq in Hi. lia.
    - apply Forall_forall. intros i Hi.
      unfold JS.keys in Hi. apply elem_of_seq in Hi. lia. }
  destruct (V2.order_of e perm) as [order shuffled]. intros [= <-].
  unfold V2_ok. simpl. split_and!; try done; try lia.
  - apply length_replicate.
  - apply Forall_replicate. eauto.
Qed.

(** In such a state [handleSubmit] computes a score and builds the
    document. *)
Lemma V2_submissionData_ok (uid examId : string) (e : Exam) (c : V2.State) :
  V2_ok e c ->
  exists d, V2.submissionData uid examId c = Some d /\ V2_written_ok e d.
Proof.
  intros (He & Hlen & Ha & _ & Ht). unfold V2.submissionData. rewrite He.
  rewrite V2_finalScore_refines by done.
  eexists. split; [reflexivity|]. unfold V2_written_ok. simpl. split; [done|lia].
Qed.

Lemma V2_world_ok_with_st (e : Exam) (f : V2.State -> V2.State) (w : V2.World) :
  (forall s, V2_ok e s -> V2_ok e (f s)) ->
  V2_world_ok e w -> V2_world_ok e (V2.with_st f w).
Proof. intros Hf (Hs & Ht & Hi). unfold V2_world_ok. simpl. auto. Qed.

Lemma V2_world_ok_commit (e : Exam) (old : V2.State) (w : V2.World) :
  V2_world_ok e w -> V2_world_ok e (V2.commit old w).
Proof.
  intros (Hs & Ht & Hi). unfold V2.commit. destruct (bool_decide _); [done|].
  unfold V2_world_ok. simpl. split_and!; try done.
  intros c. unfold V2.timer_effect. destruct (_ || _); [done|]. by intros [= <-].
Qed.

Lemma V2_world_ok_handleSubmit (e : Exam) (uid examId : string) (t : Trigger)
      (c : V2.State) (w : V2.World) :
  V2_ok e c ->
  V2_world_ok e w -> V2_world_ok e (V2.handleSubmit uid examId t c w).
Proof.
  intros Hc Hw. unfold V2.handleSubmit.
  destruct (V2_submissionData_ok uid examId e c Hc) as (d & -> & Hd).
  destruct Hw as (Hs & Ht & Hi). unfold V2_world_ok. simpl. split_and!; try done.
  intros t' d' [[= -> ->] | Hin]%elem_of_cons; [done|eauto].
Qed.

Lemma V2_world_ok_tick (e : Exam) (uid examId : string) (c : V2.State) (w : V2.World) :
  V2_ok e c ->
  V2_world_ok e w -> V2_world_ok e (V2.tick uid examId c w).
Proof.
  intros Hc Hw. pose proof Hw as ((He & _ & _ & _ & Hb) & _ & Hi).
  unfold V2.tick.
  destruct (Z.leb_spec (V2.timeLeft (V2.st w)) 1) as [Hle|Hgt].
  - apply V2_world_ok_with_st; [intros s; apply V2_ok_setTimeLeft; lia|].
    unfold V2.handleTimeUp. apply V2_world_ok_handleSubmit; [done|].
    apply V2_world_ok_with_st;
      [intros s Hs; by eapply V2_ok_core; [..|exact Hs]|].
    destruct Hw as (Hs & _ & Hi'). unfold V2_world_ok. simpl. split_and!; done.
  - apply V2_world_ok_with_st; [|done].
    intros s. apply V2_ok_setTimeLeft. lia.
Qed.

Lemma V2_world_ok_settle (e : Exam) (ok : bool) (w : V2.World) :
  V2_world_ok e w -> V2_world_ok e (V2.settle ok w).
Proof.
  intros Hw. unfold V2.settle. destruct (V2.pending w) as [|p rest]; [done|].
  destruct Hw as (Hs & Ht & Hi).
  destruct ok; unfold V2_world_ok; simpl; split_and!; done.
Qed.

Lemma V2_world_ok_step (e : Exam) (uid examId : string) (w : V2.World) (ev : Event) :
  V2_world_ok e w -> V2_world_ok e (V2.step uid examId w ev).
Proof.
  intros Hw.
  assert (Hcore : forall f : V2.State -> V2.State,
             (forall s, V2.exam (f s) = V2.exam s /\ V2.answers (f s) = V2.answers s
                        /\ V2.questionOrder (f s) = V2.questionOrder s
                        /\ V2.timeLeft (f s) = V2.timeLeft s) ->
             V2_world_ok e (V2.with_st f w)).
  { intros f Hf. apply V2_world_ok_with_st; [|done].
    intros s Hs. destruct (Hf s) as (? & ? & ? & ?). by eapply V2_ok_core. }
  destruct ev as [| qi ai | index | | | ok]; simpl.
  - destruct (negb (V2.mounted w)); [done|].
    destruct (V2.timer w) as [c|] eqn:Hc; [|done].
    apply V2_world_ok_commit, V2_world_ok_tick; [|done].
    destruct Hw as (_ & Ht & _). by apply Ht.
  - destruct (negb (V2.mounted w)); [done|].
    apply V2_world_ok_commit, V2_world_ok_with_st; [|done].
    intros s. apply V2_ok_handleAnswer.
  - destruct (negb (V2.mounted w)); [done|].
    destruct (_ <? _)%nat; [|done]. apply V2_world_ok_commit, Hcore. done.
  - destruct (negb (V2.mounted w)); [done|].
    destruct (_ && _); [|done]. apply V2_world_ok_commit, Hcore. done.
  - destruct (negb (V2.mounted w)); [done|].
    destruct (_ && _); [|done].
    apply V2_world_ok_commit, V2_world_ok_handleSubmit; [|done].
    by destruct Hw.
  - by apply V2_world_ok_commit, V2_world_ok_settle.
Qed.

(** X2.  Second revision: at every point of every attempt at an exam
    whose time limit is not negative, the answers are one entry per
    question, so both submit buttons are enabled and [handleSubmit] can
    compute the score and build the document (it never throws into its
    [catch]); every submission issued has one answer per question and a
    time spent between zero and the limit. *)
Theorem V2_submit_is_always_defined
        (exams : gmap string Exam) (d0 : Store V2.Submission) (uid examId : string)
        (perm : list nat) (evs : list Event) (e : Exam) (w : V2.World) :
  exams !! examId = Some e ->
  0 <= timeLimit e ->
  V2.attempt exams d0 uid examId perm evs = Some w ->
  V2.buttons_enabled (V2.st w) = true
  /\ is_Some (V2.submissionData uid examId (V2.st w))
  /\ forall t d, (t, d) ∈ V2.issued w ->
                 length (V2.sub_answers d) = length (questions e)
                 /\ 0 <= V2.sub_timeSpent d <= timeLimit e * 60.
Proof.
  intros He Hl Hatt. unfold V2.attempt in Hatt.
  destruct (V2.fetchExam exams d0 examId uid perm) as [|s] eqn:Hf; [done|].
  injection Hatt as <-.
  pose proof (V2_fetchExam_ok _ _ _ _ _ _ _ He Hl Hf) as Hs.
  assert (H0 : V2_world_ok e (V2.mount s d0)).
  { unfold V2_world_ok, V2.mount. simpl. split_and!; try done.
    - intros c. unfold V2.timer_effect. destruct (_ || _); [done|]. by intros [= <-].
    - intros t' d' Hd'. by apply elem_of_nil in Hd'. }
  assert (Hrun : forall evs w0, V2_world_ok e w0 ->
                                V2_world_ok e (V2.run uid examId w0 evs)).
  { clear. unfold V2.run. induction evs as [|ev evs IH]; intros w0 Hw0; simpl; [done|].
    by apply IH, V2_world_ok_step. }
  destruct (Hrun evs _ H0) as (Hst & _ & Hi).
  split_and!.
  - destruct Hst as (Hex & Hlen & _). unfold V2.buttons_enabled.
    rewrite Hex. by apply Nat.eqb_eq.
  - destruct (V2_submissionData_ok uid examId e _ Hst) as (d & -> & _). eauto.
  - intros t d Hin. by apply (Hi t d).
Qed.

Lemma V2_submit_is_always_defined_witness :
  one_exam exam_23_17 !! "exam1" = Some exam_23_17
  /\ 0 <= timeLimit exam_23_17
  /\ exists w,
      V2.attempt (one_exam exam_23_17) empty_store "student1" "exam1" [1; 0]%nat
                 [EvAnswer 0 1; EvTick; EvGoTo 1; EvRequestSubmit; EvConfirm] = Some w
      /\ V2.buttons_enabled (V2.st w) = true
      /\ is_Some (V2.submissionData "student1" "exam1" (V2.st w))
      /\ forall t d, (t, d) ∈ V2.issued w ->
                     length (V2.sub_answers d) = length (questions exam_23_17)
                     /\ 0 <= V2.sub_timeSpent d <= timeLimit exam_23_17 * 60.
Proof.
  assert (He : one_exam exam_23_17 !! "exam1" = Some exam_23_17) by reflexivity.
  assert (Hl : 0 <= timeLimit exam_23_17) by (vm_compute; discriminate).
  split; [exact He|]. split; [exact Hl|].
  eexists. split; [reflexivity|].
  exact (V2_submit_is_always_defined
           (one_exam exam_23_17) empty_store "student1" "exam1" [1; 0]%nat
           [EvAnswer 0 1; EvTick; EvGoTo 1; EvRequestSubmit; EvConfirm]
           exam_23_17 _ He Hl eq_refl).
Defined.

(** ** Bookmarks and flags *)




(** ** The Submitting guard of the first revision *)

Lemma V1_click_guard (uid examId : string) (w : V1.World) (ev : Event) :
  ev <> EvTick -> (forall ok, ev <> EvWriteDone ok) ->
  V1.issued w = [] \/ (length (V1.issued w) = 1%nat /\ V1.submitting (V1.st w) = true) ->
  V1.issued (V1.step uid examId w ev) = []
  \/ (length (V1.issued (V1.step uid examId w ev)) = 1%nat
      /\ V1.submitting (V1.st (V1.step uid examId w ev)) = true).
Proof.
  intros Ht Hs Hinv.
  assert (Hc : forall old x, V1.issued (V1.commit old x) = V1.issued x
                             /\ V1.st (V1.commit old x) = V1.st x).
  { intros old x. unfold V1.commit. by destruct (bool_decide _). }
  destruct ev as [| qi ai | index | | | ok]; simpl; try done.
  - destruct (negb (V1.mounted w)); [done|].
    destruct (Hc (V1.st w) (V1.with_st (V1.handleAnswer qi ai) w)) as [-> ->].
    simpl. unfold V1.handleAnswer.
    by destruct (V1.questionOrder (V1.st w) !! qi).
  - destruct (negb (V1.mounted w)); [done|].
    destruct (_ <? _)%nat; [|done].
    by destruct (Hc (V1.st w) (V1.with_st (V1.setCurrentQuestion index) w)) as [-> ->].
  - destruct (negb (V1.mounted w)); [done|].
    destruct (_ && _); [|done].
    by destruct (Hc (V1.st w) (V1.with_st (V1.setShowConfirmSubmit true) w)) as [-> ->].
  - destruct (negb (V1.mounted w)); [done|].
    destruct (V1.showConfirmSubmit (V1.st w)); simpl; [|done].
    destruct (V1.submitting (V1.st w)) eqn:Hsub; simpl;
      [destruct Hinv as [?|[? _]]; auto|].
    destruct (Hc (V1.st w) (V1.handleSubmit uid examId ByConfirm (V1.st w) w)) as [-> ->].
    unfold V1.handleSubmit. rewrite Hsub.
    destruct Hinv as [Hnil | [_ ?]]; [|congruence].
    destruct (V1.submissionData uid examId (V1.st w)); simpl.
    + right. by rewrite Hnil.
    + by left.
  - by destruct (Hs ok).
Qed.

(** X4.  First revision: whatever the student clicks (answers, navigation,
    "Submit Exam", "Confirm Submit", in any order and any number of
    times), as long as the timer does not expire and no write fails,
    at most one write is issued: once [handleSubmit] has set
    [submitting], the buttons and the guard hold later clicks back. *)
Theorem V1_clicks_issue_at_most_one_write
        (uid examId : string) (s : V1.State) (d0 : Store V1.Submission)
        (evs : list Event) :
  Forall (fun ev => ev <> EvTick /\ forall ok, ev <> EvWriteDone ok) evs ->
  (length (V1.issued (V1.run uid examId (V1.mount s d0) evs)) <= 1)%nat.
Proof.
  intros Hevs.
  assert (H : forall w,
             V1.issued w = []
             \/ (length (V1.issued w) = 1%nat /\ V1.submitting (V1.st w) = true) ->
             V1.issued (V1.run uid examId w evs) = []
             \/ (length (V1.issued (V1.run uid examId w evs)) = 1%nat
                 /\ V1.submitting (V1.st (V1.run uid examId w evs)) = true)).
  { unfold V1.run. induction Hevs as [|ev evs [Ht Hs] _ IH]; intros w Hw; simpl; [done|].
    by apply IH, V1_click_guard. }
  destruct (H (V1.mount s d0)) as [-> | [-> _]]; simpl; auto.
  left. unfold V1.mount. by destruct (V1.renders s).
Qed.

Lemma V1_clicks_issue_at_most_one_write_witness :
  let s := V1.mkState (Some exam_once) 0 ∅ (Some 60) false [] [] false
                      (questions exam_once) [V1.mkOrder 0 0] false in
  let evs := [EvAnswer 0 0; EvRequestSubmit; EvConfirm; EvConfirm; EvRequestSubmit] in
  Forall (fun ev => ev <> EvTick /\ forall ok, ev <> EvWriteDone ok) evs
  /\ V1.issued (V1.run "student1" "exam1" (V1.mount s empty_store) evs) <> []
  /\ (length (V1.issued (V1.run "student1" "exam1" (V1.mount s empty_store) evs))
      <= 1)%nat.
Proof.
  intros s evs.
  assert (H : Forall (fun ev => ev <> EvTick /\ forall ok, ev <> EvWriteDone ok) evs).
  { subst evs. repeat (constructor; [split; [discriminate | intros ok; discriminate]|]).
    constructor. }
  split; [exact H|]. split; [vm_compute; discriminate|].
  exact (V1_clicks_issue_at_most_one_write "student1" "exam1" s empty_store evs H).
Defined.

(** ** The clock *)

Lemma all_from_spec (p : Z -> bool) (n : nat) :
  forall start z,
    Clock.all_from p start n = true ->
    start <= z < start + Z.of_nat n -> p z = true.
Proof.
  induction n as [|n IH]; intros start z H Hz; [lia|].
  simpl in H. apply andb_true_iff in H as [H0 H].
  destruct (decide (z = start)) as [-> |Hne]; [done|].
  apply (IH (start + 1)); [done|lia].
Qed.

(** On the whole seconds of four hours the quotient and the remainder of the
    doubles are those of the whole numbers, and [Math.round] reads a
    whole number back. *)
Lemma whole_seconds_of_four_hours :
  Clock.all_from
    (fun s => Clock.same_double (Clock.minutes (JS.of_Z s)) (JS.of_Z (s / 60))
              && Clock.same_double (Clock.remainingSeconds (JS.of_Z s))
                                   (JS.of_Z (s mod 60))
              && JS.rounded_eqb (JS.Math_round (JS.of_Z s)) (JS.RInt s))
    0 (Z.to_nat Clock.four_hours)
  = true.
Proof. vm_compute. reflexivity. Qed.

Lemma whole_seconds (s : Z) :
  0 <= s < Clock.four_hours ->
  Clock.minutes (JS.of_Z s) = JS.of_Z (s / 60)
  /\ Clock.remainingSeconds (JS.of_Z s) = JS.of_Z (s mod 60)
  /\ JS.Math_round (JS.of_Z s) = JS.RInt s.
Proof.
  intros Hs.
  pose proof (all_from_spec _ _ 0 s whole_seconds_of_four_hours) as H.
  simpl in H. specialize (H ltac:(unfold Clock.four_hours in *; lia)).
  apply andb_true_iff in H as [H H3]. apply andb_true_iff in H as [H1 H2].
  unfold Clock.same_double in H1, H2.
  apply bool_decide_eq_true in H1, H2. apply Prim2SF_inj in H1, H2.
  split_and!; [done|done|].
  destruct (JS.Math_round (JS.of_Z s)); try done.
  simpl in H3. apply Z.eqb_eq in H3. by subst.
Qed.

Lemma padStart2_two_digits :
  forallb (fun r => (String.length (Clock.padStart2 (pretty r)) =? 2)%nat) (seqZ 0 60)
  = true.
Proof. vm_compute. reflexivity. Qed.

Lemma string_length_app (s t : string) :
  String.length (s +:+ t) = (String.length s + String.length t)%nat.
Proof. induction s as [|c s IH]; simpl; [done|]. by rewrite IH. Qed.

Lemma string_app_inj_suffix (s1 s2 t1 t2 : string) :
  String.length t1 = String.length t2 ->
  s1 +:+ t1 = s2 +:+ t2 -> s1 = s2 /\ t1 = t2.
Proof.
  revert s2. induction s1 as [|c s1 IH]; intros [|c' s2] Hl H.
  - done.
  - exfalso. change (t1 = String c' (s2 +:+ t2)) in H.
    rewrite H in Hl. simpl in Hl.
    rewrite string_length_app in Hl. lia.
  - exfalso. change (String c (s1 +:+ t1) = t2) in H.
    rewrite <- H in Hl. simpl in Hl.
    rewrite string_length_app in Hl. lia.
  - change (String c (s1 +:+ t1) = String c' (s2 +:+ t2)) in H.
    injection H as -> H. destruct (IH s2 Hl H) as [-> ->]. done.
Qed.

Lemma padStart2_distinct :
  forallb (fun r1 => forallb (fun r2 =>
     implb (String.eqb (Clock.padStart2 (pretty r1)) (Clock.padStart2 (pretty r2)))
           (r1 =? r2)) (seqZ 0 60)) (seqZ 0 60)
  = true.
Proof. vm_compute. reflexivity. Qed.

(** X5.  Let the conversion of a number to text print the whole numbers
    below 14400 in decimal digits, as [Number::toString] does.  Then for
    a whole number of seconds from 0 to below 14400 (four hours),
    [formatTime] prints the whole minutes, a colon and the remaining
    seconds in two digits, [formatDuration] prints the same two numbers
    as "Xm Ys", and two different such times never show the same
    clock. *)
Theorem clock_shows_the_time (toString : float -> string) (seconds : Z) :
  (forall z, 0 <= z < Clock.four_hours -> toString (JS.of_Z z) = pretty z) ->
  0 <= seconds < Clock.four_hours ->
  Clock.formatTime toString (JS.of_Z seconds)
  = pretty (seconds / 60) +:+ ":" +:+ Clock.padStart2 (pretty (seconds mod 60))
  /\ Clock.formatDuration toString (JS.of_Z seconds)
     = pretty (seconds / 60) +:+ "m " +:+ pretty (seconds mod 60) +:+ "s"
  /\ String.length (Clock.padStart2 (pretty (seconds mod 60))) = 2%nat
  /\ forall other, 0 <= other < Clock.four_hours ->
       Clock.formatTime toString (JS.of_Z other)
       = Clock.formatTime toString (JS.of_Z seconds) ->
       other = seconds.
Proof.
  intros HtoString Hs.
  assert (Hfmt : forall s, 0 <= s < Clock.four_hours ->
            Clock.formatTime toString (JS.of_Z s)
            = pretty (s / 60) +:+ ":" +:+ Clock.padStart2 (pretty (s mod 60))
            /\ Clock.formatDuration toString (JS.of_Z s)
               = pretty (s / 60) +:+ "m " +:+ pretty (s mod 60) +:+ "s").
  { intros s Hs'. unfold Clock.formatTime, Clock.formatDuration.
    destruct (whole_seconds s Hs') as (-> & -> & _).
    pose proof (Z.mod_pos_bound s 60 ltac:(lia)).
    assert (0 <= s / 60 < Clock.four_hours).
    { unfold Clock.four_hours in *. split; [apply Z.div_pos; lia|].
      apply Z.div_lt_upper_bound; lia. }
    rewrite !HtoString by (unfold Clock.four_hours in *; lia). done. }
  assert (Hpad : forall s, String.length (Clock.padStart2 (pretty (s mod 60))) = 2%nat).
  { intros s. pose proof (Z.mod_pos_bound s 60 ltac:(lia)).
    pose proof padStart2_two_digits as H'.
    rewrite forallb_forall in H'.
    apply Nat.eqb_eq, H', list_elem_of_In, elem_of_seqZ. lia. }
  destruct (Hfmt seconds Hs) as [Ht Hd].
  split_and!; [done|done|apply Hpad|].
  intros other Ho Heq. destruct (Hfmt other Ho) as [Ht' _].
  rewrite Ht, Ht' in Heq.
  apply string_app_inj_suffix in Heq as [Hm Hsec].
  2:{ by rewrite !string_length_app, !Hpad. }
  apply (inj pretty) in Hm.
  apply string_app_inj_suffix in Hsec as [_ Hsec]; [|by rewrite !Hpad].
  pose proof (Z.mod_pos_bound seconds 60 ltac:(lia)).
  pose proof (Z.mod_pos_bound other 60 ltac:(lia)).
  pose proof padStart2_distinct as H'.
  rewrite forallb_forall in H'.
  specialize (H' (other mod 60)).
  rewrite forallb_forall in H'.
  specialize (H' ltac:(apply list_elem_of_In, elem_of_seqZ; lia)
                (seconds mod 60)
                ltac:(apply list_elem_of_In, elem_of_seqZ; lia)).
  rewrite Hsec, String.eqb_refl in H'. simpl in H'.
  apply Z.eqb_eq in H'.
  pose proof (Z.div_mod seconds 60 ltac:(lia)).
  pose proof (Z.div_mod other 60 ltac:(lia)). lia.
Qed.

Lemma clock_shows_the_time_witness :
  (forall z, 0 <= z < Clock.four_hours -> Clock.toString_whole (JS.of_Z z) = pretty z)
  /\ 0 <= 125 < Clock.four_hours
  /\ Clock.formatTime Clock.toString_whole (JS.of_Z 125)
     = pretty (125 / 60) +:+ ":" +:+ Clock.padStart2 (pretty (125 mod 60))
  /\ Clock.formatDuration Clock.toString_whole (JS.of_Z 125)
     = pretty (125 / 60) +:+ "m " +:+ pretty (125 mod 60) +:+ "s"
  /\ String.length (Clock.padStart2 (pretty (125 mod 60))) = 2%nat
  /\ forall other, 0 <= other < Clock.four_hours ->
       Clock.formatTime Clock.toString_whole (JS.of_Z other)
       = Clock.formatTime Clock.toString_whole (JS.of_Z 125) ->
       other = 125.
Proof.
  assert (H1 : forall z, 0 <= z < Clock.four_hours ->
                         Clock.toString_whole (JS.of_Z z) = pretty z).
  { intros z Hz. unfold Clock.toString_whole.
    by destruct (whole_seconds z Hz) as (_ & _ & ->). }
  assert (H2 : 0 <= 125 < Clock.four_hours) by (unfold Clock.four_hours; lia).
  split; [exact H1|]. split; [exact H2|].
  exact (clock_shows_the_time Clock.toString_whole 125 H1 H2).
Defined.

(** ** Filters and labels of the result pages *)

Lemma keeps_failed_of_number (r : MyResults.Result) (z : Z) :
  MyResults.r_score r = JS.RInt z ->
  MyResults.keeps "failed" true r = negb (MyResults.keeps "passed" true r).
Proof.
  unfold MyResults.keeps. simpl. intros ->. simpl. apply Z.ltb_antisym.
Qed.

(** X6.  On the student's result page a row labelled "Passed" is exactly
    a row the filter "passed" keeps; a row whose score is a number is
    kept by exactly one of the filters "passed" and "failed"; a row whose
    score is NaN is labelled "Failed" and kept by neither; and no filter
    keeps a row that does not match the search. *)
Theorem filters_and_labels_of_a_row (r : MyResults.Result) :
  (MyResults.label r = "Passed" <-> MyResults.keeps "passed" true r = true)
  /\ (forall z, MyResults.r_score r = JS.RInt z ->
                MyResults.keeps "failed" true r
                = negb (MyResults.keeps "passed" true r))
  /\ (MyResults.r_score r = JS.RNaN ->
      MyResults.label r = "Failed"
      /\ MyResults.keeps "passed" true r = false
      /\ MyResults.keeps "failed" true r = false)
  /\ (forall filterBy, MyResults.keeps filterBy false r = false).
Proof.
  unfold MyResults.label, MyResults.keeps, Results.status. simpl.
  split_and!.
  - destruct (Results.ge _ _); split; intros H; done.
  - intros z Hz. exact (keeps_failed_of_number r z Hz).
  - intros ->. simpl. done.
  - intros f. by repeat destruct (String.eqb _ _).
Qed.

(** X7.  When every score is a number and the exam document of every row
    still exists, the counters of the student's ExamHistory page agree
    with the filters of the MyResults page under an empty search box:
    [passedExams] is the number of rows the filter "passed" keeps and
    [failedExams] the number of rows the filter "failed" keeps; the two
    add up to [totalExams]. *)
Theorem counters_agree_with_filters (history : list MyResults.Result) :
  Forall (fun r => exists z, MyResults.r_score r = JS.RInt z) history ->
  Forall (fun r => is_Some (MyResults.r_exam r)) history ->
  let st := MyResults.stats history in
  MyResults.passedExams st
  = length (filter (fun r => MyResults.keeps "passed"
                               (MyResults.matches_empty_search r) r = true) history)
  /\ MyResults.failedExams st
     = Z.of_nat (length (filter (fun r => MyResults.keeps "failed"
                                            (MyResults.matches_empty_search r) r = true)
                                history))
  /\ Z.of_nat (MyResults.passedExams st) + MyResults.failedExams st
     = Z.of_nat (MyResults.totalExams st).
Proof.
  intros Hnum Hex. simpl.
  split_and!; [| |lia].
  - clear Hnum. induction Hex as [|r l [e He] _ IH]; [done|].
    assert (Hk : MyResults.keeps "passed" (MyResults.matches_empty_search r) r
                 = MyResults.passed r).
    { unfold MyResults.keeps, MyResults.matches_empty_search. by rewrite He. }
    rewrite !filter_cons, Hk.
    destruct (decide (MyResults.passed r = true)); simpl; by rewrite IH.
  - induction Hnum as [|r l [z Hz] _ IH]; [done|].
    apply Forall_cons in Hex as [[e He] Hex]. specialize (IH Hex).
    assert (Hk : MyResults.keeps "failed" (MyResults.matches_empty_search r) r
                 = negb (MyResults.passed r)).
    { unfold MyResults.matches_empty_search. rewrite He.
      apply (keeps_failed_of_number r z Hz). }
    destruct (MyResults.passed r) eqn:Hpass.
    + rewrite (filter_cons_True (fun h => MyResults.passed h = true)) by done.
      rewrite (filter_cons_False
                 (fun r => MyResults.keeps "failed"
                             (MyResults.matches_empty_search r) r = true))
        by (rewrite Hk; done).
      simpl length. lia.
    + rewrite (filter_cons_False (fun h => MyResults.passed h = true))
        by (rewrite Hpass; done).
      rewrite (filter_cons_True
                 (fun r => MyResults.keeps "failed"
                             (MyResults.matches_empty_search r) r = true))
        by (rewrite Hk; done).
      simpl length. lia.
Qed.

Lemma counters_agree_with_filters_witness :
  let history := [MyResults.mkResult (JS.RInt 70) (Some exam_23_17);
                  MyResults.mkResult (JS.RInt 40) (Some exam_once)] in
  Forall (fun r => exists z, MyResults.r_score r = JS.RInt z) history
  /\ Forall (fun r => is_Some (MyResults.r_exam r)) history
  /\ (let st := MyResults.stats history in
      MyResults.passedExams st
      = length (filter (fun r => MyResults.keeps "passed"
                                   (MyResults.matches_empty_search r) r = true)
                       history)
      /\ MyResults.failedExams st
         = Z.of_nat (length (filter (fun r => MyResults.keeps "failed"
                                                (MyResults.matches_empty_search r) r
                                              = true)
                                    history))
      /\ Z.of_nat (MyResults.passedExams st) + MyResults.failedExams st
         = Z.of_nat (MyResults.totalExams st)).
Proof.
  intros history.
  assert (H : Forall (fun r => exists z, MyResults.r_score r = JS.RInt z) history).
  { subst history. repeat (constructor; [eexists; reflexivity|]). constructor. }
  assert (H' : Forall (fun r => is_Some (MyResults.r_exam r)) history).
  { subst history. repeat (constructor; [eexists; reflexivity|]). constructor. }
  split; [exact H|]. split; [exact H'|].
  exact (counters_agree_with_filters history H H').
Defined.

(** ** Editing the form *)

Lemma edit_keeps_option_counts (d : CreateExam.ExamData) (e : Authoring.Edit) :
  Forall (fun q => (2 <= length (CreateExam.f_options q) <= 6)%nat)
         (CreateExam.f_questions d) ->
  Forall (fun q => (2 <= length (CreateExam.f_options q) <= 6)%nat)
         (CreateExam.f_questions (Authoring.edit d e)).
Proof.
  intros Hall.
  assert (Hat : forall qi q, CreateExam.f_questions d !! qi = Some q ->
                  (2 <= length (CreateExam.f_options q) <= 6)%nat).
  { intros qi q Hq. by apply (Forall_lookup_1 _ _ _ _ Hall Hq). }
  destruct e as [|qi|qi|qi oi|qi text|qi oi text|qi oi|qi v]; simpl.
  - apply Forall_app. split; [done|]. repeat constructor.
  - destruct (_ && _); [|done]. by apply Forall_delete.
  - destruct (CreateExam.f_questions d !! qi) as [q|] eqn:Hq; [|done].
    destruct (length (CreateExam.f_options q) <? 6)%nat eqn:Hlt; [|done].
    unfold Authoring.addOption. rewrite Hq. simpl.
    apply Forall_insert; [done|]. simpl. rewrite length_app. simpl.
    apply Nat.ltb_lt in Hlt. specialize (Hat _ _ Hq). lia.
  - destruct (CreateExam.f_questions d !! qi) as [q|] eqn:Hq; [|done].
    destruct (_ && _) eqn:Hg; [|done].
    apply andb_true_iff in Hg as [H2 Hoi].
    apply Nat.ltb_lt in H2, Hoi.
    unfold Authoring.removeOption. rewrite Hq. simpl.
    apply Forall_insert; [done|]. simpl.
    rewrite length_delete by (by apply lookup_lt_is_Some_2).
    specialize (Hat _ _ Hq). lia.
  - unfold Authoring.handleQuestionChange.
    destruct (CreateExam.f_questions d !! qi) as [q|] eqn:Hq; [|done]. simpl.
    apply Forall_insert; [done|]. simpl. by eapply Hat.
  - destruct (CreateExam.f_questions d !! qi) as [q|] eqn:Hq; [|done].
    destruct (oi <? _)%nat; [|done].
    unfold Authoring.handleQuestionChange. rewrite Hq. simpl.
    apply Forall_insert; [done|]. simpl. rewrite length_insert. by eapply Hat.
  - destruct (CreateExam.f_questions d !! qi) as [q|] eqn:Hq; [|done].
    destruct (oi <? _)%nat; [|done].
    unfold Authoring.handleQuestionChange. rewrite Hq. simpl.
    apply Forall_insert; [done|]. simpl. by eapply Hat.
  - unfold Authoring.handleQuestionChange.
    destruct (CreateExam.f_questions d !! qi) as [q|] eqn:Hq; [|done]. simpl.
    apply Forall_insert; [done|]. simpl. by eapply Hat.
Qed.

Lemma edit_length (d : CreateExam.ExamData) (e : Authoring.Edit) :
  length (CreateExam.f_questions (Authoring.edit d e))
  = match e with
    | Authoring.ClickAddQuestion => S (length (CreateExam.f_questions d))
    | Authoring.ClickRemoveQuestion qi =>
        if (1 <? length (CreateExam.f_questions d))%nat
           && (qi <? length (CreateExam.f_questions d))%nat
        then (length (CreateExam.f_questions d) - 1)%nat
        else length (CreateExam.f_questions d)
    | _ => length (CreateExam.f_questions d)
    end.
Proof.
  destruct e as [|qi|qi|qi oi|qi text|qi oi text|qi oi|qi v]; simpl.
  - rewrite length_app. simpl. lia.
  - destruct (_ && _) eqn:Hg; [|done]. simpl.
    apply andb_true_iff in Hg as [_ Hqi]. apply Nat.ltb_lt in Hqi.
    by rewrite length_delete by (by apply lookup_lt_is_Some_2).
  - destruct (CreateExam.f_questions d !! qi) as [q|] eqn:Hq; [|done].
    destruct (_ <? _)%nat; [|done].
    unfold Authoring.addOption. rewrite Hq. simpl. by rewrite length_insert.
  - destruct (CreateExam.f_questions d !! qi) as [q|] eqn:Hq; [|done].
    destruct (_ && _); [|done].
    unfold Authoring.removeOption. rewrite Hq. simpl. by rewrite length_insert.
  - unfold Authoring.handleQuestionChange.
    destruct (CreateExam.f_questions d !! qi) as [q|] eqn:Hq; [|done]. simpl.
    by rewrite length_insert.
  - destruct (CreateExam.f_questions d !! qi) as [q|] eqn:Hq; [|done].
    destruct (oi <? _)%nat; [|done].
    unfold Authoring.handleQuestionChange. rewrite Hq. simpl. by rewrite length_insert.
  - destruct (CreateExam.f_questions d !! qi) as [q|] eqn:Hq; [|done].
    destruct (oi <? _)%nat; [|done].
    unfold Authoring.handleQuestionChange. rewrite Hq. simpl. by rewrite length_insert.
  - unfold Authoring.handleQuestionChange.
    destruct (CreateExam.f_questions d !! qi) as [q|] eqn:Hq; [|done]. simpl.
    by rewrite length_insert.
Qed.

(** X8.  Whatever the teacher does with the controls of the question
    cards, a form whose questions have between two and six options each
    keeps such questions, and a form that has a question keeps at least
    one: the remove buttons are not rendered at the lower bounds, the
    button "Add Option" is not rendered at six. *)
Theorem card_controls_keep_the_form_in_shape
        (d : CreateExam.ExamData) (es : list Authoring.Edit) :
  Forall (fun q => (2 <= length (CreateExam.f_options q) <= 6)%nat)
         (CreateExam.f_questions d) ->
  Forall (fun q => (2 <= length (CreateExam.f_options q) <= 6)%nat)
         (CreateExam.f_questions (Authoring.edits d es))
  /\ (CreateExam.f_questions d <> [] ->
      CreateExam.f_questions (Authoring.edits d es) <> []).
Proof.
  unfold Authoring.edits. revert d.
  induction es as [|e es IH]; intros d Hall; [done|]. simpl.
  destruct (IH (Authoring.edit d e) (edit_keeps_option_counts d e Hall)) as [H1 H2].
  split; [done|]. intros Hne. apply H2.
  intros Hnil. apply (f_equal length) in Hnil. rewrite edit_length in Hnil.
  assert (length (CreateExam.f_questions d) <> 0%nat) as Hlen.
  { by destruct (CreateExam.f_questions d). }
  destruct e; simpl in Hnil; try done.
  destruct (1 <? _)%nat eqn:H1'; simpl in Hnil; [|done].
  apply Nat.ltb_lt in H1'.
  destruct (_ <? _)%nat; lia.
Qed.

Lemma card_controls_keep_the_form_in_shape_witness :
  let d := Authoring.edits (Authoring.new_form "Quiz" EmptyString "30" "50")
                           [Authoring.ClickAddQuestion] in
  let es := [Authoring.ClickRemoveOption 0 0; Authoring.ClickRemoveQuestion 0;
             Authoring.ClickAddOption 0; Authoring.TypeOption 0 2 "c"] in
  Forall (fun q => (2 <= length (CreateExam.f_options q) <= 6)%nat)
         (CreateExam.f_questions d)
  /\ Forall (fun q => (2 <= length (CreateExam.f_options q) <= 6)%nat)
            (CreateExam.f_questions (Authoring.edits d es))
  /\ (CreateExam.f_questions d <> [] ->
      CreateExam.f_questions (Authoring.edits d es) <> []).
Proof.
  intros d es.
  assert (H : Forall (fun q => (2 <= length (CreateExam.f_options q) <= 6)%nat)
                     (CreateExam.f_questions d)).
  { repeat constructor. }
  split; [exact H|]. exact (card_controls_keep_the_form_in_shape d es H).
Defined.

(** X9.  [removeOption] leaves the field [correctAnswer] as it is.  When
    the removed option stands at or before the marked one, the mark
    passes to the option that followed it, and to no option at all when
    the marked one was the last; when it stands after, the marked option
    stays. *)
Theorem removeOption_keeps_the_marked_index
        (d : CreateExam.ExamData) (qi oi c : nat) (q : CreateExam.FormQuestion) :
  CreateExam.f_questions d !! qi = Some q ->
  CreateExam.f_correctAnswer q = Z.of_nat c ->
  exists d' q',
    Authoring.removeOption qi oi d = Some d'
    /\ CreateExam.f_questions d' !! qi = Some q'
    /\ CreateExam.f_correctAnswer q' = Z.of_nat c
    /\ ((oi <= c)%nat ->
        CreateExam.f_options q' !! c = CreateExam.f_options q !! S c)
    /\ ((oi <= c)%nat -> S c = length (CreateExam.f_options q) ->
        CreateExam.f_options q' !! c = None)
    /\ ((c < oi)%nat ->
        CreateExam.f_options q' !! c = CreateExam.f_options q !! c).
Proof.
  intros Hq Hc. unfold Authoring.removeOption. rewrite Hq.
  eexists _, _. split; [reflexivity|]. simpl.
  rewrite list_lookup_insert_eq by (by eapply lookup_lt_Some).
  split; [reflexivity|]. simpl. split_and!; [done| | |].
  - intros Hle. by apply list_lookup_delete_ge.
  - intros Hle Hlast. rewrite list_lookup_delete_ge by done.
    apply lookup_ge_None_2. lia.
  - intros Hlt. by apply list_lookup_delete_lt.
Qed.

Lemma removeOption_keeps_the_marked_index_witness :
  let q := CreateExam.mkFormQuestion "Capital of France?" ["Rome"; "Paris"; "Bonn"] 1 1 in
  let d := CreateExam.mkExamData "Quiz" EmptyString "30" "50" false false false [q] in
  CreateExam.f_questions d !! 0%nat = Some q
  /\ CreateExam.f_correctAnswer q = Z.of_nat 1
  /\ exists d' q',
      Authoring.removeOption 0 0 d = Some d'
      /\ CreateExam.f_questions d' !! 0%nat = Some q'
      /\ CreateExam.f_correctAnswer q' = Z.of_nat 1
      /\ ((0 <= 1)%nat ->
          CreateExam.f_options q' !! 1%nat = CreateExam.f_options q !! 2%nat)
      /\ ((0 <= 1)%nat -> 2%nat = length (CreateExam.f_options q) ->
          CreateExam.f_options q' !! 1%nat = None)
      /\ ((1 < 0)%nat ->
          CreateExam.f_options q' !! 1%nat = CreateExam.f_options q !! 1%nat).
Proof.
  intros q d.
  split; [reflexivity|]. split; [reflexivity|].
  exact (removeOption_keeps_the_marked_index d 0 0 1 q eq_refl eq_refl).
Defined.

(** ** Creating the exam *)

Lemma validate_questions_app_blank (qs : list CreateExam.FormQuestion)
      (q : CreateExam.FormQuestion) :
  CreateExam.blank (CreateExam.trim (CreateExam.f_question q)) = true
  \/ existsb (fun opt => CreateExam.blank (CreateExam.trim opt)) (CreateExam.f_options q)
     = true ->
  forall (qs' : list CreateExam.FormQuestion) (i : nat),
    CreateExam.validate_questions (qs ++ q :: qs') i <> None.
Proof.
  intros Hq qs'. induction qs as [|q0 qs IH]; intros i; simpl.
  - destruct (CreateExam.blank (CreateExam.trim (CreateExam.f_question q)));
      [discriminate|].
    destruct Hq as [? | ->]; [done|discriminate].
  - destruct (CreateExam.blank (CreateExam.trim (CreateExam.f_question q0)));
      [discriminate|].
    destruct (existsb _ (CreateExam.f_options q0)); [discriminate|]. apply IH.
Qed.

Lemma handleSubmit_stops_at_unfilled
      (Number : string -> Z) (currentUser : option string) (write_ok : bool)
      (examData : CreateExam.ExamData) (exams : Store Exam) :
  CreateExam.validate_questions (CreateExam.f_questions examData) 0 <> None ->
  exists msg,
    CreateExam.handleSubmit Number currentUser write_ok examData exams
    = (CreateExam.ToastError msg, exams).
Proof.
  intros Hv. unfold CreateExam.handleSubmit.
  destruct currentUser as [uid|]; [|eauto].
  destruct (_ || _); [eauto|].
  destruct (_ =? _)%nat; [eauto|].
  destruct (CreateExam.validate_questions _ _); [eauto|done].
Qed.

(** X10.  A question that was just added, and an option that was just
    added to a question, must be filled in before the exam can be
    created: on such a form [handleSubmit] shows an error and writes
    nothing, whatever the rest of the form holds. *)
Theorem fresh_question_or_option_blocks_the_submit
        (Number : string -> Z) (currentUser : option string) (write_ok : bool)
        (examData : CreateExam.ExamData) (exams : Store Exam) :
  (exists msg,
      CreateExam.handleSubmit Number currentUser write_ok
                              (Authoring.addQuestion examData) exams
      = (CreateExam.ToastError msg, exams))
  /\ (forall questionIndex examData',
         Authoring.addOption questionIndex examData = Some examData' ->
         exists msg,
           CreateExam.handleSubmit Number currentUser write_ok examData' exams
           = (CreateExam.ToastError msg, exams)).
Proof.
  split.
  - apply handleSubmit_stops_at_unfilled. simpl.
    apply validate_questions_app_blank. by left.
  - intros qi d'. unfold Authoring.addOption.
    destruct (CreateExam.f_questions examData !! qi) as [q|] eqn:Hq; [|done].
    intros [= <-]. apply handleSubmit_stops_at_unfilled. simpl.
    destruct (list_elem_of_split_length _ _ _ Hq) as (l1 & l2 & Heq & Hlen).
    rewrite Heq. subst qi.
    rewrite insert_app_r_alt, Nat.sub_diag by done. simpl.
    apply validate_questions_app_blank. right. simpl.
    rewrite existsb_app. simpl. by rewrite orb_true_r.
Qed.

Lemma totalPoints_foldl (qs : list Question) (acc : Z) :
  foldl (fun sum q => sum + points q) acc qs = acc + Spec.totalPoints_of qs.
Proof.
  revert acc. induction qs as [|q qs IH]; intros acc; simpl; [lia|].
  rewrite IH. lia.
Qed.

Lemma validate_questions_trimmed (qs : list CreateExam.FormQuestion) :
  forall i : nat,
    CreateExam.validate_questions qs i = None ->
    forall q, q ∈ qs ->
      CreateExam.trim (CreateExam.f_question q) <> EmptyString
      /\ EmptyString ∉ map CreateExam.trim (CreateExam.f_options q).
Proof.
  induction qs as [|q0 qs IH]; intros i Hv q Hq.
  - by apply elem_of_nil in Hq.
  - simpl in Hv.
    destruct (CreateExam.blank (CreateExam.trim (CreateExam.f_question q0))) eqn:Hb;
      [done|].
    destruct (existsb (fun opt => CreateExam.blank (CreateExam.trim opt))
                      (CreateExam.f_options q0)) eqn:He; [done|].
    apply elem_of_cons in Hq as [-> | Hq]; [|by eapply IH].
    split; [by apply blank_false|].
    intros Hin. apply list_elem_of_In, in_map_iff in Hin as (opt & Hopt & Hin).
    apply not_true_iff_false in He. apply He.
    apply existsb_exists. exists opt. split; [done|].
    by rewrite Hopt.
Qed.

(** X11.  When [handleSubmit] reports success, the collection holds one
    new document under a fresh id and every older document as it was.
    The new exam belongs to the user, has as many questions as the form
    and at least one, every question and option text in it is non-empty
    after trimming, and its [totalPoints] is the sum of the points of its
    questions, the total that TakeExam adds up again when it scores. *)
Theorem created_exam_is_well_formed
        (Number : string -> Z) (currentUser : option string) (write_ok : bool)
        (examData : CreateExam.ExamData) (exams exams' : Store Exam) :
  store_wf exams ->
  CreateExam.handleSubmit Number currentUser write_ok examData exams
  = (CreateExam.ToastSuccess, exams') ->
  exists e,
    docs exams' !! inr (next_auto exams) = Some e
    /\ docs exams !! inr (next_auto exams) = None
    /\ (forall k x, docs exams !! k = Some x -> docs exams' !! k = Some x)
    /\ store_wf exams'
    /\ currentUser = Some (createdBy e)
    /\ length (questions e) = length (CreateExam.f_questions examData)
    /\ questions e <> []
    /\ (forall q, q ∈ questions e ->
                  question q <> EmptyString /\ EmptyString ∉ options q)
    /\ totalPoints e = Spec.totalPoints_of (questions e)
    /\ snd (V1.tally (questions e) ∅) = totalPoints e.
Proof.
  intros Hwf. unfold CreateExam.handleSubmit.
  destruct currentUser as [uid|]; [|done].
  destruct (_ || _); [done|].
  destruct (_ =? _)%nat eqn:Hn; [done|].
  destruct (CreateExam.validate_questions _ _) eqn:Hv; [done|].
  destruct write_ok; [|done].
  intros [= <-]. eexists. simpl. rewrite lookup_insert_eq.
  split; [reflexivity|].
  assert (Hfresh : docs exams !! inr (next_auto exams) = None).
  { destruct (docs exams !! inr (next_auto exams)) eqn:Hd; [|done].
    apply Hwf in Hd. lia. }
  split_and!; try done.
  - intros k x Hk. rewrite lookup_insert_ne; [done|]. intros <-. congruence.
  - by apply addDoc_wf.
  - simpl. unfold CreateExam.processedQuestions. by rewrite List.length_map.
  - apply Nat.eqb_neq in Hn. simpl. unfold CreateExam.processedQuestions.
    destruct (CreateExam.f_questions examData); done.
  - intros q Hq. simpl in Hq. unfold CreateExam.processedQuestions in Hq.
    apply list_elem_of_In, in_map_iff in Hq as (fq & <- & Hfq). simpl.
    apply list_elem_of_In in Hfq.
    by eapply validate_questions_trimmed.
  - simpl. by rewrite totalPoints_foldl.
  - rewrite V1_tally_refines. simpl. by rewrite totalPoints_foldl.
Qed.

Lemma created_exam_is_well_formed_witness :
  let Number := fun _ : string => 30 in
  let exams' := addDoc (CreateExam.examToSubmit Number "teacher1" form_filled)
                       (empty_store (D := Exam)) in
  store_wf (empty_store (D := Exam))
  /\ CreateExam.handleSubmit Number (Some "teacher1") true form_filled empty_store
     = (CreateExam.ToastSuccess, exams')
  /\ exists e,
      docs exams' !! inr (next_auto (empty_store (D := Exam))) = Some e
      /\ docs (empty_store (D := Exam)) !! inr (next_auto (empty_store (D := Exam)))
         = None
      /\ (forall k x, docs (empty_store (D := Exam)) !! k = Some x ->
                      docs exams' !! k = Some x)
      /\ store_wf exams'
      /\ Some "teacher1" = Some (createdBy e)
      /\ length (questions e) = length (CreateExam.f_questions form_filled)
      /\ questions e <> []
      /\ (forall q, q ∈ questions e ->
                    question q <> EmptyString /\ EmptyString ∉ options q)
      /\ totalPoints e = Spec.totalPoints_of (questions e)
      /\ snd (V1.tally (questions e) ∅) = totalPoints e.
Proof.
  intros Number exams'.
  assert (Hwf : store_wf (empty_store (D := Exam))).
  { intros n d H. done. }
  assert (Hs : CreateExam.handleSubmit Number (Some "teacher1") true form_filled
                                       empty_store
               = (CreateExam.ToastSuccess, exams')) by reflexivity.
  split; [exact Hwf|]. split; [exact Hs|].
  exact (created_exam_is_well_formed Number (Some "teacher1") true form_filled
                                     empty_store exams' Hwf Hs).
Defined.

(** ** The question pool *)

Lemma map_is_fmap {A B : Type} (f : A -> B) (l : list A) : map f l = f <$> l.
Proof. reflexivity. Qed.

Lemma existsb_p_id (q : Authoring.PoolQuestion) (prev : list Authoring.PoolQuestion) :
  existsb (fun x => String.eqb (Authoring.p_id x) (Authoring.p_id q)) prev = true
  <-> Authoring.p_id q ∈ map Authoring.p_id prev.
Proof.
  rewrite existsb_exists, map_is_fmap, list_elem_of_fmap. split.
  - intros (x & Hx & Heq). apply String.eqb_eq in Heq.
    exists x. split; [done|]. by apply list_elem_of_In.
  - intros (x & Heq & Hx). exists x. split; [by apply list_elem_of_In|].
    apply String.eqb_eq. done.
Qed.

(** X12.  [toggleQuestionSelection] flips whether the question is
    selected and touches no other: a selection without repeated ids
    stays one, the question is selected afterwards exactly when it was
    not before, every question with another id keeps its state, and
    selecting then unselecting gives the selection back. *)
Theorem toggleQuestionSelection_flips_one
        (q : Authoring.PoolQuestion) (prev : list Authoring.PoolQuestion) :
  NoDup (map Authoring.p_id prev) ->
  let next := Authoring.toggleQuestionSelection q prev in
  NoDup (map Authoring.p_id next)
  /\ (Authoring.p_id q ∈ map Authoring.p_id next
      <-> Authoring.p_id q ∉ map Authoring.p_id prev)
  /\ (forall x, Authoring.p_id x <> Authoring.p_id q -> x ∈ next <-> x ∈ prev)
  /\ (Authoring.p_id q ∉ map Authoring.p_id prev ->
      Authoring.toggleQuestionSelection q next = prev).
Proof.
  intros Hnd. simpl. unfold Authoring.toggleQuestionSelection.
  destruct (existsb _ prev) eqn:Hex.
  - apply existsb_p_id in Hex.
    assert (Hnot : Authoring.p_id q
                   ∉ map Authoring.p_id
                       (filter (fun x => Authoring.p_id x <> Authoring.p_id q) prev)).
    { rewrite map_is_fmap, list_elem_of_fmap.
      intros (x & Heq & [Hx _]%list_elem_of_filter). done. }
    split_and!.
    + rewrite map_is_fmap in *. clear Hex Hnot.
      induction prev as [|x prev IH]; [done|].
      rewrite fmap_cons in Hnd.
      apply NoDup_cons in Hnd as [Hx Hnd]. rewrite filter_cons.
      case_decide; [|by apply IH]. rewrite fmap_cons. apply NoDup_cons.
      split; [|by apply IH].
      intros (y & Hy & [_ Hin]%list_elem_of_filter)%list_elem_of_fmap.
      apply Hx. apply list_elem_of_fmap. eauto.
    + tauto.
    + intros x Hx. rewrite list_elem_of_filter. tauto.
    + done.
  - assert (Hnot : Authoring.p_id q ∉ map Authoring.p_id prev).
    { intros Hin%existsb_p_id. congruence. }
    split_and!.
    + rewrite map_is_fmap in *. rewrite fmap_app. apply NoDup_app.
      split_and!; [done| |apply NoDup_singleton].
      intros k Hk Hin. apply list_elem_of_singleton in Hin. subst k. done.
    + rewrite map_is_fmap, fmap_app, elem_of_app. simpl. set_solver.
    + intros x Hx. rewrite elem_of_app, list_elem_of_singleton.
      split; [intros [?| ->]; done|tauto].
    + intros _.
      assert (Hex' : existsb (fun x => String.eqb (Authoring.p_id x) (Authoring.p_id q))
                             (prev ++ [q]) = true).
      { rewrite existsb_app. simpl. by rewrite String.eqb_refl, orb_true_r. }
      rewrite Hex'. rewrite filter_app, filter_cons_False, filter_nil, app_nil_r
        by (intros H; by apply H).
      clear Hex Hex' Hnd. induction prev as [|x prev IH]; [done|].
      rewrite map_is_fmap, fmap_cons, not_elem_of_cons in Hnot.
      destruct Hnot as [Hx Hnot].
      rewrite filter_cons_True by done. f_equal. by apply IH.
Qed.

Lemma toggleQuestionSelection_flips_one_witness :
  let q1 := Authoring.mkPoolQuestion "q1" "Capital of France?" ["Rome"; "Paris"] 1 None in
  let q2 := Authoring.mkPoolQuestion "q2" "Capital of Italy?" ["Rome"; "Paris"] 0
                                     (Some 3) in
  let prev := [q1] in
  NoDup (map Authoring.p_id prev)
  /\ (let next := Authoring.toggleQuestionSelection q2 prev in
      NoDup (map Authoring.p_id next)
      /\ (Authoring.p_id q2 ∈ map Authoring.p_id next
          <-> Authoring.p_id q2 ∉ map Authoring.p_id prev)
      /\ (forall x, Authoring.p_id x <> Authoring.p_id q2 -> x ∈ next <-> x ∈ prev)
      /\ (Authoring.p_id q2 ∉ map Authoring.p_id prev ->
          Authoring.toggleQuestionSelection q2 next = prev)).
Proof.
  intros q1 q2 prev.
  assert (H : NoDup (map Authoring.p_id prev)) by apply NoDup_singleton.
  split; [exact H|]. exact (toggleQuestionSelection_flips_one q2 prev H).
Defined.

Lemma fold_bump_other (selected : list Authoring.PoolQuestion) :
  forall (pool : gmap string Authoring.PoolQuestion) (k : string),
    k ∉ map Authoring.p_id selected ->
    foldl (fun p q => Authoring.bump q p) pool selected !! k = pool !! k.
Proof.
  induction selected as [|q sel IH]; intros pool k Hk; [done|]. simpl.
  rewrite map_is_fmap, fmap_cons, not_elem_of_cons in Hk. destruct Hk as [Hq Hk].
  rewrite IH by done. unfold Authoring.bump. by rewrite lookup_alter_ne.
Qed.

Lemma fold_bump_selected (selected : list Authoring.PoolQuestion) :
  forall (pool : gmap string Authoring.PoolQuestion)
         (q doc : Authoring.PoolQuestion),
    NoDup (map Authoring.p_id selected) ->
    q ∈ selected ->
    pool !! Authoring.p_id q = Some doc ->
    foldl (fun p q => Authoring.bump q p) pool selected !! Authoring.p_id q
    = Some (Authoring.mkPoolQuestion
              (Authoring.p_id doc) (Authoring.questionText doc)
              (Authoring.p_options doc) (Authoring.p_correctAnswer doc)
              (Some (default 0 (Authoring.timesUsed q) + 1))).
Proof.
  induction selected as [|q0 sel IH]; intros pool q doc Hnd Hq Hdoc.
  - by apply elem_of_nil in Hq.
  - rewrite map_is_fmap, fmap_cons in Hnd. apply NoDup_cons in Hnd as [Hq0 Hnd].
    simpl. apply elem_of_cons in Hq as [-> |Hq].
    + rewrite fold_bump_other by done.
      unfold Authoring.bump. rewrite lookup_alter_eq, Hdoc. simpl.
      by destruct (Authoring.timesUsed q0).
    + apply IH; [done|done|].
      unfold Authoring.bump. rewrite lookup_alter_ne; [done|].
      intros Heq. apply Hq0. rewrite Heq. apply list_elem_of_fmap. eauto.
Qed.

(** X13.  [handleImportQuestions] appends one question per selected pool
    question, in the order of the selection, each worth one point, and
    leaves the questions of the form as they were; the selection is
    cleared.  In the pool every selected document has its [timesUsed]
    set to one more than the number on the selected copy, zero when the
    copy has none; its other fields and all other documents stay, and no
    document is created. *)
Theorem import_appends_the_selection
        (selected : list Authoring.PoolQuestion) (d : CreateExam.ExamData)
        (pool : gmap string Authoring.PoolQuestion) :
  NoDup (map Authoring.p_id selected) ->
  let '(d', selected', pool') := Authoring.handleImportQuestions selected d pool in
  selected' = []
  /\ length (CreateExam.f_questions d')
     = (length (CreateExam.f_questions d) + length selected)%nat
  /\ (forall i q, CreateExam.f_questions d !! i = Some q ->
                  CreateExam.f_questions d' !! i = Some q)
  /\ (forall j q, selected !! j = Some q ->
        CreateExam.f_questions d' !! (length (CreateExam.f_questions d) + j)%nat
        = Some (CreateExam.mkFormQuestion (Authoring.questionText q)
                                          (Authoring.p_options q)
                                          (Authoring.p_correctAnswer q) 1))
  /\ (forall q doc, q ∈ selected -> pool !! Authoring.p_id q = Some doc ->
        pool' !! Authoring.p_id q
        = Some (Authoring.mkPoolQuestion
                  (Authoring.p_id doc) (Authoring.questionText doc)
                  (Authoring.p_options doc) (Authoring.p_correctAnswer doc)
                  (Some (default 0 (Authoring.timesUsed q) + 1))))
  /\ (forall k, k ∉ map Authoring.p_id selected -> pool' !! k = pool !! k)
  /\ (forall k, pool !! k = None -> pool' !! k = None).
Proof.
  intros Hnd. simpl. split_and!.
  - done.
  - by rewrite length_app, List.length_map.
  - intros i q Hq. by apply lookup_app_l_Some.
  - intros j q Hq. rewrite lookup_app_r by lia.
    replace (length (CreateExam.f_questions d) + j - length (CreateExam.f_questions d))%nat
      with j by lia.
    rewrite map_is_fmap, list_lookup_fmap, Hq. done.
  - intros q doc Hq Hdoc. by apply fold_bump_selected.
  - intros k Hk. by apply fold_bump_other.
  - intros k Hk. clear Hnd. revert pool Hk.
    induction selected as [|q sel IH]; intros pool Hk; [done|]. simpl.
    apply IH. unfold Authoring.bump.
    destruct (decide (Authoring.p_id q = k)) as [<- |Hne].
    + by rewrite lookup_alter_eq, Hk.
    + by rewrite lookup_alter_ne.
Qed.

Lemma import_appends_the_selection_witness :
  let q1 := Authoring.mkPoolQuestion "q1" "Capital of France?" ["Rome"; "Paris"] 1 None in
  let q2 := Authoring.mkPoolQuestion "q2" "Capital of Italy?" ["Rome"; "Paris"] 0
                                     (Some 3) in
  let selected := [q1; q2] in
  let pool : gmap string Authoring.PoolQuestion := {[ "q1" := q1; "q2" := q2 ]} in
  NoDup (map Authoring.p_id selected)
  /\ (let '(d', selected', pool') :=
         Authoring.handleImportQuestions selected form_filled pool in
      selected' = []
      /\ length (CreateExam.f_questions d')
         = (length (CreateExam.f_questions form_filled) + length selected)%nat
      /\ (forall i q, CreateExam.f_questions form_filled !! i = Some q ->
                      CreateExam.f_questions d' !! i = Some q)
      /\ (forall j q, selected !! j = Some q ->
            CreateExam.f_questions d'
              !! (length (CreateExam.f_questions form_filled) + j)%nat
            = Some (CreateExam.mkFormQuestion (Authoring.questionText q)
                                              (Authoring.p_options q)
                                              (Authoring.p_correctAnswer q) 1))
      /\ (forall q doc, q ∈ selected -> pool !! Authoring.p_id q = Some doc ->
            pool' !! Authoring.p_id q
            = Some (Authoring.mkPoolQuestion
                      (Authoring.p_id doc) (Authoring.questionText doc)
                      (Authoring.p_options doc) (Authoring.p_correctAnswer doc)
                      (Some (default 0 (Authoring.timesUsed q) + 1))))
      /\ (forall k, k ∉ map Authoring.p_id selected -> pool' !! k = pool !! k)
      /\ (forall k, pool !! k = None -> pool' !! k = None)).
Proof.
  intros q1 q2 selected pool.
  assert (H : NoDup (map Authoring.p_id selected)).
  { unfold selected. simpl. apply NoDup_cons. split; [|apply NoDup_singleton].
    intros Hin%list_elem_of_singleton. discriminate. }
  split; [exact H|]. exact (import_appends_the_selection selected form_filled pool H).
Defined.


(** ** Grades and the final score *)

Lemma totals_from (grades : gmap nat float) (l : list ViewSubmissions.GradedQuestion) :
  Forall (fun q => ViewSubmissions.qtype q = "objective"
                   \/ ViewSubmissions.qtype q = "subjective") l ->
  forall (i : nat) (a b : float),
    JS.forEach (fun (acc : float * float) q index =>
                  if String.eqb (ViewSubmissions.qtype q) "objective"
                  then (PrimFloat.add (fst acc) (ViewSubmissions.score q),
                        PrimFloat.add (snd acc) (ViewSubmissions.maxPoints q))
                  else (PrimFloat.add (fst acc)
                                      (ViewSubmissions.grade_or_zero grades index),
                        PrimFloat.add (snd acc) (ViewSubmissions.maxPoints q)))
               l i (a, b)
    = (foldl (fun acc q => PrimFloat.add acc (ViewSubmissions.score q)) a
             (imap (fun index q =>
                      ViewSubmissions.mkGraded
                        (ViewSubmissions.qtype q)
                        (if String.eqb (ViewSubmissions.qtype q) "subjective"
                         then ViewSubmissions.grade_or_zero grades (i + index)
                         else ViewSubmissions.score q)
                        (ViewSubmissions.maxPoints q)
                        (ViewSubmissions.questionIndex q)) l),
       foldl (fun acc q => PrimFloat.add acc (ViewSubmissions.maxPoints q)) b
             (imap (fun index q =>
                      ViewSubmissions.mkGraded
                        (ViewSubmissions.qtype q)
                        (if String.eqb (ViewSubmissions.qtype q) "subjective"
                         then ViewSubmissions.grade_or_zero grades (i + index)
                         else ViewSubmissions.score q)
                        (ViewSubmissions.maxPoints q)
                        (ViewSubmissions.questionIndex q)) l)).
Proof.
  induction 1 as [|q l Hq _ IH]; intros i a b; [done|].
  rewrite imap_cons.
  assert (Himap : forall l',
    imap (fun index q0 =>
            ViewSubmissions.mkGraded
              (ViewSubmissions.qtype q0)
              (if String.eqb (ViewSubmissions.qtype q0) "subjective"
               then ViewSubmissions.grade_or_zero grades (S i + index)
               else ViewSubmissions.score q0)
              (ViewSubmissions.maxPoints q0)
              (ViewSubmissions.questionIndex q0)) l'
    = imap ((fun index q0 =>
            ViewSubmissions.mkGraded
              (ViewSubmissions.qtype q0)
              (if String.eqb (ViewSubmissions.qtype q0) "subjective"
               then ViewSubmissions.grade_or_zero grades (i + index)
               else ViewSubmissions.score q0)
              (ViewSubmissions.maxPoints q0)
              (ViewSubmissions.questionIndex q0)) ∘ S) l').
  { intros l'. apply imap_ext. intros k x _. simpl.
    by replace (i + S k)%nat with (S (i + k)) by lia. }
  rewrite <- Himap. simpl JS.forEach.
  destruct Hq as [Ht | Ht]; rewrite Ht; simpl; rewrite IH, ?Nat.add_0_r;
    reflexivity.
Qed.

(** X14.  When every question of the submission is of type "objective"
    or "subjective", the final score that [handleSubmitGrades] stores is
    the one of the per-question scores it stores beside it: the rounded
    percentage of their sum in the sum of the maximal points, added in
    the order of the questions, and [0] when that sum is not positive. *)
Theorem final_score_is_that_of_the_stored_scores
        (selectedSubmission : ViewSubmissions.Submission)
        (subjectiveGrades : gmap nat float) :
  Forall (fun q => ViewSubmissions.qtype q = "objective"
                   \/ ViewSubmissions.qtype q = "subjective")
         (ViewSubmissions.gradedQuestions selectedSubmission) ->
  let u := ViewSubmissions.handleSubmitGrades selectedSubmission subjectiveGrades in
  let totalScore :=
    foldl (fun acc q => PrimFloat.add acc (ViewSubmissions.score q)) PrimFloat.zero
          (ViewSubmissions.upd_gradedQuestions u) in
  let totalPoints :=
    foldl (fun acc q => PrimFloat.add acc (ViewSubmissions.maxPoints q)) PrimFloat.zero
          (ViewSubmissions.upd_gradedQuestions u) in
  ViewSubmissions.upd_finalScore u
  = (if PrimFloat.ltb PrimFloat.zero totalPoints
     then JS.percent totalScore totalPoints
     else JS.RInt 0)
  /\ length (ViewSubmissions.upd_gradedQuestions u)
     = length (ViewSubmissions.gradedQuestions selectedSubmission).
Proof.
  intros Hall. simpl. split; [|by rewrite length_imap].
  unfold ViewSubmissions.calculateFinalScore, ViewSubmissions.totals.
  rewrite (totals_from subjectiveGrades _ Hall 0 PrimFloat.zero PrimFloat.zero).
  done.
Qed.

Lemma final_score_is_that_of_the_stored_scores_witness :
  let grades : gmap nat float := {[ 0%nat := JS.of_Z 3 ]} in
  Forall (fun q => ViewSubmissions.qtype q = "objective"
                   \/ ViewSubmissions.qtype q = "subjective")
         (ViewSubmissions.gradedQuestions review1)
  /\ (let u := ViewSubmissions.handleSubmitGrades review1 grades in
      let totalScore :=
        foldl (fun acc q => PrimFloat.add acc (ViewSubmissions.score q)) PrimFloat.zero
              (ViewSubmissions.upd_gradedQuestions u) in
      let totalPoints :=
        foldl (fun acc q => PrimFloat.add acc (ViewSubmissions.maxPoints q))
              PrimFloat.zero (ViewSubmissions.upd_gradedQuestions u) in
      ViewSubmissions.upd_finalScore u
      = (if PrimFloat.ltb PrimFloat.zero totalPoints
         then JS.percent totalScore totalPoints
         else JS.RInt 0)
      /\ length (ViewSubmissions.upd_gradedQuestions u)
         = length (ViewSubmissions.gradedQuestions review1)).
Proof.
  intros grades.
  assert (H : Forall (fun q => ViewSubmissions.qtype q = "objective"
                               \/ ViewSubmissions.qtype q = "subjective")
                     (ViewSubmissions.gradedQuestions review1)).
  { constructor; [right; reflexivity | constructor]. }
  split; [exact H|].
  exact (final_score_is_that_of_the_stored_scores review1 grades H).
Defined.

(** ** The list of submissions *)

(** X15.  The filter "passed" of the teacher's list and the pass rate of
    its statistics call the same submissions passed exactly when the
    exam has a passing score other than zero: the filter compares with
    the field itself, the statistics with [passingScore || 60]. *)
Theorem filter_agrees_with_pass_rate (g : Review.ExamGroup) :
  (forall sub, Review.passes_filter g sub = Review.passes_stats g sub)
  <-> exists p, Review.g_passingScore g = Some p /\ p <> 0.
Proof.
  unfold Review.passes_filter, Review.passes_stats, Results.passing_or_default.
  split.
  - intros H. destruct (Review.g_passingScore g) as [p|].
    + exists p. split; [done|]. intros ->.
      specialize (H (Review.mkSub EmptyString (JS.RInt 0) false EmptyString)).
      simpl in H. done.
    + specialize (H (Review.mkSub EmptyString (JS.RInt 60) false EmptyString)).
      simpl in H. done.
  - intros (p & -> & Hp) sub.
    destruct (Z.eqb_spec p 0); done.
Qed.


(** ** The counter of pending reviews *)







(** ** Which documents an attempt writes *)

Lemma V2_attributed_with_st (e : Exam) (uid examId : string) (n : nat)
      (d0 : Store V2.Submission) (f : V2.State -> V2.State) (w : V2.World) :
  (forall s, V2_of_attempt e n s -> V2_of_attempt e n (f s)) ->
  V2_world_attributed e uid examId n d0 w ->
  V2_world_attributed e uid examId n d0 (V2.with_st f w).
Proof.
  intros Hf (Hs & Ht & Hi & Hp & Hd). unfold V2_world_attributed. simpl. auto.
Qed.

Lemma V2_attributed_commit (e : Exam) (uid examId : string) (n : nat)
      (d0 : Store V2.Submission) (old : V2.State) (w : V2.World) :
  V2_world_attributed e uid examId n d0 w ->
  V2_world_attributed e uid examId n d0 (V2.commit old w).
Proof.
  intros (Hs & Ht & Hi & Hp & Hd). unfold V2.commit.
  destruct (bool_decide _); [done|].
  unfold V2_world_attributed. simpl. split_and!; try done.
  intros c. unfold V2.timer_effect. destruct (_ || _); [done|]. by intros [= <-].
Qed.

Lemma V2_attributed_handleSubmit (e : Exam) (uid examId : string) (n : nat)
      (d0 : Store V2.Submission) (t : Trigger) (c : V2.State) (w : V2.World) :
  V2_of_attempt e n c ->
  V2_world_attributed e uid examId n d0 w ->
  V2_world_attributed e uid examId n d0 (V2.handleSubmit uid examId t c w).
Proof.
  intros [Hce Hcn] (Hs & Ht & Hi & Hp & Hd). unfold V2.handleSubmit.
  destruct (V2.submissionData uid examId c) as [d|] eqn:Hsd; [|done].
  unfold V2.submissionData in Hsd. rewrite Hce in Hsd.
  destruct (V2.finalScore _ _); [|done]. injection Hsd as <-.
  unfold V2_world_attributed. simpl. split_and!; try done.
  - intros t' d' Hin. apply elem_of_cons in Hin as [[= -> ->] | Hin]; [|eauto].
    by unfold V2_attributed.
  - intros d' Hin. apply elem_of_app in Hin as [Hin | Hin].
    + destruct (Hp d' Hin) as [t' Ht']. exists t'. by apply elem_of_cons; right.
    + apply list_elem_of_singleton in Hin. subst d'. exists t. by apply elem_of_cons; left.
  - intros k x Hk. destruct (Hd k x Hk) as [?|[t' Ht']]; [by left|right].
    exists t'. by apply elem_of_cons; right.
Qed.

Lemma V2_attributed_tick (e : Exam) (uid examId : string) (n : nat)
      (d0 : Store V2.Submission) (c : V2.State) (w : V2.World) :
  V2_of_attempt e n c ->
  V2_world_attributed e uid examId n d0 w ->
  V2_world_attributed e uid examId n d0 (V2.tick uid examId c w).
Proof.
  intros Hc Hw. unfold V2.tick.
  destruct (_ <=? 1).
  - apply V2_attributed_with_st; [done|].
    unfold V2.handleTimeUp. apply V2_attributed_handleSubmit; [done|].
    apply V2_attributed_with_st; [done|].
    destruct Hw as (Hs & Ht & Hi & Hp & Hd).
    unfold V2_world_attributed. simpl. split_and!; done.
  - by apply V2_attributed_with_st.
Qed.

Lemma V2_attributed_settle (e : Exam) (uid examId : string) (n : nat)
      (d0 : Store V2.Submission) (ok : bool) (w : V2.World) :
  V2_world_attributed e uid examId n d0 w ->
  V2_world_attributed e uid examId n d0 (V2.settle ok w).
Proof.
  intros Hw. unfold V2.settle.
  destruct (V2.pending w) as [|p rest] eqn:Hpend; [done|].
  destruct Hw as (Hs & Ht & Hi & Hp & Hd). rewrite Hpend in Hp.
  assert (Hrest : forall d, d ∈ rest -> exists t, (t, d) ∈ V2.issued w).
  { intros d Hin. apply Hp. by apply elem_of_cons; right. }
  destruct ok; unfold V2_world_attributed; simpl; split_and!; try done.
  intros k x. destruct (decide (k = inr (next_auto (V2.db w)))) as [-> | Hne].
  - rewrite lookup_insert_eq. intros [= <-]. right. apply Hp. by apply elem_of_cons; left.
  - rewrite lookup_insert_ne by done. apply Hd.
Qed.

Lemma V2_attributed_step (e : Exam) (uid examId : string) (n : nat)
      (d0 : Store V2.Submission) (w : V2.World) (ev : Event) :
  V2_world_attributed e uid examId n d0 w ->
  V2_world_attributed e uid examId n d0 (V2.step uid examId w ev).
Proof.
  intros Hw.
  destruct ev as [| qi ai | index | | | ok]; simpl.
  - destruct (negb (V2.mounted w)); [done|].
    destruct (V2.timer w) as [c|] eqn:Hc; [|done].
    apply V2_attributed_commit, V2_attributed_tick; [|done].
    destruct Hw as (_ & Ht & _). by apply Ht.
  - destruct (negb (V2.mounted w)); [done|].
    apply V2_attributed_commit, V2_attributed_with_st; [|done].
    intros s Hs. unfold V2.handleAnswer. by destruct (_ !! _).
  - destruct (negb (V2.mounted w)); [done|].
    destruct (_ <? _)%nat; [|done].
    by apply V2_attributed_commit, V2_attributed_with_st.
  - destruct (negb (V2.mounted w)); [done|].
    destruct (_ && _); [|done].
    by apply V2_attributed_commit, V2_attributed_with_st.
  - destruct (negb (V2.mounted w)); [done|].
    destruct (_ && _); [|done].
    apply V2_attributed_commit, V2_attributed_handleSubmit; [|done].
    by destruct Hw.
  - by apply V2_attributed_commit, V2_attributed_settle.
Qed.

(** X17.  Second revision: every submission an attempt issues names the
    exam of the page, the signed-in student, the teacher who created the
    exam, and as its attempt number one more than the number of
    submissions the student had for the exam when the page loaded.
    Every document in the collection afterwards was there before or is
    one of these. *)
Theorem V2_submissions_are_attributed
        (exams : gmap string Exam) (d0 : Store V2.Submission) (uid examId : string)
        (perm : list nat) (evs : list Event) (e : Exam) (w : V2.World) :
  exams !! examId = Some e ->
  V2.attempt exams d0 uid examId perm evs = Some w ->
  (forall t d, (t, d) ∈ V2.issued w ->
     V2.sub_examId d = examId
     /\ V2.sub_studentId d = uid
     /\ V2.sub_teacherId d = createdBy e
     /\ V2.sub_attemptNumber d = (V2.attempts d0 examId uid + 1)%nat)
  /\ (forall k x, docs (V2.db w) !! k = Some x ->
        docs d0 !! k = Some x \/ exists t, (t, x) ∈ V2.issued w).
Proof.
  intros He Hatt. unfold V2.attempt in Hatt.
  destruct (V2.fetchExam exams d0 examId uid perm) as [|s] eqn:Hf; [done|].
  injection Hatt as <-.
  assert (Hs : V2_of_attempt e (V2.attempts d0 examId uid + 1) s).
  { unfold V2.fetchExam in Hf. rewrite He in Hf.
    destruct (negb (isPublished e)); [done|].
    destruct (_ && _); [done|].
    destruct (V2.order_of e perm). by injection Hf as <-. }
  assert (H0 : V2_world_attributed e uid examId (V2.attempts d0 examId uid + 1) d0
                                   (V2.mount s d0)).
  { unfold V2_world_attributed, V2.mount. simpl. split_and!; try done.
    - intros c. unfold V2.timer_effect. destruct (_ || _); [done|]. by intros [= <-].
    - intros t d Hin. by apply elem_of_nil in Hin.
    - intros d Hin. by apply elem_of_nil in Hin.
    - intros k x Hk. by left. }
  assert (Hrun : forall evs w0,
             V2_world_attributed e uid examId (V2.attempts d0 examId uid + 1) d0 w0 ->
             V2_world_attributed e uid examId (V2.attempts d0 examId uid + 1) d0
                                 (V2.run uid examId w0 evs)).
  { clear. unfold V2.run. induction evs as [|ev evs IH]; intros w0 Hw0; simpl; [done|].
    by apply IH, V2_attributed_step. }
  destruct (Hrun evs _ H0) as (_ & _ & Hi & _ & Hd).
  split; [|done]. intros t d Hin. by apply (Hi t d).
Qed.

Lemma V2_submissions_are_attributed_witness :
  one_exam exam_23_17 !! "exam1" = Some exam_23_17
  /\ exists w,
      V2.attempt (one_exam exam_23_17) V2_after_first "student1" "exam1" []
                 [EvAnswer 0 0; EvGoTo 1; EvRequestSubmit; EvConfirm; EvWriteDone true]
      = Some w
      /\ V2.issued w <> []
      /\ (forall t d, (t, d) ∈ V2.issued w ->
            V2.sub_examId d = "exam1"
            /\ V2.sub_studentId d = "student1"
            /\ V2.sub_teacherId d = createdBy exam_23_17
            /\ V2.sub_attemptNumber d
               = (V2.attempts V2_after_first "exam1" "student1" + 1)%nat)
      /\ (forall k x, docs (V2.db w) !! k = Some x ->
            docs V2_after_first !! k = Some x \/ exists t, (t, x) ∈ V2.issued w).
Proof.
  assert (He : one_exam exam_23_17 !! "exam1" = Some exam_23_17) by reflexivity.
  split; [exact He|].
  eexists. split; [reflexivity|]. split; [vm_compute; discriminate|].
  exact (V2_submissions_are_attributed
           (one_exam exam_23_17) V2_after_first "student1" "exam1" []
           [EvAnswer 0 0; EvGoTo 1; EvRequestSubmit; EvConfirm; EvWriteDone true]
           exam_23_17 _ He eq_refl).
Defined.

Lemma V1_step_db (uid examId : string) (w : V1.World) (ev : Event) :
  V1.db (V1.step uid examId w ev) = V1.db w
  \/ exists d, V1.db (V1.step uid examId w ev)
               = setDoc (uid +:+ "_" +:+ examId) d (V1.db w).
Proof.
  destruct ev; simpl;
    unfold V1.commit, V1.tick, V1.handleTimeUp, V1.handleSubmit, V1.settle, V1.with_st;
    repeat case_match; simpl; eauto.
Qed.

(** X18.  First revision: an attempt writes to no document but the one
    named after the student and the exam.  Whatever happens, every
    other document of the collection of submissions is afterwards as it
    was, and no document gets an automatic id. *)
Theorem V1_attempt_writes_one_document_only
        (uid examId : string) (evs : list Event) (w : V1.World) :
  (forall k, k <> inl (uid +:+ "_" +:+ examId) ->
             docs (V1.db (V1.run uid examId w evs)) !! k = docs (V1.db w) !! k)
  /\ next_auto (V1.db (V1.run uid examId w evs)) = next_auto (V1.db w).
Proof.
  unfold V1.run. revert w. induction evs as [|ev evs IH]; intros w; simpl; [done|].
  destruct (IH (V1.step uid examId w ev)) as [IH1 IH2].
  destruct (V1_step_db uid examId w ev) as [Heq | [d Heq]].
  - rewrite Heq in IH1, IH2. done.
  - rewrite Heq in IH1, IH2. split; [|done].
    intros k Hk. rewrite IH1 by done. simpl. by rewrite lookup_insert_ne.
Qed.

(** ** Scoring, shuffling, loading and the timer, for every input *)

(** X19.  The loops of [handleSubmit] add up, in both revisions, the
    points of exactly the questions whose recorded answer is the correct
    one, and the points of all questions; the second revision does so
    for every array of answers that has one entry per question and no
    hole. *)
Theorem tally_adds_the_points_of_right_answers
        (qs : list Question) (a1 : gmap Z Z) (a2 : list (option Z)) :
  Forall (fun x => is_Some x) a2 ->
  length a2 = length qs ->
  V1.tally qs a1
  = (Spec.earnedPoints (fun j => a1 !! Z.of_nat j) qs, Spec.totalPoints_of qs)
  /\ V2.tally qs a2
     = Some (Spec.earnedPoints (fun j => mjoin (a2 !! j)) qs, Spec.totalPoints_of qs).
Proof.
  intros Hall Hlen. split; [apply V1_tally_refines|by apply V2_tally_refines].
Qed.

Lemma tally_adds_the_points_of_right_answers_witness :
  let qs := questions exam_23_17 in
  let a1 : gmap Z Z := {[ 0 := 0 ]} in
  let a2 := [Some 0; Some (-1)] in
  Forall (fun x => is_Some x) a2
  /\ length a2 = length qs
  /\ V1.tally qs a1
     = (Spec.earnedPoints (fun j => a1 !! Z.of_nat j) qs, Spec.totalPoints_of qs)
  /\ V2.tally qs a2
     = Some (Spec.earnedPoints (fun j => mjoin (a2 !! j)) qs, Spec.totalPoints_of qs).
Proof.
  intros qs a1 a2.
  assert (H1 : Forall (fun x => is_Some x) a2).
  { subst a2. repeat (constructor; [eexists; reflexivity|]). constructor. }
  assert (H2 : length a2 = length qs) by reflexivity.
  split; [exact H1|]. split; [exact H2|].
  exact (tally_adds_the_points_of_right_answers qs a1 a2 H1 H2).
Defined.

(** X20.  Second revision, shuffled exam: under every permutation the
    question shown at a position is the original question that the order
    table names there, and an answer clicked at the position is recorded
    under the original index and changes no other entry. *)
Theorem V2_click_lands_on_the_shown_question
        (exams : gmap string Exam) (d : Store V2.Submission) (examId uid : string)
        (perm : list nat) (e : Exam) (s : V2.State) :
  exams !! examId = Some e ->
  shuffleQuestions e = true ->
  perm ≡ₚ seq 0 (length (questions e)) ->
  V2.fetchExam exams d examId uid perm = V2.Loaded s ->
  forall (p i : nat) (k : Z),
    perm !! p = Some i ->
    V2.questionOrder s !! p = Some i
    /\ is_Some (questions e !! i)
    /\ V2.shuffledQuestions s !! p = questions e !! i
    /\ V2.answers (V2.handleAnswer p k s) !! i = Some (Some k)
    /\ forall j, j <> i ->
                 V2.answers (V2.handleAnswer p k s) !! j = V2.answers s !! j.
Proof. apply V2_answer_recorded_under_original. Qed.

Lemma V2_click_lands_on_the_shown_question_witness :
  let exams := one_exam exam_same_text in
  let perm := [1; 0]%nat in
  exams !! "exam1" = Some exam_same_text
  /\ shuffleQuestions exam_same_text = true
  /\ perm ≡ₚ seq 0 (length (questions exam_same_text))
  /\ exists s,
      V2.fetchExam exams empty_store "exam1" "student1" perm = V2.Loaded s
      /\ forall (p i : nat) (k : Z),
          perm !! p = Some i ->
          V2.questionOrder s !! p = Some i
          /\ is_Some (questions exam_same_text !! i)
          /\ V2.shuffledQuestions s !! p = questions exam_same_text !! i
          /\ V2.answers (V2.handleAnswer p k s) !! i = Some (Some k)
          /\ forall j, j <> i ->
                       V2.answers (V2.handleAnswer p k s) !! j = V2.answers s !! j.
Proof.
  intros exams perm.
  assert (He : exams !! "exam1" = Some exam_same_text) by reflexivity.
  assert (Hs : shuffleQuestions exam_same_text = true) by reflexivity.
  assert (Hp : perm ≡ₚ seq 0 (length (questions exam_same_text))).
  { exact (perm_swap 0%nat 1%nat []). }
  split; [exact He|]. split; [exact Hs|]. split; [exact Hp|].
  eexists. split; [reflexivity|].
  exact (V2_click_lands_on_the_shown_question
           exams empty_store "exam1" "student1" perm exam_same_text _
           He Hs Hp eq_refl).
Defined.

(** X21.  First revision, shuffled exam whose questions have pairwise
    different texts: the order table, which is found by looking up the
    text, names the original index of the question shown at a position,
    and an answer clicked there is recorded under that index. *)
Theorem V1_click_lands_on_the_shown_question
        (exams : gmap string Exam) (examId : string)
        (perm : list nat) (e : Exam) (s : V1.State) :
  exams !! examId = Some e ->
  shuffleQuestions e = true ->
  NoDup (map question (questions e)) ->
  perm ≡ₚ seq 0 (length (questions e)) ->
  V1.fetchExam exams examId perm = V1.Loaded s ->
  forall (p i : nat) (k : Z),
    perm !! p = Some i ->
    V1.shuffledQuestions s !! p = questions e !! i
    /\ V1.originalIndex <$> V1.questionOrder s !! p = Some (Z.of_nat i)
    /\ V1.answers (V1.handleAnswer p k s) = <[Z.of_nat i := k]> (V1.answers s).
Proof. apply V1_answer_recorded_under_original. Qed.

Lemma V1_click_lands_on_the_shown_question_witness :
  let e := mkExam "Quiz" 1 (Some 60) true true true
                  [mkQuestion "First" two_options 0 23;
                   mkQuestion "Second" two_options 1 17] 40 "teacher1" in
  let perm := [1; 0]%nat in
  one_exam e !! "exam1" = Some e
  /\ shuffleQuestions e = true
  /\ NoDup (map question (questions e))
  /\ perm ≡ₚ seq 0 (length (questions e))
  /\ exists s,
      V1.fetchExam (one_exam e) "exam1" perm = V1.Loaded s
      /\ forall (p i : nat) (k : Z),
          perm !! p = Some i ->
          V1.shuffledQuestions s !! p = questions e !! i
          /\ V1.originalIndex <$> V1.questionOrder s !! p = Some (Z.of_nat i)
          /\ V1.answers (V1.handleAnswer p k s) = <[Z.of_nat i := k]> (V1.answers s).
Proof.
  intros e perm.
  assert (He : one_exam e !! "exam1" = Some e) by reflexivity.
  assert (Hs : shuffleQuestions e = true) by reflexivity.
  assert (Hnd : NoDup (map question (questions e))).
  { unfold e. simpl. apply NoDup_cons. split; [|apply NoDup_singleton].
    intros H%list_elem_of_singleton. discriminate. }
  assert (Hp : perm ≡ₚ seq 0 (length (questions e))).
  { exact (perm_swap 0%nat 1%nat []). }
  split; [exact He|]. split; [exact Hs|]. split; [exact Hnd|]. split; [exact Hp|].
  eexists. split; [reflexivity|].
  exact (V1_click_lands_on_the_shown_question
           (one_exam e) "exam1" perm e _ He Hs Hnd Hp eq_refl).
Defined.

(** X22.  Second revision: shuffling only relabels.  The answers after
    any clicks on the shuffled presentation are the answers after the
    same choices on the unshuffled one, each click moved from its
    position to the original index shown there. *)
Theorem V2_shuffle_only_relabels
        (perm : list nat) (n : nat) (clicks : list (nat * Z))
        (s_shuffled s_plain : V2.State) :
  Forall (fun i => (i < n)%nat) perm ->
  V2.questionOrder s_shuffled = perm ->
  V2.questionOrder s_plain = JS.keys n ->
  V2.answers s_shuffled = V2.answers s_plain ->
  V2.answers (V2.clicks s_shuffled clicks)
  = V2.answers (V2.clicks s_plain
                  (omap (fun c => (fun i => (i, c.2)) <$> perm !! c.1) clicks)).
Proof. intros Hall. by apply V2_shuffle_is_relabeling. Qed.

Lemma V2_shuffle_only_relabels_witness :
  let qs := questions exam_same_text in
  let s_shuffled := V2.mkState (Some exam_same_text) [Some (-1); Some (-1)] 0 60 [] []
                               [1; 0]%nat 1 false false (reverse qs) in
  let s_plain := V2.mkState (Some exam_same_text) [Some (-1); Some (-1)] 0 60 [] []
                            [0; 1]%nat 1 false false qs in
  let clicks := [(0%nat, 1); (1%nat, 0); (0%nat, 0)] in
  Forall (fun i => (i < 2)%nat) [1; 0]%nat
  /\ V2.questionOrder s_shuffled = [1; 0]%nat
  /\ V2.questionOrder s_plain = JS.keys 2
  /\ V2.answers s_shuffled = V2.answers s_plain
  /\ V2.answers (V2.clicks s_shuffled clicks)
     = V2.answers (V2.clicks s_plain
                     (omap (fun c => (fun i => (i, c.2)) <$> [1; 0]%nat !! c.1) clicks)).
Proof.
  intros qs s_shuffled s_plain clicks.
  assert (H : Forall (fun i => (i < 2)%nat) [1; 0]%nat).
  { repeat constructor. }
  split; [exact H|]. split; [reflexivity|]. split; [reflexivity|].
  split; [reflexivity|].
  exact (V2_shuffle_only_relabels [1; 0]%nat 2 clicks s_shuffled s_plain
                                  H eq_refl eq_refl eq_refl).
Defined.

(** X23.  Second revision: [fetchExam] sets the error "Failed to load
    exam" when the read of the exam throws, "Exam not found" for a
    missing document, "This exam is not available" for an unpublished
    exam, "Failed to load exam" again when the query for the earlier
    submissions of a published exam throws, and "You have already
    attempted this exam" when reattempts are off and the student has a
    submission for the exam; in the one remaining case it loads the exam
    and starts the clock at the time limit in seconds. *)
Theorem V2_fetchExam_fails_or_loads
        (getDoc_ok getDocs_ok : bool)
        (exams : gmap string Exam) (d : Store V2.Submission)
        (examId uid : string) (perm : list nat) :
  let prior := exists k sub, docs d !! k = Some sub
                             /\ V2.sub_examId sub = examId
                             /\ V2.sub_studentId sub = uid in
  let result := V2.fetchExam_caught getDoc_ok getDocs_ok exams d examId uid perm in
  let fails_with msg := exists err, result = V2.Failed err /\ V2.message err = msg in
  (getDoc_ok = false -> fails_with "Failed to load exam")
  /\ (getDoc_ok = true -> exams !! examId = None -> fails_with "Exam not found")
  /\ (forall e, getDoc_ok = true -> exams !! examId = Some e ->
                isPublished e = false -> fails_with "This exam is not available")
  /\ (forall e, getDoc_ok = true -> exams !! examId = Some e ->
                isPublished e = true -> getDocs_ok = false ->
                fails_with "Failed to load exam")
  /\ (forall e, getDoc_ok = true -> exams !! examId = Some e ->
                isPublished e = true -> getDocs_ok = true ->
                allowReattempts e = false -> prior ->
                fails_with "You have already attempted this exam")
  /\ (forall e, getDoc_ok = true -> exams !! examId = Some e ->
                isPublished e = true -> getDocs_ok = true ->
                allowReattempts e = true \/ ~ prior ->
                exists s, result = V2.Loaded s
                          /\ V2.exam s = Some e
                          /\ V2.timeLeft s = timeLimit e * 60).
Proof.
  intros prior result fails_with. subst result fails_with. cbv beta.
  destruct (V2_fetchExam_cases exams d examId uid perm) as (_ & _ & H3 & H4).
  unfold V2.fetchExam_caught.
  split_and!.
  - intros ->. simpl. by exists V2.LoadFailed.
  - intros -> ->. simpl. by exists V2.NotFound.
  - intros e -> -> ->. simpl. by exists V2.NotPublished.
  - intros e -> -> -> ->. simpl. by exists V2.LoadFailed.
  - intros e -> He Hp -> Hr Hprior. rewrite He, Hp. simpl.
    rewrite (H3 e He Hp Hr Hprior). by exists V2.AlreadyAttempted.
  - intros e -> He Hp -> Hr. rewrite He, Hp. simpl. by apply H4.
Qed.

(** X24.  Second revision: whatever happens during an attempt, every
    document that was in the collection of submissions when it began is
    still there, unchanged, afterwards: [addDoc] only adds. *)
Theorem V2_attempt_touches_no_older_submission
        (uid examId : string) (evs : list Event)
        (w : V2.World) (k : string + nat) (x : V2.Submission) :
  store_wf (V2.db w) ->
  docs (V2.db w) !! k = Some x ->
  store_wf (V2.db (V2.run uid examId w evs))
  /\ docs (V2.db (V2.run uid examId w evs)) !! k = Some x.
Proof. apply V2_run_keeps_documents. Qed.

Lemma V2_attempt_touches_no_older_submission_witness :
  let x := V2.mkSubmission "exam1" "student1" "teacher1" [Some 1] (JS.RInt 0) 12
                           [] [] 1 in
  let s := V2.mkState (Some exam_once) [Some (-1)] 0 60 [] [] [0]%nat 2 false false
                      (questions exam_once) in
  let w := V2.mount s (addDoc x empty_store) in
  store_wf (V2.db w)
  /\ docs (V2.db w) !! inr 0%nat = Some x
  /\ store_wf (V2.db (V2.run "student1" "exam1" w answer_and_submit))
  /\ docs (V2.db (V2.run "student1" "exam1" w answer_and_submit)) !! inr 0%nat = Some x.
Proof.
  intros x s w.
  assert (Hwf : store_wf (V2.db w)).
  { apply addDoc_wf. intros n d H. done. }
  assert (Hx : docs (V2.db w) !! inr 0%nat = Some x) by reflexivity.
  split; [exact Hwf|]. split; [exact Hx|].
  exact (V2_attempt_touches_no_older_submission
           "student1" "exam1" answer_and_submit w (inr 0%nat) x Hwf Hx).
Defined.

(** X25.  First revision: no submission that the timer writes carries
    [isAutoSubmitted: true].  The interval calls the [handleTimeUp] of
    the render in which it was set up, where [timeLeft] was still
    positive. *)
Theorem V1_timer_never_flags_its_write
        (exams : gmap string Exam) (d0 : Store V1.Submission) (uid examId : string)
        (perm : list nat) (evs : list Event) (w : V1.World) (d : V1.Submission) :
  V1.attempt exams d0 uid examId perm evs = Some w ->
  (ByTimer, d) ∈ V1.issued w ->
  V1.sub_isAutoSubmitted d = false.
Proof. apply V1_attempt_timer_writes_are_not_flagged. Qed.

Lemma V1_timer_never_flags_its_write_witness :
  exists w d,
    V1.attempt (one_exam exam_once) empty_store "student1" "exam1" []
               let_time_run_out = Some w
    /\ (ByTimer, d) ∈ V1.issued w
    /\ V1.sub_isAutoSubmitted d = false.
Proof.
  assert (Hrun : exists w d,
             V1.attempt (one_exam exam_once) empty_store "student1" "exam1" []
                        let_time_run_out = Some w
             /\ (ByTimer, d) ∈ V1.issued w).
  { eexists _, _. split; [reflexivity|].
    apply list_elem_of_In. cbv. left. reflexivity. }
  destruct Hrun as (w & d & Hw & Hin).
  exists w, d. split; [exact Hw|]. split; [exact Hin|].
  exact (V1_timer_never_flags_its_write
           (one_exam exam_once) empty_store "student1" "exam1" [] let_time_run_out
           w d Hw Hin).
Defined.

(** ** Left alone, from the load on *)

Lemma V1_fetchExam_renders (exams : gmap string Exam) (examId : string)
      (perm : list nat) (e : Exam) :
  exams !! examId = Some e ->
  (shuffleQuestions e = true -> perm ≡ₚ seq 0 (length (questions e))) ->
  exists s, V1.fetchExam exams examId perm = V1.Loaded s
            /\ V1.exam s = Some e
            /\ V1.submitting s = false
            /\ V1.timeLeft s = Some (timeLimit e * 60)
            /\ V1.renders s = negb (bool_decide (questions e = [])).
Proof.
  intros He Hperm. unfold V1.fetchExam. rewrite He.
  destruct (V1.order_of e perm) as [shuffled order] eqn:Ho.
  eexists. split; [reflexivity|]. simpl. split_and!; try done.
  unfold V1.renders. simpl.
  unfold V1.order_of in Ho. destruct (shuffleQuestions e) eqn:Hsh.
  - injection Ho as <- <-. rewrite list_lookup_imap.
    specialize (Hperm eq_refl).
    destruct (questions e) as [|q qs] eqn:Hq.
    + simpl in Hperm. apply Permutation_nil_r in Hperm. subst perm. done.
    + destruct perm as [|i perm'].
      { simpl in Hperm. by apply Permutation_nil_cons in Hperm. }
      assert (Hin : Forall (fun i => (i < length (q :: qs))%nat) (i :: perm')).
      { by apply perm_in_range. }
      rewrite (shuffleArray_lookup (q :: qs) (i :: perm') Hin 0 i eq_refl).
      apply Forall_cons in Hin as [Hi _].
      by destruct (lookup_lt_is_Some_2 (q :: qs) i Hi) as [x ->].
  - injection Ho as <- <-. rewrite list_lookup_imap.
    by destruct (questions e) as [|q qs].
Qed.

(** X26.  First revision, nothing happening but the passing of time.
    For an exam with at least one question and a time limit above zero,
    once the seconds of the limit have passed exactly one write has been
    issued, by the timer, however long the page stays open.  For an exam
    without questions, whose page fails to render, and for a time limit
    of zero or less, for which no interval is set, time never issues a
    write. *)
Theorem V1_expiry_writes_exactly_once
        (exams : gmap string Exam) (d0 : Store V1.Submission) (uid examId : string)
        (perm : list nat) (e : Exam) :
  exams !! examId = Some e ->
  (shuffleQuestions e = true -> perm ≡ₚ seq 0 (length (questions e))) ->
  (questions e <> [] -> 0 < timeLimit e ->
   forall m : nat,
   exists w d,
     V1.attempt exams d0 uid examId perm
                (replicate (Z.to_nat (timeLimit e * 60) + m) EvTick) = Some w
     /\ V1.issued w = [(ByTimer, d)])
  /\ (questions e = [] \/ timeLimit e <= 0 ->
      forall n : nat,
      exists w,
        V1.attempt exams d0 uid examId perm (replicate n EvTick) = Some w
        /\ V1.issued w = []).
Proof.
  intros He Hperm.
  destruct (V1_fetchExam_renders exams examId perm e He Hperm)
    as (s & Hf & Hse & Hsub & Ht & Hr).
  unfold V1.attempt. rewrite Hf. split.
  - intros Hq Hl m.
    rewrite bool_decide_eq_false_2 in Hr by done. simpl in Hr.
    set (k := Z.to_nat (timeLimit e * 60 - 1)).
    assert (Hk : V1.timeLeft s = Some (Z.of_nat k + 1)).
    { rewrite Ht. f_equal. subst k. lia. }
    destruct (V1_expiry_alone_writes_once uid examId s e d0 k m Hse Hsub Hk Hr)
      as [d Hd].
    replace (Z.to_nat (timeLimit e * 60) + m)%nat with (S k + m)%nat
      by (subst k; lia).
    eauto.
  - intros Hcase n. eexists. split; [reflexivity|].
    rewrite V1_ticks_without_timer.
    + unfold V1.mount. by destruct (V1.renders s).
    + unfold V1.mount. destruct (V1.renders s) eqn:Hr'; simpl; [|done].
      destruct Hcase as [Hq | Hl].
      * rewrite Hq in Hr. rewrite bool_decide_eq_true_2 in Hr by done.
        simpl in Hr. congruence.
      * unfold V1.timer_effect. rewrite Ht.
        destruct (Z.leb_spec (timeLimit e * 60) 0); [done|lia].
Qed.

Lemma V1_expiry_writes_exactly_once_witness :
  one_exam exam_once !! "exam1" = Some exam_once
  /\ (shuffleQuestions exam_once = true ->
      [] ≡ₚ seq 0 (length (questions exam_once)))
  /\ (questions exam_once <> [] -> 0 < timeLimit exam_once ->
      forall m : nat,
      exists w d,
        V1.attempt (one_exam exam_once) empty_store "student1" "exam1" []
                   (replicate (Z.to_nat (timeLimit exam_once * 60) + m) EvTick) = Some w
        /\ V1.issued w = [(ByTimer, d)])
  /\ (questions exam_once = [] \/ timeLimit exam_once <= 0 ->
      forall n : nat,
      exists w,
        V1.attempt (one_exam exam_once) empty_store "student1" "exam1" []
                   (replicate n EvTick) = Some w
        /\ V1.issued w = []).
Proof.
  assert (He : one_exam exam_once !! "exam1" = Some exam_once) by reflexivity.
  assert (Hp : shuffleQuestions exam_once = true ->
               [] ≡ₚ seq 0 (length (questions exam_once))).
  { intros H. vm_compute in H. discriminate. }
  split; [exact He|]. split; [exact Hp|].
  exact (V1_expiry_writes_exactly_once (one_exam exam_once) empty_store
                                       "student1" "exam1" [] exam_once He Hp).
Defined.

(** X27.  Second revision, nothing happening but the passing of time,
    after a load that succeeds.  For a time limit above zero, once the
    seconds of the limit have passed exactly one submission has been
    issued, by the timer, however long the page stays open.  For a time
    limit of zero no interval is set and time never issues a
    submission. *)
Theorem V2_expiry_writes_exactly_once
        (exams : gmap string Exam) (d0 : Store V2.Submission) (uid examId : string)
        (perm : list nat) (e : Exam) :
  exams !! examId = Some e ->
  isPublished e = true ->
  (allowReattempts e = true
   \/ ~ exists k sub, docs d0 !! k = Some sub
                      /\ V2.sub_examId sub = examId
                      /\ V2.sub_studentId sub = uid) ->
  (0 < timeLimit e ->
   forall m : nat,
   exists w d,
     V2.attempt exams d0 uid examId perm
                (replicate (Z.to_nat (timeLimit e * 60) + m) EvTick) = Some w
     /\ V2.issued w = [(ByTimer, d)])
  /\ (timeLimit e = 0 ->
      forall n : nat,
      exists w,
        V2.attempt exams d0 uid examId perm (replicate n EvTick) = Some w
        /\ V2.issued w = []).
Proof.
  intros He Hp Hre.
  destruct (V2_fetchExam_cases exams d0 examId uid perm) as (_ & _ & _ & H4).
  destruct (H4 e He Hp Hre) as (s & Hf & Hse & Ht).
  unfold V2.attempt. rewrite Hf. split.
  - intros Hl m.
    pose proof (V2_fetchExam_ok _ _ _ _ _ _ _ He ltac:(lia) Hf) as Hok.
    assert (Hscore : is_Some (V2.finalScore (questions e) (V2.answers s))).
    { destruct (V2_submissionData_ok uid examId e s Hok) as (d & Hd & _).
      unfold V2.submissionData in Hd. rewrite Hse in Hd.
      destruct (V2.finalScore (questions e) (V2.answers s)); [eauto|done]. }
    set (k := Z.to_nat (timeLimit e * 60 - 1)).
    assert (Hk : V2.timeLeft s = Z.of_nat k + 1) by (rewrite Ht; subst k; lia).
    destruct (V2_expiry_alone_writes_once uid examId s e d0 k m Hse Hscore Hk)
      as [d Hd].
    replace (Z.to_nat (timeLimit e * 60) + m)%nat with (S k + m)%nat
      by (subst k; lia).
    eauto.
  - intros Hl n. eexists. split; [reflexivity|].
    rewrite V2_ticks_without_timer; [done|].
    unfold V2.mount, V2.timer_effect. simpl. rewrite Ht, Hl. done.
Qed.

Lemma V2_expiry_writes_exactly_once_witness :
  one_exam exam_once !! "exam1" = Some exam_once
  /\ isPublished exam_once = true
  /\ (allowReattempts exam_once = true
      \/ ~ exists k sub, docs (empty_store (D := V2.Submission)) !! k = Some sub
                         /\ V2.sub_examId sub = "exam1"
                         /\ V2.sub_studentId sub = "student1")
  /\ (0 < timeLimit exam_once ->
      forall m : nat,
      exists w d,
        V2.attempt (one_exam exam_once) empty_store "student1" "exam1" []
                   (replicate (Z.to_nat (timeLimit exam_once * 60) + m) EvTick) = Some w
        /\ V2.issued w = [(ByTimer, d)])
  /\ (timeLimit exam_once = 0 ->
      forall n : nat,
      exists w,
        V2.attempt (one_exam exam_once) empty_store "student1" "exam1" []
                   (replicate n EvTick) = Some w
        /\ V2.issued w = []).
Proof.
  assert (He : one_exam exam_once !! "exam1" = Some exam_once) by reflexivity.
  assert (Hp : isPublished exam_once = true) by reflexivity.
  assert (Hr : allowReattempts exam_once = true
               \/ ~ exists k sub, docs (empty_store (D := V2.Submission)) !! k = Some sub
                                  /\ V2.sub_examId sub = "exam1"
                                  /\ V2.sub_studentId sub = "student1").
  { right. intros (k & sub & Hk & _). done. }
  split; [exact He|]. split; [exact Hp|]. split; [exact Hr|].
  exact (V2_expiry_writes_exactly_once (one_exam exam_once) empty_store
                                       "student1" "exam1" [] exam_once He Hp Hr).
Defined.
